(** * Habit tracker (src/habit-tracker/src/App.jsx): due dates, scoring,
      streaks, the top-5 leaderboard and the name + code gate.

    The React component is embedded as pure functions over an explicit
    world: the Firestore documents it reads and writes, and the component
    state its handlers close over.  The numbers the component stores are
    the integers [Z] (points, xp, counters and day counts are integers
    throughout the program; the interval typed into the form is read by
    [JS.Number_of_string], and a run that would store an interval other
    than an integer ends as [Beyond]).  [NaN] is [None] where an
    operation can produce it, strings are [string] holding UTF-8 text,
    and [null]/[undefined] fields are [None]. *)

From Stdlib Require Import ZArith List String Ascii Bool Lia Permutation Sorted.
From stdpp Require Import gmap strings fin_maps sorting.
Import ListNotations.

Local Open Scope string_scope.
Local Open Scope list_scope.
Local Open Scope Z_scope.

(** ** JavaScript primitives used by the component *)

Module JS.

(** A number or [NaN]. *)
Definition num := option Z.

(** [x || d] on a number field: [0] is falsy. *)
Definition or_num (x d : Z) : Z := if x =? 0 then d else x.

(** [!s] on a string-or-null field: [null], [undefined] and the empty
    string are falsy. *)
Definition falsy (s : option string) : bool :=
  match s with
  | None => true
  | Some t => String.eqb t ""
  end.

(** [s || d] on strings. *)
Definition or_str (s d : string) : string :=
  if String.eqb s "" then d else s.

(** [Math.round (n / d)] for [d > 0]: nearest integer, halves go up. *)
Definition Math_round_div (n d : Z) : Z := (2 * n + d) / (2 * d).

(** [Math.floor (n / d)]. *)
Definition Math_floor_div (n d : Z) : Z := n / d.

(** [x >= y] where [x] may be [NaN]: every comparison with [NaN] is false. *)
Definition ge_num (x : num) (y : Z) : bool :=
  match x with
  | Some v => y <=? v
  | None => false
  end.

(** [s === t] where [s] may be [null]. *)
Definition same_text (s : option string) (t : string) : bool :=
  match s with
  | Some v => String.eqb v t
  | None => false
  end.

(** [x === y] where [x] may be [NaN]. *)
Definition eq_num (x : num) (y : Z) : bool :=
  match x with
  | Some v => v =? y
  | None => false
  end.

(** White space of one character code: tab, line feed, vertical tab,
    form feed, carriage return and space. *)
Definition is_space (c : ascii) : bool :=
  let n := nat_of_ascii c in
  (Nat.leb 9 n && Nat.leb n 13) || Nat.eqb n 32.

(** Text is UTF-8.  The other white space and line terminators of
    ECMAScript take two or three character codes: U+00A0; U+1680,
    U+2000 to U+200A, U+2028, U+2029, U+202F, U+205F, U+3000 and
    U+FEFF. *)
Definition is_space2 (a b : ascii) : bool :=
  Nat.eqb (nat_of_ascii a) 194 && Nat.eqb (nat_of_ascii b) 160.

Definition is_space3 (a b c : ascii) : bool :=
  let x := nat_of_ascii a in
  let y := nat_of_ascii b in
  let z := nat_of_ascii c in
  (Nat.eqb x 225 && Nat.eqb y 154 && Nat.eqb z 128)
  || (Nat.eqb x 226 && Nat.eqb y 128
      && ((Nat.leb 128 z && Nat.leb z 138) || Nat.eqb z 168 || Nat.eqb z 169 || Nat.eqb z 175))
  || (Nat.eqb x 226 && Nat.eqb y 129 && Nat.eqb z 159)
  || (Nat.eqb x 227 && Nat.eqb y 128 && Nat.eqb z 128)
  || (Nat.eqb x 239 && Nat.eqb y 187 && Nat.eqb z 191).

(** The text without the white space it starts with; [two] and [three]
    recognise the white space of two and of three character codes. *)
Fixpoint strip (two : ascii -> ascii -> bool) (three : ascii -> ascii -> ascii -> bool)
    (s : string) : string :=
  match s with
  | String a r1 =>
      if is_space a then strip two three r1
      else match r1 with
           | String b r2 =>
               if two a b then strip two three r2
               else match r2 with
                    | String c r3 => if three a b c then strip two three r3 else s
                    | EmptyString => s
                    end
           | EmptyString => s
           end
  | EmptyString => EmptyString
  end.

Definition trim_start (s : string) : string := strip is_space2 is_space3 s.

(** [trim_start] on a text written backwards. *)
Definition trim_start_backwards (s : string) : string :=
  strip (fun a b => is_space2 b a) (fun a b c => is_space3 c b a) s.

Fixpoint rev_string (s acc : string) : string :=
  match s with
  | String c r => rev_string r (String c acc)
  | EmptyString => acc
  end.

(** [String.prototype.trim] *)
Definition trim (s : string) : string :=
  rev_string (trim_start_backwards (rev_string (trim_start s) "")) "".

Definition digit_of (c : ascii) : option Z :=
  let n := nat_of_ascii c in
  if Nat.leb 48 n && Nat.leb n 57 then Some (Z.of_nat n - 48) else None.

(** A digit of a hexadecimal literal, in either case. *)
Definition hex_digit_of (c : ascii) : option Z :=
  let n := nat_of_ascii c in
  if Nat.leb 48 n && Nat.leb n 57 then Some (Z.of_nat n - 48)
  else if Nat.leb 97 n && Nat.leb n 102 then Some (Z.of_nat n - 87)
  else if Nat.leb 65 n && Nat.leb n 70 then Some (Z.of_nat n - 55)
  else None.

(** The value of a numeric literal before it is rounded to a double:
    [NaN], an infinity, or [mantissa * 10 ^ exponent] with its sign
    (the mantissa is not negative; the sign tells [-0] from [0]). *)
Inductive number :=
| NaN
| Infinity (negative : bool)
| Finite (negative : bool) (mantissa exponent : Z).

(** The decimal digits a text starts with: their value after [acc], how
    many they are after [n], and the rest of the text. *)
Fixpoint read_digits (acc : Z) (n : Z) (s : string) : Z * Z * string :=
  match s with
  | String c r =>
      match digit_of c with
      | Some d => read_digits (10 * acc + d) (n + 1) r
      | None => (acc, n, s)
      end
  | EmptyString => (acc, n, s)
  end.

(** The digits of a binary, octal or hexadecimal literal: [None] when
    another character occurs. *)
Fixpoint read_radix (base : Z) (acc : Z) (s : string) : option Z :=
  match s with
  | EmptyString => Some acc
  | String c r =>
      match hex_digit_of c with
      | Some d => if d <? base then read_radix base (base * acc + d) r else None
      | None => None
      end
  end.

Definition radix_literal (base : Z) (s : string) : number :=
  match s with
  | EmptyString => NaN
  | _ => match read_radix base 0 s with
         | Some v => Finite false v 0
         | None => NaN
         end
  end.

(** [ExponentPart], when the text is one to its end: [e] or [E], an
    optional sign, and digits. *)
Definition exponent_part (s : string) : option Z :=
  match s with
  | EmptyString => Some 0
  | String c r =>
      if Ascii.eqb c "e" || Ascii.eqb c "E"
      then
        let '(negative, digits) :=
          match r with
          | String "+" r' => (false, r')
          | String "-" r' => (true, r')
          | _ => (false, r)
          end in
        match read_digits 0 0 digits with
        | (v, n, EmptyString) =>
            if n =? 0 then None else Some (if negative then - v else v)
        | _ => None
        end
      else None
  end.

(** [StrUnsignedDecimalLiteral]: [Infinity], or digits with an optional
    fraction and an optional exponent, at least one digit before the
    exponent. *)
Definition unsigned_literal (negative : bool) (s : string) : number :=
  if String.eqb s "Infinity" then Infinity negative
  else
    let '(whole, n, rest) := read_digits 0 0 s in
    let '(mantissa, places, digits, rest') :=
      match rest with
      | String "." r =>
          let '(m, k, r') := read_digits whole 0 r in (m, k, n + k, r')
      | _ => (whole, 0, n, rest)
      end in
    if digits =? 0 then NaN
    else match exponent_part rest' with
         | Some e => Finite negative mantissa (e - places)
         | None => NaN
         end.

(** [Number(text)], the [StringToNumber] of ECMAScript before rounding:
    white space is trimmed, the empty text is [0], a binary, octal or
    hexadecimal literal takes no sign, a decimal literal takes one. *)
Definition Number_of_string (s : string) : number :=
  match trim s with
  | EmptyString => Finite false 0 0
  | String "+" r => unsigned_literal false r
  | String "-" r => unsigned_literal true r
  | String "0" (String c r) as t =>
      if Ascii.eqb c "x" || Ascii.eqb c "X" then radix_literal 16 r
      else if Ascii.eqb c "o" || Ascii.eqb c "O" then radix_literal 8 r
      else if Ascii.eqb c "b" || Ascii.eqb c "B" then radix_literal 2 r
      else unsigned_literal false t
  | t => unsigned_literal false t
  end.

(** [x || d] on such a value: [NaN], [0] and [-0] are falsy.  (So is a
    value that rounding takes to [0]; it is below one, and
    [Math_max_one] below gives [1] for it as for [d = 1].) *)
Definition or_number (x : number) (d : number) : number :=
  match x with
  | NaN => d
  | Infinity _ => x
  | Finite _ m _ => if m =? 0 then d else x
  end.

(** [x < 1] *)
Definition below_one (x : number) : bool :=
  match x with
  | NaN => false
  | Infinity negative => negative
  | Finite negative m e =>
      negative || (m =? 0) || ((e <? 0) && (m <? 10 ^ (- e)))
  end.

(** The integer that [x] is, if it is one. *)
Definition whole_of (x : number) : option Z :=
  match x with
  | Finite negative m e =>
      if 0 <=? e then Some ((if negative then - m else m) * 10 ^ e)
      else if m mod 10 ^ (- e) =? 0
           then Some ((if negative then - m else m) / 10 ^ (- e))
           else None
  | _ => None
  end.

(** The integers that a double holds exactly reach [2 ^ 53]. *)
Definition maxWhole : Z := 2 ^ 53.

(** [Math.max(1, x)] for [x] other than [NaN], among the integers of this
    model: [1] below one (rounding keeps a value below one at most one),
    the value itself when it is an integer up to [maxWhole], which
    rounding leaves alone, and [None] for a fraction, a greater number
    or [Infinity], which are no integers that a double holds exactly. *)
Definition Math_max_one (x : number) : option Z :=
  if below_one x then Some 1
  else match whole_of x with
       | Some z => if z <=? maxWhole then Some z else None
       | None => None
       end.

End JS.

(** ** Utilities (App.jsx lines 44-49) *)

Module DateUtil.

Definition msPerDay : Z := 1000 * 60 * 60 * 24.

Definition is_leap (y : Z) : bool :=
  ((y mod 4 =? 0) && negb (y mod 100 =? 0)) || (y mod 400 =? 0).

Definition days_in_month (y m : Z) : Z :=
  if m =? 2 then (if is_leap y then 29 else 28)
  else if (m =? 4) || (m =? 6) || (m =? 9) || (m =? 11) then 30
  else 31.

(** Day number of a civil date, [1970-01-01] being day [0]. *)
Definition days_from_civil (y m d : Z) : Z :=
  let y' := if m <=? 2 then y - 1 else y in
  let era := y' / 400 in
  let yoe := y' - era * 400 in
  let mp := if 2 <? m then m - 3 else m + 9 in
  let doy := (153 * mp + 2) / 5 + d - 1 in
  let doe := yoe * 365 + yoe / 4 - yoe / 100 + doy in
  era * 146097 + doe - 719468.

Definition two_digits (a b : ascii) : option Z :=
  match JS.digit_of a, JS.digit_of b with
  | Some x, Some y => Some (10 * x + y)
  | _, _ => None
  end.

(** The fields of a [YYYY-MM-DD] text, as [todayYMD] writes the days of
    the years 0 to 9999; [None] for every other text.  The date format
    of ECMAScript has further forms (a year of six digits with its sign,
    a date without its day), and engines read some texts outside it (a
    day past the end of its month); the component writes none of these,
    and the facts below that rest on a date take its fields as given. *)
Definition parseYMD (s : string) : option (Z * Z * Z) :=
  match s with
  | String y1 (String y2 (String y3 (String y4 (String "-"
      (String m1 (String m2 (String "-" (String d1 (String d2 EmptyString))))))))) =>
      match two_digits y1 y2, two_digits y3 y4, two_digits m1 m2, two_digits d1 d2 with
      | Some yh, Some yl, Some m, Some d =>
          let y := 100 * yh + yl in
          if (1 <=? m) && (m <=? 12) && (1 <=? d) && (d <=? days_in_month y m)
          then Some (y, m, d) else None
      | _, _, _, _ => None
      end
  | _ => None
  end.

Section LocalTime.

(** The host's time zone: the offset (ms ahead of UTC) in force at a
    local wall-clock time, itself counted in ms as if it were UTC. *)
Variable localOffset : Z -> Z.

(** [new Date(s + "T00:00:00")]: the time value of local midnight, or
    [NaN] for an invalid date. *)
Definition localMidnight (s : string) : JS.num :=
  match parseYMD s with
  | Some (y, m, d) =>
      let wall := days_from_civil y m d * msPerDay in
      Some (wall - localOffset wall)
  | None => None
  end.

(** [daysBetween(from, to)], lines 45-49. *)
Definition daysBetween (from to : string) : JS.num :=
  match localMidnight from, localMidnight to with
  | Some a, Some b => Some (JS.Math_round_div (b - a) msPerDay)
  | _, _ => None
  end.

End LocalTime.

End DateUtil.

(** ** Documents (the shapes of App.jsx lines 56-58) *)

(** A habit.  Its [intervalDays] is a whole number of days: [addHabit]
    is followed where it stores one ([newIntervalDays] below). *)
Module Habit.
Record t := mk {
  id : string;
  title : string;
  freq : string;
  intervalDays : Z;
  lastDoneDate : option string;
  totalCompletions : Z
}.
End Habit.

Module UserDoc.
Record t := mk {
  codeHash : string;
  points : Z;
  xp : Z;
  level : Z;
  overallStreak : Z;
  lastActiveDate : option string;
  habits : list Habit.t
}.
End UserDoc.

(** An entry of [leaderboard/global.players]. *)
Module Player.
Record t := mk {
  name : string;
  points : Z;
  streak : Z;
  level : Z
}.
End Player.

(** The add-habit form.  Its interval holds the number [1] initially and
    the text of the input box once the user has typed in it. *)
Module NewHabit.
Inductive field := NumberValue (z : Z) | TextValue (s : string).
Record t := mk {
  title : string;
  freq : string;
  intervalDays : field
}.
(** [Number(newHabit.intervalDays)]. *)
Definition Number (v : field) : JS.number :=
  match v with
  | NumberValue z => JS.Finite (z <? 0) (Z.abs z) 0
  | TextValue s => JS.Number_of_string s
  end.
End NewHabit.

(** ** The leaderboard list (App.jsx line 217) *)

Module Board.

Section Sort.
Context {A : Type}.
(** [compareFn a b]: negative puts [a] first, positive puts [b] first. *)
Variable compareFn : A -> A -> Z.

(** [x] stood before every element of [l]; it moves past exactly the
    elements that the comparison puts first. *)
Fixpoint insert (x : A) (l : list A) : list A :=
  match l with
  | [] => [x]
  | y :: r => if 0 <? compareFn x y then y :: insert x r else x :: l
  end.

(** [Array.prototype.sort(compareFn)]: a stable sort. *)
Fixpoint sort (l : list A) : list A :=
  match l with
  | [] => []
  | x :: r => insert x (sort r)
  end.
End Sort.

(** [(a, b) => b.points - a.points] *)
Definition byPoints (a b : Player.t) : Z := Player.points b - Player.points a.

(** [(p) => p.name !== me.name] *)
Definition otherThan (me : Player.t) (p : Player.t) : Prop :=
  Player.name p <> Player.name me.

#[global] Instance otherThan_dec me p : Decision (otherThan me p).
Proof. unfold otherThan. apply _. Defined.

(** [players.filter(..).concat(me).sort(..).slice(0, 5)] *)
Definition reconcile (players : list Player.t) (me : Player.t) : list Player.t :=
  take 5 (sort byPoints (filter (otherThan me) players ++ [me])).

End Board.

(** ** The world of a handler: the remote documents and the component state *)

(** Firestore: [users/<name>], [meta/roster.names] and
    [leaderboard/global.players]; [None] is a document that does not
    exist. *)
Record Store := mkStore {
  users : gmap string UserDoc.t;
  roster : option (list string);
  leaderboard : option (list Player.t)
}.

(** The [useState] cells the handlers read and write (lines 62-70), and
    the names whose [onSnapshot] listener is live.  [userDoc] is
    [{ name, ...data }]. *)
Record Client := mkClient {
  selectedName : string;
  code : string;
  codeHash : string;
  userDoc : option (string * UserDoc.t);
  loading : bool;
  newHabit : NewHabit.t;
  listeners : list string
}.

Record World := mkWorld { store : Store; client : Client }.

(** How a handler ends: it runs to its end (or a bare [return]), it
    returns from an [alert], or an awaited store call rejects.  [Beyond]
    ends a run that would store a number other than an integer, which
    this model does not follow. *)
Inductive Outcome :=
| Done
| Alert (msg : string)
| Rejected
| Beyond.

Inductive Step (A : Type) :=
| Next (a : A) (w : World)
| Stop (o : Outcome) (w : World).
Arguments Next {A} a w.
Arguments Stop {A} o w.

Definition Action (A : Type) : Type := World -> Step A.

#[global] Instance action_ret : MRet Action := fun A a w => Next a w.
#[global] Instance action_bind : MBind Action := fun A B k m w =>
  match m w with
  | Next a w' => k a w'
  | Stop o w' => Stop o w'
  end.

Definition run (m : Action unit) (w : World) : Outcome * World :=
  match m w with
  | Next _ w' => (Done, w')
  | Stop o w' => (o, w')
  end.

Definition alert (msg : string) : Action unit := fun w => Stop (Alert msg) w.
Definition return_ : Action unit := fun w => Stop Done w.
Definition beyond : Action unit := fun w => Stop Beyond w.
Definition getClient : Action Client := fun w => Next (client w) w.
Definition modifyClient (f : Client -> Client) : Action unit :=
  fun w => Next tt (mkWorld (store w) (f (client w))).
Definition modifyStore (f : Store -> Store) : Action unit :=
  fun w => Next tt (mkWorld (f (store w)) (client w)).

Definition setCodeHash (ch : string) : Action unit :=
  modifyClient (fun c => mkClient (selectedName c) (code c) ch (userDoc c)
                                  (loading c) (newHabit c) (listeners c)).
Definition setUserDoc (u : option (string * UserDoc.t)) : Action unit :=
  modifyClient (fun c => mkClient (selectedName c) (code c) (codeHash c) u
                                  (loading c) (newHabit c) (listeners c)).
Definition setLoading (b : bool) : Action unit :=
  modifyClient (fun c => mkClient (selectedName c) (code c) (codeHash c) (userDoc c)
                                  b (newHabit c) (listeners c)).
Definition setNewHabit (n : NewHabit.t) : Action unit :=
  modifyClient (fun c => mkClient (selectedName c) (code c) (codeHash c) (userDoc c)
                                  (loading c) n (listeners c)).
Definition addListener (name : string) : Action unit :=
  modifyClient (fun c => mkClient (selectedName c) (code c) (codeHash c) (userDoc c)
                                  (loading c) (newHabit c) (name :: listeners c)).

(** The names that Firestore takes as the id of a document: not empty,
    at most 1500 bytes, no [/], neither [.] nor [..], and not of the form
    [__.*__].  For these [doc(db, "users", name)] is the document
    [users/<name>], as the operations below have it for every name; a
    name with a [/] in it is another path, or none. *)
Definition validId (name : string) : bool :=
  negb (String.eqb name "")
  && (Z.of_nat (String.length name) <=? 1500)
  && negb (existsb (Ascii.eqb "/") (list_ascii_of_string name))
  && negb (String.eqb name ".") && negb (String.eqb name "..")
  && negb ((4 <=? Z.of_nat (String.length name))
           && String.prefix "__" name && String.prefix "__" (JS.rev_string name "")).

(** [getDoc(doc(db, "users", name))]: [None] when [snap.exists()] is false. *)
Definition getUser (name : string) : Action (option UserDoc.t) :=
  fun w => Next (users (store w) !! name) w.

(** The listener of line 124 on a pushed snapshot of [users/<name>]. *)
Definition onUserSnapshot (name : string) : Action unit :=
  d ← getUser name;
  match d with
  | Some data => setUserDoc (Some (name, data))
  | None => mret tt
  end.

(** A write to [users/<name>] is pushed to the listeners on it. *)
Definition notify (name : string) : Action unit :=
  c ← getClient;
  if bool_decide (name ∈ listeners c) then onUserSnapshot name else mret tt.

(** [setDoc(ref, payload)] on a user document: replaces it. *)
Definition setUser (name : string) (payload : UserDoc.t) : Action unit :=
  modifyStore (fun s => mkStore (<[name := payload]> (users s)) (roster s) (leaderboard s));;
  notify name.

(** [updateDoc(ref, fields)] on a user document: merges the fields into
    the stored document, and rejects when there is none. *)
Definition updateUser (name : string) (fields : UserDoc.t -> UserDoc.t) : Action unit :=
  d ← getUser name;
  match d with
  | Some data => setUser name (fields data)
  | None => fun w => Stop Rejected w
  end.

Definition getRoster : Action (option (list string)) :=
  fun w => Next (roster (store w)) w.
Definition setRoster (names : list string) : Action unit :=
  modifyStore (fun s => mkStore (users s) (Some names) (leaderboard s)).
Definition getLeaderboard : Action (option (list Player.t)) :=
  fun w => Next (leaderboard (store w)) w.
Definition setLeaderboard (players : list Player.t) : Action unit :=
  modifyStore (fun s => mkStore (users s) (roster s) (Some players)).

(** [subscribeToUser(name)], lines 122-129: the listener is registered
    and receives the document as it stands. *)
Definition subscribeToUser (name : string) : Action unit :=
  addListener name;; onUserSnapshot name.

(** ** The component (App.jsx lines 60-219) *)

Section Component.

(** The host's time zone and [sha256], which the component takes from
    its platform. *)
Variable localOffset : Z -> Z.
Variable sha256 : string -> string.

Local Abbreviation daysBetween := (DateUtil.daysBetween localOffset).

(** [levelFromXP], line 139. *)
Definition levelFromXP (xp : Z) : Z :=
  JS.Math_floor_div (JS.or_num xp 0) 100 + 1.

(** The constant [interval] of [isHabitDue], line 141. *)
Definition interval (h : Habit.t) : Z :=
  if String.eqb (Habit.freq h) "daily" then 1
  else if String.eqb (Habit.freq h) "every2days" then 2
  else Z.max 1 (JS.or_num (Habit.intervalDays h) 1).

(** [isHabitDue(h, date)], lines 140-144. *)
Definition isHabitDue (h : Habit.t) (date : string) : bool :=
  if JS.falsy (Habit.lastDoneDate h) then true
  else match Habit.lastDoneDate h with
       | Some last => JS.ge_num (daysBetween last date) (interval h)
       | None => true
       end.

(** [handleEnter], lines 85-118. *)
Definition handleEnter : Action unit :=
  c ← getClient;
  if String.eqb (selectedName c) "" || String.eqb (code c) ""
  then alert "Enter name and code"
  else
    let ch := sha256 (code c) in
    setCodeHash ch;;
    snap ← getUser (selectedName c);
    match snap with
    | Some data =>
        if negb (String.eqb (UserDoc.codeHash data) ch)
        then alert "Wrong code for this name"
        else subscribeToUser (selectedName c);; setLoading false
    | None =>
        let payload := UserDoc.mk ch 0 0 1 0 None [] in
        setUser (selectedName c) payload;;
        curr ← getRoster;
        let names := match curr with Some ns => ns | None => [] end in
        (if negb (existsb (String.eqb (selectedName c)) names)
         then setRoster (firstn 50 (names ++ [selectedName c]))
         else mret tt);;
        subscribeToUser (selectedName c);;
        setLoading false
    end.

(** The [intervalDays] of a new habit, line 159; [None] when it is not
    an integer of this model. *)
Definition newIntervalDays (n : NewHabit.t) : option Z :=
  if String.eqb (NewHabit.freq n) "custom"
  then JS.Math_max_one (JS.or_number (NewHabit.Number (NewHabit.intervalDays n))
                                     (JS.Finite false 1 0))
  else Some (if String.eqb (NewHabit.freq n) "every2days" then 2 else 1).

Definition withHabits (list : list Habit.t) (d : UserDoc.t) : UserDoc.t :=
  UserDoc.mk (UserDoc.codeHash d) (UserDoc.points d) (UserDoc.xp d) (UserDoc.level d)
             (UserDoc.overallStreak d) (UserDoc.lastActiveDate d) list.

(** The constant [habit] of [addHabit], lines 156-168; [uuid] is what
    [crypto.randomUUID()] returns.  [addHabit] below uses it where the
    interval is an integer. *)
Definition habit (uuid : string) (n : NewHabit.t) : Habit.t :=
  let title := JS.trim (JS.or_str (NewHabit.title n) "Untitled") in
  let freq := NewHabit.freq n in
  let intervalDays := default 1 (newIntervalDays n) in
  Habit.mk uuid title freq intervalDays None 0.

(** The end of a run whose [updateDoc] carries a number that is no
    integer: it rejects where the document is missing, as every
    [updateDoc] does, and is not followed further where it is there. *)
Definition updateBeyond (name : string) : Action unit :=
  d ← getUser name;
  match d with
  | Some _ => beyond
  | None => fun w => Stop Rejected w
  end.

(** [addHabit], lines 152-172. *)
Definition addHabit (uuid : string) : Action unit :=
  c ← getClient;
  match userDoc c with
  | None => return_
  | Some (name, u) =>
      let list := UserDoc.habits u in
      if (15 <=? Z.of_nat (length list))
      then alert "Max 15 habits"
      else
        let title := JS.trim (JS.or_str (NewHabit.title (newHabit c)) "Untitled") in
        if String.eqb title ""
        then alert "Give the habit a title"
        else
          match newIntervalDays (newHabit c) with
          | Some _ =>
              updateUser name (withHabits (list ++ [habit uuid (newHabit c)]));;
              setNewHabit (NewHabit.mk "" "daily" (NewHabit.NumberValue 1))
          | None => updateBeyond name
          end
  end.

(** [deleteHabit], lines 174-178. *)
Definition deleteHabit (id : string) : Action unit :=
  c ← getClient;
  match userDoc c with
  | None => return_
  | Some (name, u) =>
      let list := List.filter (fun h => negb (String.eqb (Habit.id h) id)) (UserDoc.habits u) in
      updateUser name (withHabits list)
  end.

(** The callback of the [map] of line 183. *)
Definition markDone (id today : string) (h : Habit.t) : Habit.t :=
  if String.eqb (Habit.id h) id
  then Habit.mk (Habit.id h) (Habit.title h) (Habit.freq h) (Habit.intervalDays h)
                (Some today) (JS.or_num (Habit.totalCompletions h) 0 + 1)
  else h.

Definition addPoints : Z := 10.

(** [newXP] and [newLevel], lines 187-188. *)
Definition newXP (u : UserDoc.t) : Z := JS.or_num (UserDoc.xp u) 0 + addPoints.
Definition newLevel (u : UserDoc.t) : Z := levelFromXP (newXP u).

(** [newStreak] after lines 191-200. *)
Definition newStreak (u : UserDoc.t) (today : string) : Z :=
  let newStreak := JS.or_num (UserDoc.overallStreak u) 0 in
  let last := UserDoc.lastActiveDate u in
  if JS.same_text last today then newStreak
  else if JS.falsy last then 1
  else match last with
       | Some from =>
           let gap := daysBetween from today in
           if JS.eq_num gap 1 then newStreak + 1 else 1
       | None => 1
       end.

(** The fields written by the [updateDoc] of lines 203-210. *)
Definition completionFields (id today : string) (u : UserDoc.t) (d : UserDoc.t) : UserDoc.t :=
  UserDoc.mk (UserDoc.codeHash d)
             (JS.or_num (UserDoc.points u) 0 + addPoints)
             (newXP u)
             (newLevel u)
             (newStreak u today)
             (Some today)
             (markDone id today <$> UserDoc.habits u).

(** [me], line 216. *)
Definition me (name : string) (u : UserDoc.t) (today : string) : Player.t :=
  Player.mk name (JS.or_num (UserDoc.points u) 0 + addPoints) (newStreak u today) (newLevel u).

(** [completeHabit], lines 180-219; [today] is what [todayYMD()]
    returns. *)
Definition completeHabit (id today : string) : Action unit :=
  c ← getClient;
  match userDoc c with
  | None => return_
  | Some (name, u) =>
      updateUser name (completionFields id today u);;
      lsnap ← getLeaderboard;
      let players := match lsnap with Some ps => ps | None => [] end in
      setLeaderboard (Board.reconcile players (me name u today))
  end.

(** The "Switch user" button, line 265. *)
Definition switchUser : Action unit := setUserDoc None.

End Component.

(** ** The text of a digest (App.jsx line 53) *)

Module Hex.

(** A digit of [Number.prototype.toString(16)]: [0-9], then [a-f]. *)
Definition hexDigit (n : Z) : ascii :=
  if n <? 10 then ascii_of_nat (48 + Z.to_nat n) else ascii_of_nat (87 + Z.to_nat n).

(** [b.toString(16)] for a byte [b]: one digit below 16, two from 16 on. *)
Definition toString16 (b : Z) : string :=
  if b <? 16 then String (hexDigit b) ""
  else String (hexDigit (b / 16)) (String (hexDigit (b mod 16)) "").

(** [s.padStart(2, "0")] *)
Definition padStart2 (s : string) : string :=
  match s with
  | EmptyString => "00"
  | String c EmptyString => String "0" s
  | _ => s
  end.

(** [[...bytes].map((b) => b.toString(16).padStart(2, "0")).join("")] *)
Fixpoint hex (bytes : list Z) : string :=
  match bytes with
  | [] => ""
  | b :: rest => String.append (padStart2 (toString16 b)) (hex rest)
  end.

End Hex.

(** ** The clock (App.jsx line 44) *)

Module Clock.

(** The civil date of a day number: the inverse of
    [DateUtil.days_from_civil], as [Date] computes the UTC fields of a
    time value. *)
Definition civil_from_days (z : Z) : Z * Z * Z :=
  let z' := z + 719468 in
  let era := z' / 146097 in
  let doe := z' - era * 146097 in
  let yoe := (doe - doe / 1460 + doe / 36524 - doe / 146096) / 365 in
  let y := yoe + era * 400 in
  let doy := doe - (365 * yoe + yoe / 4 - yoe / 100) in
  let mp := (5 * doy + 2) / 153 in
  let d := doy - (153 * mp + 2) / 5 + 1 in
  let m := if mp <? 10 then mp + 3 else mp - 9 in
  (if m <=? 2 then y + 1 else y, m, d).

Definition digit (n : Z) : ascii := ascii_of_nat (48 + Z.to_nat n).

(** [n] in two, four and six decimal digits, followed by [rest]. *)
Definition pad2 (n : Z) (rest : string) : string :=
  String (digit (n / 10)) (String (digit (n mod 10)) rest).
Definition pad4 (n : Z) (rest : string) : string :=
  pad2 (n / 100) (pad2 (n mod 100) rest).
Definition pad6 (n : Z) (rest : string) : string :=
  pad2 (n / 10000) (pad4 (n mod 10000) rest).

(** [todayYMD()] when the clock reads the time value [now]: the first
    ten characters of [toISOString()], which writes the UTC date as
    [YYYY-MM-DD] for the years 0 to 9999 and with a sign and six digits
    of year otherwise. *)
Definition todayYMD (now : Z) : string :=
  let '(y, m, d) := civil_from_days (now / DateUtil.msPerDay) in
  if (0 <=? y) && (y <=? 9999)
  then pad4 y (String "-" (pad2 m (String "-" (pad2 d ""))))
  else String (if y <? 0 then "-"%char else "+"%char)
              (pad6 (Z.abs y) (String "-" (pad2 m ""))).

End Clock.

(** ** The rest of the view (App.jsx lines 82, 146-149, 243-244, 284) *)

(** [setSelectedName] and [setCode], the two inputs of the gate. *)
Definition setSelectedName (name : string) : Action unit :=
  modifyClient (fun c => mkClient name (code c) (codeHash c) (userDoc c)
                                  (loading c) (newHabit c) (listeners c)).
Definition setCode (text : string) : Action unit :=
  modifyClient (fun c => mkClient (selectedName c) text (codeHash c) (userDoc c)
                                  (loading c) (newHabit c) (listeners c)).

(** [handlePickName], line 82. *)
Definition handlePickName (name : string) : Action unit := setSelectedName name.

Section View.

Variable localOffset : Z -> Z.

(** [dueCount], lines 146-149; [today] is what [todayYMD()] returns. *)
Definition dueCount (c : Client) (today : string) : nat :=
  match userDoc c with
  | None => 0%nat
  | Some (_, u) =>
      length (List.filter (fun h => isHabitDue localOffset h today) (UserDoc.habits u))
  end.

(** [h.lastDoneDate || todayYMD()] *)
Definition lastDoneOr (h : Habit.t) (today : string) : string :=
  match Habit.lastDoneDate h with
  | Some last => if JS.falsy (Some last) then today else last
  | None => today
  end.

(** The number of the "Next due in" label of line 284, shown for a habit
    that is not due: [Math.max(0, interval - daysBetween(..))], which is
    [NaN] when the difference is. *)
Definition nextDueIn (h : Habit.t) (today : string) : JS.num :=
  match DateUtil.daysBetween localOffset (lastDoneOr h today) today with
  | Some gap => Some (Z.max 0 (interval h - gap))
  | None => None
  end.

End View.

(** ** What a user can do, one step at a time *)

Inductive Event :=
| PickName (name : string)
| TypeName (name : string)
| TypeCode (text : string)
| EditForm (form : NewHabit.t)
| Enter
| AddHabit (uuid : string)
| DeleteHabit (id : string)
| CompleteHabit (id today : string)
| SwitchUser.

Definition handle (localOffset : Z -> Z) (sha256 : string -> string) (e : Event) : Action unit :=
  match e with
  | PickName name => handlePickName name
  | TypeName name => setSelectedName name
  | TypeCode text => setCode text
  | EditForm form => setNewHabit form
  | Enter => handleEnter sha256
  | AddHabit uuid => addHabit uuid
  | DeleteHabit id => deleteHabit id
  | CompleteHabit id today => completeHabit localOffset id today
  | SwitchUser => switchUser
  end.

(** The world after a list of events, oldest first. *)
Fixpoint after (localOffset : Z -> Z) (sha256 : string -> string)
    (events : list Event) (w : World) : World :=
  match events with
  | [] => w
  | e :: rest => after localOffset sha256 rest (run (handle localOffset sha256 e) w).2
  end.

(** ** Words of the specification, to compare the code with *)

(** The frequency policies of the data model, and how the component
    reads a stored [freq]: every text other than ["daily"] and
    ["every2days"] takes the custom branch. *)
Inductive Frequency := Daily | EveryTwoDays | Custom.

Definition frequencyOf (freq : string) : Frequency :=
  if String.eqb freq "daily" then Daily
  else if String.eqb freq "every2days" then EveryTwoDays
  else Custom.

(** [effectiveInterval]: 1 for Daily, 2 for EveryTwoDays,
    [max(1, intervalDays)] for Custom. *)
Definition effectiveInterval (f : Frequency) (intervalDays : Z) : Z :=
  match f with
  | Daily => 1
  | EveryTwoDays => 2
  | Custom => Z.max 1 intervalDays
  end.

(** Descending by points. *)
Definition descending (a b : Player.t) : Prop := Player.points b <= Player.points a.

(** The number of entries of a list that carry a name. *)
Definition entriesFor (n : string) (l : list Player.t) : nat :=
  length (filter (fun p => Player.name p = n) l).

(** Where the stable sort puts an entry that was appended to a sorted
    list: behind every entry with at least as many points. *)
Fixpoint place (e : Player.t) (l : list Player.t) : list Player.t :=
  match l with
  | [] => [e]
  | y :: r => if Player.points e <=? Player.points y then y :: place e r else e :: l
  end.

(** The entries that [reconcile] keeps beside the candidate: the others,
    in order. *)
Definition others (players : list Player.t) (me : Player.t) : list Player.t :=
  Board.sort Board.byPoints (filter (Board.otherThan me) players).

(** The leaderboards the component can have written, from the absent
    document on. *)
Inductive written : list Player.t -> Prop :=
| written_absent : written []
| written_reconcile players me : written players -> written (Board.reconcile players me).

(** The component state after a write of [data] to [users/<name>]: the
    snapshot is pushed to it when it listens on that document. *)
Definition pushed (name : string) (data : UserDoc.t) (c : Client) : Client :=
  if bool_decide (name ∈ listeners c)
  then mkClient (selectedName c) (code c) (codeHash c) (Some (name, data))
                (loading c) (newHabit c) (listeners c)
  else c.

(** An interval input that is not a number of days: not numeric, or
    less than 1.  [mantissa * 10 ^ exponent < 1] is written without the
    negative power. *)
Definition malformedInterval (v : NewHabit.field) : Prop :=
  match NewHabit.Number v with
  | JS.NaN => True
  | JS.Infinity negative => negative = true
  | JS.Finite negative m e =>
      negative = true \/ m * 10 ^ Z.max e 0 < 10 ^ Z.max (- e) 0
  end.

(** An interval input that is a number of days: the integer [n], from 1
    up to the largest that a double holds exactly. *)
Definition wholeInterval (v : NewHabit.field) (n : Z) : Prop :=
  exists negative m e,
    NewHabit.Number v = JS.Finite negative m e /\
    negative = false /\ 1 <= n <= JS.maxWhole /\
    m * 10 ^ Z.max e 0 = n * 10 ^ Z.max (- e) 0.

(** [strip] on the list of characters. *)
Fixpoint skip (two : ascii -> ascii -> bool) (three : ascii -> ascii -> ascii -> bool)
    (l : list ascii) : list ascii :=
  match l with
  | a :: r1 =>
      if JS.is_space a then skip two three r1
      else match r1 with
           | b :: r2 =>
               if two a b then skip two three r2
               else match r2 with
                    | c :: r3 => if three a b c then skip two three r3 else l
                    | [] => l
                    end
           | [] => l
           end
  | [] => []
  end.

(** No white space at the head of a list of characters. *)
Definition stuck (two : ascii -> ascii -> bool) (three : ascii -> ascii -> ascii -> bool)
    (l : list ascii) : Prop :=
  match l with
  | a :: r1 =>
      JS.is_space a = false /\
      match r1 with
      | b :: r2 =>
          two a b = false /\
          match r2 with
          | c :: _ => three a b c = false
          | [] => True
          end
      | [] => True
      end
  | [] => True
  end.

(** A name that can stand in the name box when [handleEnter] runs. *)
Definition nameOk (name : string) : Prop := name = "" \/ validId name = true.

Definition eventOk (e : Event) : Prop :=
  match e with
  | PickName name | TypeName name => nameOk name
  | _ => True
  end.

(** The names that can reach [doc(db, "users", name)], the one in the
    name box and the one of the user signed in, and the names that the
    store holds. *)
Definition NamesOk (w : World) : Prop :=
  nameOk (selectedName (client w)) /\
  (forall name u, userDoc (client w) = Some (name, u) -> validId name = true) /\
  (forall name d, users (store w) !! name = Some d -> validId name = true) /\
  Forall (fun p => validId (Player.name p) = true) (default [] (leaderboard (store w))).

(** ** What one client keeps true *)

(** A fresh project: no document yet, nobody signed in, no listener. *)
Definition fresh (w : World) : Prop :=
  users (store w) = ∅ /\ roster (store w) = None /\ leaderboard (store w) = None /\
  userDoc (client w) = None /\ listeners (client w) = [].

(** What the documents of one client, started on a fresh project, keep
    true. *)
Definition HabitOk (h : Habit.t) : Prop :=
  1 <= Habit.intervalDays h /\
  Habit.title h <> "" /\
  0 <= Habit.totalCompletions h /\
  (Habit.lastDoneDate h = None <-> Habit.totalCompletions h = 0).

Definition DocOk (d : UserDoc.t) : Prop :=
  UserDoc.points d = UserDoc.xp d /\
  UserDoc.level d = UserDoc.xp d / 100 + 1 /\
  (UserDoc.lastActiveDate d = None -> UserDoc.xp d = 0 /\ UserDoc.overallStreak d = 0) /\
  (is_Some (UserDoc.lastActiveDate d) -> 10 <= UserDoc.xp d /\ 1 <= UserDoc.overallStreak d) /\
  (length (UserDoc.habits d) <= 15)%nat /\
  Forall HabitOk (UserDoc.habits d).

(** The entry of a player agrees with the document of that name. *)
Definition agrees (us : gmap string UserDoc.t) (p : Player.t) : Prop :=
  exists d, us !! Player.name p = Some d /\
            UserDoc.points d = Player.points p /\
            UserDoc.overallStreak d = Player.streak p /\
            UserDoc.level d = Player.level p.

Definition BoardOk (us : gmap string UserDoc.t) (l : list Player.t) : Prop :=
  (length l <= 5)%nat /\
  NoDup (Player.name <$> l) /\
  StronglySorted descending l /\
  Forall (agrees us) l.

Definition RosterOk (us : gmap string UserDoc.t) (names : list string) : Prop :=
  (length names <= 50)%nat /\ NoDup names /\ Forall (fun n => is_Some (us !! n)) names.

Definition WorldOk (w : World) : Prop :=
  map_Forall (fun _ d => DocOk d) (users (store w)) /\
  BoardOk (users (store w)) (default [] (leaderboard (store w))) /\
  RosterOk (users (store w)) (default [] (roster (store w))) /\
  (forall name u, userDoc (client w) = Some (name, u) ->
     users (store w) !! name = Some u /\ name ∈ listeners (client w)).

(** ** Sample data for the examples *)

Definition utc : Z -> Z := fun _ => 0.

(** A zone one hour ahead of UTC, two hours from the morning of
    2024-03-31 to that of 2024-10-27. *)
Definition summerTime : Z -> Z := fun wall =>
  if (1711850400000 <=? wall) && (wall <? 1729994400000) then 7200000 else 3600000.

(** A stand-in for the digest of a code. *)
Definition digest (text : string) : string := "#" +:+ text.

Definition reading : Habit.t :=
  Habit.mk "h1" "Read 20 mins" "daily" 1 (Some "2024-01-02") 3.
Definition stretching : Habit.t :=
  Habit.mk "h2" "Stretch" "custom" 3 (Some "2024-01-01") 1.
Definition ann : UserDoc.t :=
  UserDoc.mk (digest "1234") 90 95 1 4 (Some "2024-01-01") [reading; stretching].

Definition blankForm : NewHabit.t := NewHabit.mk "" "daily" (NewHabit.NumberValue 1).

Definition shelf : Store :=
  mkStore {[ "ann" := ann ]} (Some ["ann"]) (Some [Player.mk "ann" 90 4 1]).

(** Ann signed in, the form untouched. *)
Definition signedIn : World :=
  mkWorld shelf (mkClient "ann" "1234" (digest "1234") (Some ("ann", ann)) false blankForm ["ann"]).

(** Ann signed in, a custom habit typed in with the interval text [text]. *)
Definition typing (text : string) : World :=
  mkWorld shelf (mkClient "ann" "1234" (digest "1234") (Some ("ann", ann)) false
                          (NewHabit.mk "Run" "custom" (NewHabit.TextValue text)) ["ann"]).

(** Nobody signed in, Ann's name picked and the code [0000] typed. *)
Definition atGate : World :=
  mkWorld shelf (mkClient "ann" "0000" "" None true blankForm []).

(** A user with [n] habits. *)
Definition crowded (n : nat) : UserDoc.t :=
  UserDoc.mk (digest "1234") 0 0 1 0 None (replicate n reading).

Definition topFive : list Player.t :=
  [Player.mk "a" 90 1 1; Player.mk "b" 80 1 1; Player.mk "c" 70 1 1;
   Player.mk "d" 60 1 1; Player.mk "e" 50 1 1].

(** A first visit: Ann creates her name, adds a custom habit with the
    interval text [0], and completes it twice on 2024-01-01 and once on
    the next day. *)
Definition firstVisit : Action unit :=
  handleEnter digest;;
  setNewHabit (NewHabit.mk " Read " "custom" (NewHabit.TextValue "0"));;
  addHabit "h1";;
  completeHabit utc "h1" "2024-01-01";;
  completeHabit utc "h1" "2024-01-01";;
  completeHabit utc "h1" "2024-01-02".

Definition emptyWorld : World :=
  mkWorld (mkStore ∅ None None) (mkClient "ann" "1234" "" None true blankForm []).

(** A visit as a list of events, and Ann's document at its end. *)
Definition visit : list Event :=
  [Enter; EditForm (NewHabit.mk " Read " "custom" (NewHabit.TextValue "0"));
   AddHabit "h1"; CompleteHabit "h1" "2024-01-01"; CompleteHabit "h1" "2024-01-01";
   SwitchUser; Enter; CompleteHabit "h1" "2024-01-02"].

Definition annAfterVisit : UserDoc.t :=
  UserDoc.mk (digest "1234") 30 30 1 2 (Some "2024-01-02")
             [Habit.mk "h1" "Read" "custom" 1 (Some "2024-01-02") 3].

(** Bob picks a new name at the gate. *)
Definition newcomer : World :=
  mkWorld shelf (mkClient "bob" "4321" "" None true blankForm []).

(** Ann signed in, with the title [text] typed into the form. *)
Definition titled (text : string) : World :=
  mkWorld shelf (mkClient "ann" "1234" (digest "1234") (Some ("ann", ann)) false
                          (NewHabit.mk text "every2days" (NewHabit.NumberValue 1)) ["ann"]).

(** U+00A0, the no-break space, in UTF-8. *)
Definition nbsp : string := String (ascii_of_nat 194) (String (ascii_of_nat 160) "").

(** Ann signed in, her document deleted from the store by somebody. *)
Definition orphaned : World :=
  mkWorld (mkStore ∅ (Some ["ann"]) None) (client signedIn).

(** * Facts *)

(** ** JavaScript primitives *)

Lemma or_num_0 (x : Z) : JS.or_num x 0 = x.
Proof. unfold JS.or_num. destruct (Z.eqb_spec x 0); congruence. Qed.

Lemma or_num_1_max (x : Z) : Z.max 1 (JS.or_num x 1) = Z.max 1 x.
Proof. unfold JS.or_num. destruct (Z.eqb_spec x 0); subst; lia. Qed.

Lemma Math_round_div_near (k e d : Z) :
  0 < d -> - d <= 2 * e < d -> JS.Math_round_div (k * d + e) d = k.
Proof.
  intros Hd He. unfold JS.Math_round_div.
  replace (2 * (k * d + e) + d) with (k * (2 * d) + (2 * e + d)) by ring.
  rewrite Z.div_add_l by lia.
  rewrite (Z.div_small (2 * e + d)) by lia. lia.
Qed.

(** ** The date utility *)

(** In a zone whose offset varies by less than half a day (daylight
    saving), [daysBetween] is the difference of the calendar days. *)
Lemma daysBetween_exact (localOffset : Z -> Z) (from to : string) y1 m1 d1 y2 m2 d2 :
  (forall a b, - DateUtil.msPerDay <= 2 * (localOffset a - localOffset b) < DateUtil.msPerDay) ->
  DateUtil.parseYMD from = Some (y1, m1, d1) ->
  DateUtil.parseYMD to = Some (y2, m2, d2) ->
  DateUtil.daysBetween localOffset from to =
    Some (DateUtil.days_from_civil y2 m2 d2 - DateUtil.days_from_civil y1 m1 d1).
Proof.
  intros Hoff Hf Ht. unfold DateUtil.daysBetween, DateUtil.localMidnight.
  rewrite Hf, Ht. f_equal.
  set (a := DateUtil.days_from_civil y1 m1 d1).
  set (b := DateUtil.days_from_civil y2 m2 d2).
  specialize (Hoff (a * DateUtil.msPerDay) (b * DateUtil.msPerDay)).
  set (oa := localOffset (a * DateUtil.msPerDay)) in *.
  set (ob := localOffset (b * DateUtil.msPerDay)) in *.
  replace (b * DateUtil.msPerDay - ob - (a * DateUtil.msPerDay - oa))
    with ((b - a) * DateUtil.msPerDay + (oa - ob)) by ring.
  apply Math_round_div_near; [reflexivity | exact Hoff].
Qed.

Lemma daysBetween_empty (localOffset : Z -> Z) (to : string) :
  DateUtil.daysBetween localOffset "" to = None.
Proof. reflexivity. Qed.

(** ** The stable sort of the leaderboard *)

Section BoardFacts.

Implicit Types (l players : list Player.t) (x y e me : Player.t).

Local Abbreviation sort := (Board.sort Board.byPoints).
Local Abbreviation insert := (Board.insert Board.byPoints).

Lemma byPoints_pos x y : (0 <? Board.byPoints x y) = (Player.points x <? Player.points y).
Proof. unfold Board.byPoints. destruct (Z.ltb_spec 0 (Player.points y - Player.points x)), (Z.ltb_spec (Player.points x) (Player.points y)); lia. Qed.

(** Case analysis on the comparisons of points that a goal holds. *)
Ltac by_order :=
  repeat (simpl; rewrite ?byPoints_pos;
          match goal with
          | |- context [Z.ltb ?a ?b] => destruct (Z.ltb_spec a b)
          | |- context [Z.leb ?a ?b] => destruct (Z.leb_spec a b)
          end);
  try lia; try done.

Lemma insert_Permutation x l : insert x l ≡ₚ x :: l.
Proof.
  induction l as [|y r IH]; simpl; [done|].
  destruct (0 <? Board.byPoints x y); [|done].
  rewrite IH. apply perm_swap.
Qed.

Lemma sort_Permutation l : sort l ≡ₚ l.
Proof.
  induction l as [|x r IH]; simpl; [done|].
  by rewrite insert_Permutation, IH.
Qed.

Lemma insert_sorted x l :
  StronglySorted descending l -> StronglySorted descending (insert x l).
Proof.
  induction 1 as [|y r Hr IH Hy]; simpl.
  - repeat constructor.
  - rewrite byPoints_pos. destruct (Z.ltb_spec (Player.points x) (Player.points y)).
    + constructor; [exact IH|].
      rewrite insert_Permutation. constructor; [unfold descending; lia | exact Hy].
    + constructor; [by constructor|].
      constructor; [exact H|].
      eapply Forall_impl; [exact Hy|]. unfold descending. intros; simpl in *; lia.
Qed.

Lemma sort_sorted l : StronglySorted descending (sort l).
Proof.
  induction l as [|x r IH]; simpl; [constructor | by apply insert_sorted].
Qed.

(** A list that is already in order is left as it is. *)
Lemma sort_sorted_id l : StronglySorted descending l -> sort l = l.
Proof.
  induction 1 as [|x r Hr IH Hx]; simpl; [done|].
  rewrite IH. destruct r as [|y r']; simpl; [done|].
  rewrite byPoints_pos. apply Forall_cons in Hx as [Hxy _]. unfold descending in Hxy.
  destruct (Z.ltb_spec (Player.points x) (Player.points y)); [lia | done].
Qed.

Lemma insert_place x e l : insert x (place e l) = place e (insert x l).
Proof.
  induction l as [|y r IH]; simpl.
  - by_order.
  - by_order; try (f_equal; exact IH).
Qed.

(** The stable sort of a list with an entry appended. *)
Lemma sort_snoc l e : sort (l ++ [e]) = place e (sort l).
Proof.
  induction l as [|x r IH]; simpl; [done|].
  by rewrite IH, insert_place.
Qed.

Lemma place_Permutation e l : place e l ≡ₚ e :: l.
Proof.
  induction l as [|y r IH]; simpl; [done|].
  destruct (Player.points e <=? Player.points y); [|done].
  rewrite IH. apply perm_swap.
Qed.

Lemma length_place e l : length (place e l) = S (length l).
Proof. by rewrite place_Permutation. Qed.

Lemma StronglySorted_take l n :
  StronglySorted descending l -> StronglySorted descending (take n l).
Proof.
  intros H. revert n. induction H as [|x r Hr IH Hx]; intros [|n]; simpl; try constructor.
  - apply IH.
  - by apply Forall_take.
Qed.

Lemma StronglySorted_filter (P : Player.t -> Prop) `{!forall p, Decision (P p)} l :
  StronglySorted descending l -> StronglySorted descending (filter P l).
Proof.
  induction 1 as [|x r Hr IH Hx]; [constructor|].
  rewrite filter_cons. destruct (decide (P x)); [|exact IH].
  constructor; [exact IH|].
  apply Forall_forall. intros y Hy%list_elem_of_filter.
  rewrite Forall_forall in Hx. apply Hx, Hy.
Qed.

Lemma filter_all (P : Player.t -> Prop) `{!forall p, Decision (P p)} l :
  Forall P l -> filter P l = l.
Proof.
  induction 1 as [|x r Hx Hr IH]; [done|].
  by rewrite filter_cons_True, IH.
Qed.

Lemma others_otherThan players me : Forall (Board.otherThan me) (others players me).
Proof.
  unfold others. rewrite sort_Permutation.
  apply Forall_forall. by intros x [? _]%list_elem_of_filter.
Qed.

Lemma others_sorted players me : StronglySorted descending (others players me).
Proof. apply sort_sorted. Qed.

Lemma reconcile_place players me :
  Board.reconcile players me = take 5 (place me (others players me)).
Proof. unfold Board.reconcile, others. by rewrite sort_snoc. Qed.

Lemma reconcile_sorted players me : StronglySorted descending (Board.reconcile players me).
Proof. unfold Board.reconcile. apply StronglySorted_take, sort_sorted. Qed.

Lemma length_reconcile players me : (length (Board.reconcile players me) <= 5)%nat.
Proof. unfold Board.reconcile. rewrite length_take. lia. Qed.

(** Truncating, dropping the candidate and placing it again changes
    nothing within the truncation. *)
Lemma take_place_again e s n :
  Forall (Board.otherThan e) s ->
  take (S n) (place e (filter (Board.otherThan e) (take (S n) (place e s))))
  = take (S n) (place e s).
Proof.
  intros Hs. revert n. induction Hs as [|y r Hy Hr IH]; intros n.
  - simpl. rewrite take_nil, filter_cons_False, filter_nil by (unfold Board.otherThan; tauto).
    simpl. by rewrite take_nil.
  - simpl place at 2 3. destruct (Z.leb_spec (Player.points e) (Player.points y)) as [Hey|Hey].
    + rewrite !firstn_cons, filter_cons_True by done.
      simpl place. destruct (Z.leb_spec (Player.points e) (Player.points y)); [|lia].
      rewrite firstn_cons. f_equal.
      destruct n as [|n]; [done|]. apply IH.
    + rewrite !firstn_cons, filter_cons_False by (unfold Board.otherThan; tauto).
      rewrite filter_all by (apply Forall_take; by constructor).
      destruct n as [|n]; [done|].
      rewrite !firstn_cons. simpl place.
      destruct (Z.leb_spec (Player.points e) (Player.points y)); [lia|].
      rewrite !firstn_cons. do 2 f_equal.
      rewrite take_take. f_equal. lia.
Qed.

Lemma reconcile_idempotent players me :
  Board.reconcile (Board.reconcile players me) me = Board.reconcile players me.
Proof.
  rewrite (reconcile_place (Board.reconcile players me)). unfold others.
  rewrite sort_sorted_id by apply StronglySorted_filter, reconcile_sorted.
  rewrite reconcile_place. apply take_place_again, others_otherThan.
Qed.

Lemma filter_sublist (P : Player.t -> Prop) `{!forall p, Decision (P p)} l1 l2 :
  l1 `sublist_of` l2 -> filter P l1 `sublist_of` filter P l2.
Proof.
  induction 1 as [|x l1 l2 _ IH|x l1 l2 _ IH]; [done| |];
    rewrite ?(filter_cons _ x); destruct (decide (P x)); try done.
  - by constructor.
  - by constructor.
Qed.

Lemma reconcile_names_NoDup players me :
  NoDup (Player.name <$> players) -> NoDup (Player.name <$> Board.reconcile players me).
Proof.
  intros Hnd. unfold Board.reconcile.
  eapply sublist_NoDup; [|apply fmap_sublist, sublist_take].
  rewrite sort_Permutation, fmap_app. apply NoDup_app. split_and!.
  - eapply sublist_NoDup; [exact Hnd | apply fmap_sublist, sublist_filter].
  - intros n (p & -> & [Hp _]%list_elem_of_filter)%list_elem_of_fmap.
    simpl. rewrite list_elem_of_singleton. exact Hp.
  - apply NoDup_singleton.
Qed.

Lemma entriesFor_placed players me :
  entriesFor (Player.name me) (place me (others players me)) = 1%nat.
Proof.
  unfold entriesFor. rewrite place_Permutation, filter_cons_True by done.
  simpl. f_equal. apply length_zero_iff_nil.
  pose proof (others_otherThan players me) as Ho.
  induction Ho as [|x r Hx _ IH]; [done|].
  by rewrite filter_cons_False.
Qed.

Lemma entriesFor_reconcile_le players me :
  (entriesFor (Player.name me) (Board.reconcile players me) <= 1)%nat.
Proof.
  rewrite <- (entriesFor_placed players me), reconcile_place. unfold entriesFor.
  apply sublist_length, filter_sublist, sublist_take.
Qed.

Lemma entriesFor_reconcile_eq players me :
  (length (filter (Board.otherThan me) players) <= 4)%nat ->
  entriesFor (Player.name me) (Board.reconcile players me) = 1%nat.
Proof.
  intros Hlen. rewrite reconcile_place, take_ge; [apply entriesFor_placed|].
  rewrite length_place. unfold others. rewrite sort_Permutation. lia.
Qed.

(** Six candidates with distinct points: the five kept all have more
    points than the one dropped. *)
Lemma reconcile_drops_lowest players me :
  length players = 5%nat ->
  Forall (Board.otherThan me) players ->
  NoDup (Player.points <$> players ++ [me]) ->
  exists low,
    Board.reconcile players me ++ [low] ≡ₚ players ++ [me] /\
    Forall (fun p => Player.points low < Player.points p) (Board.reconcile players me).
Proof.
  intros Hlen Hother Hnd. unfold Board.reconcile. rewrite filter_all by done.
  set (S := sort (players ++ [me])).
  assert (HS : S ≡ₚ players ++ [me]) by apply sort_Permutation.
  assert (Hsorted : StronglySorted descending S) by apply sort_sorted.
  assert (HlenS : length S = 6%nat) by (rewrite HS, length_app, Hlen; done).
  destruct (drop 5 S) as [|low [|? ?]] eqn:Hdrop;
    try (apply (f_equal length) in Hdrop; rewrite length_drop, HlenS in Hdrop; discriminate).
  assert (Hsplit : S = take 5 S ++ [low]) by (rewrite <- Hdrop; symmetry; apply take_drop).
  exists low. split; [by rewrite <- Hsplit|].
  apply Forall_forall. intros p Hp.
  assert (Hle : descending p low).
  { rewrite Hsplit in Hsorted.
    eapply StronglySorted_app_1_elem_of; [exact Hsorted | | apply list_elem_of_singleton; reflexivity].
    rewrite Hsplit, take_app_length' in Hp; [exact Hp|].
    rewrite length_take, HlenS. done. }
  assert (Hne : Player.points p <> Player.points low).
  { rewrite <- HS, Hsplit, fmap_app in Hnd. apply NoDup_app in Hnd as (_ & Hnd & _).
    intros Heq. apply (Hnd (Player.points p)).
    - by apply list_elem_of_fmap_2.
    - simpl. rewrite Heq. apply list_elem_of_singleton. reflexivity. }
  unfold descending in Hle. lia.
Qed.

(** Every leaderboard the component has written holds at most five
    entries, no name twice, in descending order of points. *)
Lemma written_invariant l :
  written l ->
  (length l <= 5)%nat /\ NoDup (Player.name <$> l) /\ StronglySorted descending l.
Proof.
  induction 1 as [|players me _ (_ & Hnd & _)].
  - split_and!; [simpl; lia | constructor | constructor].
  - split_and!; [apply length_reconcile | by apply reconcile_names_NoDup | apply reconcile_sorted].
Qed.

End BoardFacts.

(** ** The handlers *)

(** Unfolds the plumbing of a handler down to its store and state
    operations. *)
Ltac handler :=
  cbv beta iota zeta delta
    [run mbind action_bind mret action_ret getClient getUser
     updateUser setUser notify onUserSnapshot setUserDoc modifyStore
     modifyClient getLeaderboard setLeaderboard getRoster setRoster
     setCodeHash setLoading setNewHabit subscribeToUser addListener
     alert return_ beyond orb negb];
  cbn [store client users roster leaderboard selectedName code
       codeHash userDoc loading newHabit listeners].

Section ComponentFacts.

Variable localOffset : Z -> Z.
Variable sha256 : string -> string.

Lemma updateUser_run name fields w d :
  users (store w) !! name = Some d ->
  updateUser name fields w =
    Next tt (mkWorld (mkStore (<[name := fields d]> (users (store w)))
                              (roster (store w)) (leaderboard (store w)))
                     (pushed name (fields d) (client w))).
Proof.
  intros Hd. handler. rewrite Hd. handler. unfold pushed.
  destruct (bool_decide (name ∈ listeners (client w))); handler.
  - by rewrite lookup_insert_eq.
  - by destruct w as [? []].
Qed.

Lemma completeHabit_run id today w name u d :
  userDoc (client w) = Some (name, u) ->
  users (store w) !! name = Some d ->
  run (completeHabit localOffset id today) w =
    (Done,
     mkWorld (mkStore (<[name := completionFields localOffset id today u d]> (users (store w)))
                      (roster (store w))
                      (Some (Board.reconcile (default [] (leaderboard (store w)))
                                             (me localOffset name u today))))
             (pushed name (completionFields localOffset id today u d) (client w))).
Proof.
  intros Hu Hd. unfold run, completeHabit, mbind, action_bind, getClient.
  rewrite Hu. rewrite (updateUser_run _ _ _ _ Hd). handler.
  by destruct (leaderboard (store w)).
Qed.

(** Without a stored document the [updateDoc] rejects: nothing is
    written, the leaderboard included. *)
Lemma completeHabit_without_document id today w name u :
  userDoc (client w) = Some (name, u) ->
  users (store w) !! name = None ->
  run (completeHabit localOffset id today) w = (Rejected, w).
Proof.
  intros Hu Hd. unfold run, completeHabit, mbind, action_bind, getClient.
  rewrite Hu. handler. by rewrite Hd.
Qed.

(** Nobody signed in: the handlers return at once. *)
Lemma handlers_without_user id today uuid w :
  userDoc (client w) = None ->
  run (completeHabit localOffset id today) w = (Done, w) /\
  run (addHabit uuid) w = (Done, w) /\
  run (deleteHabit id) w = (Done, w).
Proof.
  intros Hu. unfold run, completeHabit, addHabit, deleteHabit, mbind, action_bind, getClient.
  by rewrite Hu.
Qed.

Lemma newStreak_cases (u : UserDoc.t) (today : string) :
  (UserDoc.lastActiveDate u = Some today ->
     newStreak localOffset u today = UserDoc.overallStreak u) /\
  (UserDoc.lastActiveDate u = None -> newStreak localOffset u today = 1) /\
  (forall last, UserDoc.lastActiveDate u = Some last -> last <> today ->
     (DateUtil.daysBetween localOffset last today = Some 1 ->
        newStreak localOffset u today = UserDoc.overallStreak u + 1) /\
     (DateUtil.daysBetween localOffset last today <> Some 1 ->
        newStreak localOffset u today = 1)).
Proof.
  unfold newStreak. rewrite or_num_0. split_and!.
  - intros ->. simpl. by rewrite String.eqb_refl.
  - by intros ->.
  - intros last -> Hne. simpl.
    apply String.eqb_neq in Hne as ->.
    destruct (String.eqb_spec last "") as [->|_].
    + rewrite daysBetween_empty. by split.
    + destruct (DateUtil.daysBetween localOffset last today) as [gap|]; simpl.
      * destruct (Z.eqb_spec gap 1) as [->|Hgap]; split; try done.
        intros [=]. lia.
      * by split.
Qed.

Lemma levelFromXP_floor (xp : Z) : levelFromXP xp = xp / 100 + 1.
Proof. unfold levelFromXP, JS.Math_floor_div. by rewrite or_num_0. Qed.

Lemma interval_effective (h : Habit.t) :
  interval h = effectiveInterval (frequencyOf (Habit.freq h)) (Habit.intervalDays h).
Proof.
  unfold interval, frequencyOf.
  destruct (String.eqb (Habit.freq h) "daily"); [done|].
  destruct (String.eqb (Habit.freq h) "every2days"); [done|].
  apply or_num_1_max.
Qed.

(** C1. For every habit and reference date: [isHabitDue] answers true
    when [lastDoneDate] is absent (null or empty), and otherwise answers
    true exactly when [daysBetween(lastDoneDate, date)] is a number at
    least the effective interval, which is 1 for daily, 2 for every two
    days and [max(1, intervalDays)] on the custom branch. *)
Theorem isHabitDue_effectiveInterval (h : Habit.t) (date : string) :
  interval h = effectiveInterval (frequencyOf (Habit.freq h)) (Habit.intervalDays h) /\
  (JS.falsy (Habit.lastDoneDate h) = true -> isHabitDue localOffset h date = true) /\
  (forall last, Habit.lastDoneDate h = Some last -> last <> "" ->
     (isHabitDue localOffset h date = true <->
      exists gap, DateUtil.daysBetween localOffset last date = Some gap /\
                  effectiveInterval (frequencyOf (Habit.freq h)) (Habit.intervalDays h) <= gap)).
Proof.
  split_and!.
  - apply interval_effective.
  - unfold isHabitDue. by intros ->.
  - intros last Hlast Hne. unfold isHabitDue. rewrite Hlast, interval_effective. simpl.
    apply String.eqb_neq in Hne as ->.
    destruct (DateUtil.daysBetween localOffset last date) as [gap|]; simpl.
    + rewrite Z.leb_le. split; [eauto | by intros (g & [= ->] & Hg)].
    + split; [done | by intros (g & [=] & _)].
Qed.

(** C2. For every user state, one completion adds exactly 10 to the
    points and to the xp and stores the level [floor(newXp / 100) + 1];
    from xp 95 it stores xp 105 and level 2. *)
Theorem completeHabit_scoring id today w name u d :
  userDoc (client w) = Some (name, u) ->
  users (store w) !! name = Some d ->
  exists w' d',
    run (completeHabit localOffset id today) w = (Done, w') /\
    users (store w') !! name = Some d' /\
    UserDoc.points d' = UserDoc.points u + 10 /\
    UserDoc.xp d' = UserDoc.xp u + 10 /\
    UserDoc.level d' = (UserDoc.xp u + 10) / 100 + 1 /\
    (UserDoc.xp u = 95 -> UserDoc.xp d' = 105 /\ UserDoc.level d' = 2).
Proof.
  intros Hu Hd. eexists _, _. split; [by apply completeHabit_run|].
  split; [apply lookup_insert_eq|]. simpl.
  unfold newLevel, newXP, addPoints. rewrite levelFromXP_floor, !or_num_0.
  split_and!; try done. by intros ->.
Qed.

(** C3. For every user state and completion date [today], the stored
    streak is: unchanged when [lastActiveDate] is [today] (so a further
    completion on the same day leaves it as it is); 1 when
    [lastActiveDate] is absent; otherwise one more when
    [daysBetween(lastActiveDate, today)] is 1, and 1 in every other
    case. *)
Theorem completeHabit_streak id today w name u d :
  userDoc (client w) = Some (name, u) ->
  users (store w) !! name = Some d ->
  exists w' d',
    run (completeHabit localOffset id today) w = (Done, w') /\
    users (store w') !! name = Some d' /\
    (UserDoc.lastActiveDate u = Some today ->
       UserDoc.overallStreak d' = UserDoc.overallStreak u) /\
    (UserDoc.lastActiveDate u = None -> UserDoc.overallStreak d' = 1) /\
    (forall last, UserDoc.lastActiveDate u = Some last -> last <> today ->
       (DateUtil.daysBetween localOffset last today = Some 1 ->
          UserDoc.overallStreak d' = UserDoc.overallStreak u + 1) /\
       (DateUtil.daysBetween localOffset last today <> Some 1 ->
          UserDoc.overallStreak d' = 1)) /\
    newStreak localOffset d' today = UserDoc.overallStreak d'.
Proof.
  intros Hu Hd. eexists _, _. split; [by apply completeHabit_run|].
  split; [apply lookup_insert_eq|]. simpl.
  destruct (newStreak_cases u today) as (Hsame & Habsent & Hgap).
  split_and!; try done.
  by apply newStreak_cases.
Qed.

Lemma markDone_other id today (l : list Habit.t) :
  Forall (fun h => Habit.id h <> id) l -> markDone id today <$> l = l.
Proof.
  induction 1 as [|h r Hh _ IH]; [done|].
  rewrite fmap_cons, IH. f_equal. unfold markDone.
  by apply String.eqb_neq in Hh as ->.
Qed.

(** C4. For every habit of the user's list, completing it stores its
    [lastDoneDate] as [today] and its [totalCompletions] one higher,
    whether or not [isHabitDue] holds of it: no hypothesis on due-ness is
    needed, and the other habits stay as they are. *)
Theorem completeHabit_marks_done id today w name u d i h :
  userDoc (client w) = Some (name, u) ->
  users (store w) !! name = Some d ->
  UserDoc.habits u !! i = Some h ->
  Habit.id h = id ->
  exists w' d',
    run (completeHabit localOffset id today) w = (Done, w') /\
    users (store w') !! name = Some d' /\
    UserDoc.habits d' !! i =
      Some (Habit.mk (Habit.id h) (Habit.title h) (Habit.freq h) (Habit.intervalDays h)
                     (Some today) (Habit.totalCompletions h + 1)) /\
    length (UserDoc.habits d') = length (UserDoc.habits u) /\
    (forall j h2, UserDoc.habits u !! j = Some h2 -> Habit.id h2 <> id ->
                  UserDoc.habits d' !! j = Some h2).
Proof.
  intros Hu Hd Hi Hid. eexists _, _. split; [by apply completeHabit_run|].
  split; [apply lookup_insert_eq|]. simpl. split_and!.
  - rewrite list_lookup_fmap, Hi. simpl. unfold markDone.
    apply String.eqb_eq in Hid as ->. by rewrite or_num_0.
  - apply length_fmap.
  - intros j h2 Hj Hne. rewrite list_lookup_fmap, Hj. simpl. unfold markDone.
    by apply String.eqb_neq in Hne as ->.
Qed.

(** C10. For every user state and every id that no habit of the list
    carries, [completeHabit] still ends normally and stores points and xp
    10 higher, the level [floor(xp / 100) + 1] of the new xp,
    [lastActiveDate = today] and the streak after its transition: kept
    when the user was active today already, one more when the last
    active day is the day before, and 1 otherwise.  The habit list is
    stored as it was.  The leaderboard is rewritten with the user's new
    standing: it is the first five of a descending arrangement of the
    old entries of other names with the entry that carries the stored
    points, streak and level. *)
Theorem completeHabit_unknown_id id today w name u d :
  userDoc (client w) = Some (name, u) ->
  users (store w) !! name = Some d ->
  Forall (fun h => Habit.id h <> id) (UserDoc.habits u) ->
  exists w' d' board,
    run (completeHabit localOffset id today) w = (Done, w') /\
    users (store w') !! name = Some d' /\
    UserDoc.habits d' = UserDoc.habits u /\
    UserDoc.points d' = UserDoc.points u + 10 /\
    UserDoc.xp d' = UserDoc.xp u + 10 /\
    UserDoc.level d' = (UserDoc.xp u + 10) / 100 + 1 /\
    UserDoc.lastActiveDate d' = Some today /\
    UserDoc.codeHash d' = UserDoc.codeHash d /\
    (UserDoc.lastActiveDate u = Some today ->
       UserDoc.overallStreak d' = UserDoc.overallStreak u) /\
    (UserDoc.lastActiveDate u = None -> UserDoc.overallStreak d' = 1) /\
    (forall last, UserDoc.lastActiveDate u = Some last -> last <> today ->
       (DateUtil.daysBetween localOffset last today = Some 1 ->
          UserDoc.overallStreak d' = UserDoc.overallStreak u + 1) /\
       (DateUtil.daysBetween localOffset last today <> Some 1 ->
          UserDoc.overallStreak d' = 1)) /\
    leaderboard (store w') = Some board /\
    (length board <= 5)%nat /\
    (exists s,
       s ≡ₚ filter (fun p => Player.name p <> name) (default [] (leaderboard (store w)))
              ++ [Player.mk name (UserDoc.points d') (UserDoc.overallStreak d') (UserDoc.level d')] /\
       StronglySorted descending s /\
       board = take 5 s).
Proof.
  intros Hu Hd Hid. eexists _, _, _. split; [by apply completeHabit_run|]. simpl.
  split; [apply lookup_insert_eq|].
  unfold completionFields, me, newLevel, newXP, addPoints. simpl.
  rewrite (markDone_other _ _ _ Hid), levelFromXP_floor, !or_num_0.
  destruct (newStreak_cases u today) as (Hsame & Hfirst & Hgap).
  split_and!; try done.
  - apply length_reconcile.
  - eexists. split_and!; [|apply sort_sorted|reflexivity].
    rewrite sort_Permutation. apply Permutation_app_tail.
    by rewrite (list_filter_iff _ (fun p => Player.name p <> name)).
Qed.

(** ** Numbers read from the form *)

Lemma digit_of_range c d : JS.digit_of c = Some d -> 0 <= d <= 9.
Proof.
  unfold JS.digit_of. generalize (nat_of_ascii c). intros n.
  destruct (Nat.leb_spec 48 n), (Nat.leb_spec n 57); cbn [andb]; intros [=]; lia.
Qed.

Lemma hex_digit_of_range c d : JS.hex_digit_of c = Some d -> 0 <= d <= 15.
Proof.
  unfold JS.hex_digit_of. generalize (nat_of_ascii c). intros n.
  repeat match goal with
         | |- context [Nat.leb ?a ?b] => destruct (Nat.leb_spec a b); cbn [andb]
         end; intros [=]; lia.
Qed.

Lemma read_digits_nonneg s acc n v k r :
  0 <= acc -> JS.read_digits acc n s = (v, k, r) -> 0 <= v.
Proof.
  revert acc n. induction s as [|c s IH]; intros acc n Hacc; simpl.
  - by intros [= <- _ _].
  - destruct (JS.digit_of c) as [d|] eqn:Hd; [|by intros [= <- _ _]].
    apply digit_of_range in Hd. apply IH. lia.
Qed.

Lemma read_radix_nonneg base s acc v :
  0 <= base -> 0 <= acc -> JS.read_radix base acc s = Some v -> 0 <= v.
Proof.
  intros Hbase. revert acc. induction s as [|c s IH]; intros acc Hacc; simpl.
  - by intros [= <-].
  - destruct (JS.hex_digit_of c) as [d|] eqn:Hd; [|done].
    apply hex_digit_of_range in Hd.
    destruct (d <? base); [|done]. apply IH. nia.
Qed.

Lemma radix_literal_nonneg base s negative m e :
  0 <= base -> JS.radix_literal base s = JS.Finite negative m e -> 0 <= m.
Proof.
  intros Hbase. unfold JS.radix_literal. destruct s as [|c s]; [done|].
  destruct (JS.read_radix base 0 (String c s)) as [v|] eqn:Hv; [|done].
  intros [= _ <- _]. by apply (read_radix_nonneg base (String c s) 0).
Qed.

Lemma unsigned_literal_nonneg sign s negative m e :
  JS.unsigned_literal sign s = JS.Finite negative m e -> 0 <= m.
Proof.
  unfold JS.unsigned_literal. destruct (String.eqb s "Infinity"); [done|].
  destruct (JS.read_digits 0 0 s) as [[whole n] rest] eqn:Hwhole.
  apply read_digits_nonneg in Hwhole; [|done].
  assert (Hm : forall mantissa places digits rest',
             0 <= mantissa ->
             (if digits =? 0 then JS.NaN
              else match JS.exponent_part rest' with
                   | Some e' => JS.Finite sign mantissa (e' - places)
                   | None => JS.NaN
                   end) = JS.Finite negative m e -> 0 <= m).
  { intros mantissa places digits rest' Hpos. destruct (digits =? 0); [done|].
    destruct (JS.exponent_part rest'); [|done]. by intros [= _ <- _]. }
  destruct rest as [|c r]; [by apply Hm|].
  destruct (Ascii.eqb_spec c "."%char) as [->|Hc].
  - destruct (JS.read_digits whole 0 r) as [[m' k] r'] eqn:Hfrac.
    apply read_digits_nonneg in Hfrac; [|done]. by apply Hm.
  - assert (Hsame : (let '(mantissa, places, digits, rest') :=
                       match String c r with
                       | String "."%char r0 =>
                           let '(m0, k, r') := JS.read_digits whole 0 r0 in (m0, k, n + k, r')
                       | _ => (whole, 0, n, String c r)
                       end in
                     if digits =? 0 then JS.NaN
                     else match JS.exponent_part rest' with
                          | Some e' => JS.Finite sign mantissa (e' - places)
                          | None => JS.NaN
                          end)
                    = (if n =? 0 then JS.NaN
                       else match JS.exponent_part (String c r) with
                            | Some e' => JS.Finite sign whole (e' - 0)
                            | None => JS.NaN
                            end)).
    { destruct c as [[] [] [] [] [] [] [] []]; try done. }
    rewrite Hsame. by apply Hm.
Qed.

Lemma Number_of_string_nonneg s negative m e :
  JS.Number_of_string s = JS.Finite negative m e -> 0 <= m.
Proof.
  unfold JS.Number_of_string. destruct (JS.trim s) as [|c t]; [by intros [= _ <- _]|].
  assert (Hplain : JS.unsigned_literal false (String c t) = JS.Finite negative m e -> 0 <= m)
    by apply unsigned_literal_nonneg.
  assert (Hsigned : forall sign, JS.unsigned_literal sign t = JS.Finite negative m e -> 0 <= m)
    by (intros sign; apply unsigned_literal_nonneg).
  assert (Hradix : forall c' r,
             (if Ascii.eqb c' "x" || Ascii.eqb c' "X" then JS.radix_literal 16 r
              else if Ascii.eqb c' "o" || Ascii.eqb c' "O" then JS.radix_literal 8 r
              else if Ascii.eqb c' "b" || Ascii.eqb c' "B" then JS.radix_literal 2 r
              else JS.unsigned_literal false (String c (String c' r)))
             = JS.Finite negative m e -> 0 <= m).
  { intros c' r.
    repeat match goal with
           | |- context [if ?b then _ else _] => destruct b
           end;
      (apply radix_literal_nonneg; lia) || apply unsigned_literal_nonneg. }
  destruct c as [[] [] [] [] [] [] [] []]; try exact Hplain; try apply Hsigned.
  destruct t as [|c' r]; [exact Hplain | apply Hradix].
Qed.

Lemma Number_nonneg v negative m e :
  NewHabit.Number v = JS.Finite negative m e -> 0 <= m.
Proof.
  destruct v as [z|s]; simpl.
  - intros [= _ <- _]. lia.
  - apply Number_of_string_nonneg.
Qed.

(** A malformed input is stored as the interval [1]. *)
Lemma newIntervalDays_malformed (form : NewHabit.t) :
  NewHabit.freq form = "custom" ->
  malformedInterval (NewHabit.intervalDays form) ->
  newIntervalDays form = Some 1.
Proof.
  intros Hfreq Hbad. unfold newIntervalDays, malformedInterval in *. rewrite Hfreq.
  cbv beta iota delta [String.eqb Ascii.eqb Bool.eqb].
  destruct (NewHabit.Number (NewHabit.intervalDays form)) as [|negative|negative m e] eqn:Hv;
    [done | by rewrite Hbad |].
  apply Number_nonneg in Hv. unfold JS.or_number.
  destruct (Z.eqb_spec m 0) as [->|Hm]; [done|].
  unfold JS.Math_max_one, JS.below_one.
  destruct negative; [done|]. destruct Hbad as [|Hbad]; [done|].
  rewrite (proj2 (Z.eqb_neq m 0) Hm). cbn [orb].
  destruct (Z.ltb_spec e 0) as [He|He].
  - rewrite Z.max_r, Z.max_l, Z.pow_0_r in Hbad by lia.
    by rewrite (proj2 (Z.ltb_lt m (10 ^ (- e)))) by lia.
  - rewrite Z.max_l, Z.max_r, Z.pow_0_r in Hbad by lia.
    assert (0 < 10 ^ e) by (apply Z.pow_pos_nonneg; lia). nia.
Qed.

(** A whole number of days is stored as it is. *)
Lemma newIntervalDays_whole (form : NewHabit.t) (n : Z) :
  NewHabit.freq form = "custom" ->
  wholeInterval (NewHabit.intervalDays form) n ->
  newIntervalDays form = Some n.
Proof.
  intros Hfreq (negative & m & e & Hv & -> & Hn & Hvalue).
  unfold newIntervalDays. rewrite Hfreq, Hv. clear Hv.
  assert (Hm : m <> 0).
  { intros ->. assert (0 < 10 ^ Z.max (- e) 0) by (apply Z.pow_pos_nonneg; lia). nia. }
  cbv beta iota delta [String.eqb Ascii.eqb Bool.eqb JS.or_number].
  rewrite (proj2 (Z.eqb_neq m 0) Hm).
  cbv beta iota delta [JS.Math_max_one JS.below_one JS.whole_of orb].
  rewrite (proj2 (Z.eqb_neq m 0) Hm).
  destruct (Z.ltb_spec e 0) as [He|He].
  - rewrite Z.max_r, Z.max_l, Z.pow_0_r, Z.mul_1_r in Hvalue by lia. subst m.
    assert (0 < 10 ^ (- e)) by (apply Z.pow_pos_nonneg; lia).
    rewrite (proj2 (Z.ltb_ge (n * 10 ^ (- e)) (10 ^ (- e)))) by nia.
    rewrite (proj2 (Z.leb_gt 0 e)) by lia.
    rewrite Z.mod_mul, Z.div_mul, Z.eqb_refl by lia. cbn [andb].
    by rewrite (proj2 (Z.leb_le n JS.maxWhole)) by lia.
  - rewrite Z.max_l, Z.max_r, Z.pow_0_r, Z.mul_1_r in Hvalue by lia.
    rewrite (proj2 (Z.leb_le 0 e)) by lia. cbn [andb]. rewrite Hvalue.
    by rewrite (proj2 (Z.leb_le n JS.maxWhole)) by lia.
Qed.

Lemma newIntervalDays_plain (form : NewHabit.t) :
  NewHabit.freq form <> "custom" ->
  newIntervalDays form =
    Some (if String.eqb (NewHabit.freq form) "every2days" then 2 else 1).
Proof. intros Hfreq. unfold newIntervalDays. by apply String.eqb_neq in Hfreq as ->. Qed.

(** ** Adding a habit *)

Lemma habit_fields (uuid : string) (form : NewHabit.t) (i : Z) :
  newIntervalDays form = Some i ->
  habit uuid form =
    Habit.mk uuid (JS.trim (JS.or_str (NewHabit.title form) "Untitled"))
             (NewHabit.freq form) i None 0.
Proof. intros Hi. unfold habit. by rewrite Hi. Qed.

Lemma addHabit_run uuid w name u d i :
  userDoc (client w) = Some (name, u) ->
  users (store w) !! name = Some d ->
  (length (UserDoc.habits u) < 15)%nat ->
  JS.trim (JS.or_str (NewHabit.title (newHabit (client w))) "Untitled") <> "" ->
  newIntervalDays (newHabit (client w)) = Some i ->
  exists c',
    run (addHabit uuid) w =
      (Done,
       mkWorld (mkStore (<[name := withHabits (UserDoc.habits u ++ [habit uuid (newHabit (client w))]) d]>
                           (users (store w)))
                        (roster (store w)) (leaderboard (store w)))
               c').
Proof.
  intros Hu Hd Hlen Htitle Hi. unfold run, addHabit, mbind, action_bind, getClient.
  rewrite Hu.
  destruct (Z.leb_spec 15 (Z.of_nat (length (UserDoc.habits u)))); [lia|].
  apply String.eqb_neq in Htitle as ->. rewrite Hi.
  rewrite (updateUser_run _ _ _ _ Hd). handler. eauto.
Qed.

(** A blank title is refused before anything is written. *)
Lemma addHabit_blank_run uuid w name u :
  userDoc (client w) = Some (name, u) ->
  (length (UserDoc.habits u) < 15)%nat ->
  JS.trim (JS.or_str (NewHabit.title (newHabit (client w))) "Untitled") = "" ->
  run (addHabit uuid) w = (Alert "Give the habit a title", w).
Proof.
  intros Hu Hlen Htitle. unfold run, addHabit, mbind, action_bind, getClient.
  rewrite Hu.
  destruct (Z.leb_spec 15 (Z.of_nat (length (UserDoc.habits u)))); [lia|].
  by rewrite Htitle.
Qed.


(** A code that does not match writes nothing, whatever was typed. *)
Lemma handleEnter_mismatch_writes_nothing w data :
  users (store w) !! selectedName (client w) = Some data ->
  UserDoc.codeHash data <> sha256 (code (client w)) ->
  store (run (handleEnter sha256) w).2 = store w /\
  userDoc (client (run (handleEnter sha256) w).2) = userDoc (client w).
Proof.
  intros Hd Hne. unfold handleEnter. handler.
  destruct (String.eqb (selectedName (client w)) ""); [done|].
  destruct (String.eqb (code (client w)) ""); [done|].
  rewrite Hd.
  by apply String.eqb_neq in Hne as ->.
Qed.

Lemma handleEnter_wrong_code_run w data :
  selectedName (client w) <> "" ->
  code (client w) <> "" ->
  users (store w) !! selectedName (client w) = Some data ->
  UserDoc.codeHash data <> sha256 (code (client w)) ->
  run (handleEnter sha256) w =
    (Alert "Wrong code for this name",
     mkWorld (store w)
             (mkClient (selectedName (client w)) (code (client w)) (sha256 (code (client w)))
                       (userDoc (client w)) (loading (client w)) (newHabit (client w))
                       (listeners (client w)))).
Proof.
  intros Hname Hcode Hd Hne. unfold handleEnter. handler.
  apply String.eqb_neq in Hname as ->. apply String.eqb_neq in Hcode as ->.
  handler. rewrite Hd.
  by apply String.eqb_neq in Hne as ->.
Qed.

(** C8. For every existing user name, entering a code whose hash differs
    from the stored [codeHash] ends in the alert "Wrong code for this
    name"; the user documents, the roster and the leaderboard are as
    before, the component has no user and no new listener. *)
Theorem handleEnter_wrong_code w data :
  selectedName (client w) <> "" ->
  code (client w) <> "" ->
  users (store w) !! selectedName (client w) = Some data ->
  UserDoc.codeHash data <> sha256 (code (client w)) ->
  exists w',
    run (handleEnter sha256) w = (Alert "Wrong code for this name", w') /\
    store w' = store w /\
    userDoc (client w') = userDoc (client w) /\
    listeners (client w') = listeners (client w).
Proof.
  intros Hname Hcode Hd Hne. eexists. split.
  - by apply (handleEnter_wrong_code_run w data).
  - done.
Qed.

(** C9, as the code has it. For every add-habit request on the custom
    frequency whose interval input is not numeric or is less than 1 (the
    user being signed in with fewer than 15 habits and a title that is
    not blank), the handler raises no error: it stores the list with the
    new habit appended, and that habit has [intervalDays = 1]. *)
Theorem addHabit_clamps_interval uuid w name u d :
  userDoc (client w) = Some (name, u) ->
  users (store w) !! name = Some d ->
  (length (UserDoc.habits u) < 15)%nat ->
  JS.trim (JS.or_str (NewHabit.title (newHabit (client w))) "Untitled") <> "" ->
  NewHabit.freq (newHabit (client w)) = "custom" ->
  malformedInterval (NewHabit.intervalDays (newHabit (client w))) ->
  exists w' d' h,
    run (addHabit uuid) w = (Done, w') /\
    users (store w') !! name = Some d' /\
    UserDoc.habits d' = UserDoc.habits u ++ [h] /\
    Habit.intervalDays h = 1 /\
    h = Habit.mk uuid (JS.trim (JS.or_str (NewHabit.title (newHabit (client w))) "Untitled"))
                 "custom" 1 None 0 /\
    UserDoc.codeHash d' = UserDoc.codeHash d /\
    UserDoc.points d' = UserDoc.points d /\
    UserDoc.xp d' = UserDoc.xp d /\
    UserDoc.level d' = UserDoc.level d /\
    UserDoc.overallStreak d' = UserDoc.overallStreak d /\
    UserDoc.lastActiveDate d' = UserDoc.lastActiveDate d.
Proof.
  intros Hu Hd Hlen Htitle Hfreq Hbad.
  pose proof (newIntervalDays_malformed _ Hfreq Hbad) as Hi.
  destruct (addHabit_run uuid w name u d 1) as [c' Hrun]; try done.
  eexists _, _, _. split; [exact Hrun|]. simpl.
  split; [apply lookup_insert_eq|]. rewrite (habit_fields _ _ _ Hi), Hfreq. simpl.
  by split_and!.
Qed.

End ComponentFacts.

(** ** The leaderboard *)

(** C5, as the code has it. For every current list and candidate, the
    new list is the first five of a descending arrangement of the old
    entries of other names with the candidate; it has at most five
    entries, in descending order of points; it names nobody twice
    whenever the current list names nobody twice, as every list written
    by the component does; and of six candidates with distinct points
    the lowest is the one dropped. *)
Theorem reconcile_top_five (players : list Player.t) (me : Player.t) :
  (exists s, s ≡ₚ filter (Board.otherThan me) players ++ [me] /\
             StronglySorted descending s /\
             Board.reconcile players me = take 5 s) /\
  (length (Board.reconcile players me) <= 5)%nat /\
  StronglySorted descending (Board.reconcile players me) /\
  (NoDup (Player.name <$> players) -> NoDup (Player.name <$> Board.reconcile players me)) /\
  (written players -> NoDup (Player.name <$> Board.reconcile players me)) /\
  (length players = 5%nat ->
   Forall (Board.otherThan me) players ->
   NoDup (Player.points <$> players ++ [me]) ->
   exists low,
     Board.reconcile players me ++ [low] ≡ₚ players ++ [me] /\
     Forall (fun p => Player.points low < Player.points p) (Board.reconcile players me)).
Proof.
  split_and!.
  - eexists. split_and!; [apply sort_Permutation | apply sort_sorted | done].
  - apply length_reconcile.
  - apply reconcile_sorted.
  - apply reconcile_names_NoDup.
  - intros Hw. apply reconcile_names_NoDup, written_invariant, Hw.
  - apply reconcile_drops_lowest.
Qed.

(** C6. Reconciling the same entry a second time gives the list of the
    first time, for every list.  The result never holds two entries of
    the candidate's name: it holds exactly one whenever the list of the
    first time holds an entry of that name, and so whenever the list
    before had at most five entries, one of them of that name. *)
Theorem reconcile_twice (players : list Player.t) (me : Player.t) :
  Board.reconcile (Board.reconcile players me) me = Board.reconcile players me /\
  (entriesFor (Player.name me) (Board.reconcile (Board.reconcile players me) me) <= 1)%nat /\
  ((exists p, p ∈ Board.reconcile players me /\ Player.name p = Player.name me) ->
   entriesFor (Player.name me) (Board.reconcile (Board.reconcile players me) me) = 1%nat) /\
  ((length players <= 5)%nat ->
   (exists p, p ∈ players /\ Player.name p = Player.name me) ->
   entriesFor (Player.name me) (Board.reconcile (Board.reconcile players me) me) = 1%nat).
Proof.
  rewrite reconcile_idempotent. split_and!; [done | apply entriesFor_reconcile_le | |].
  - intros (p & Hp & Hname).
    pose proof (entriesFor_reconcile_le players me) as Hle.
    enough (0 < entriesFor (Player.name me) (Board.reconcile players me))%nat by lia.
    unfold entriesFor.
    assert (Hin : p ∈ filter (fun q => Player.name q = Player.name me) (Board.reconcile players me))
      by (by apply list_elem_of_filter).
    destruct (filter _ _); [by apply elem_of_nil in Hin | simpl; lia].
  - intros Hlen (p & Hp & Hname). apply entriesFor_reconcile_eq.
    enough (length (filter (Board.otherThan me) players) < length players)%nat by lia.
    apply (length_filter_lt _ _ p); [done|]. unfold Board.otherThan. tauto.
Qed.

(** * Further facts *)

(** Unfolds the input setters as well. *)
Ltac plumbing :=
  unfold handle, handlePickName, switchUser, setSelectedName, setCode; handler.

Section GateFacts.

Variable sha256 : string -> string.

(** The roster after a new name has entered. *)
Lemma handleEnter_create_run w :
  selectedName (client w) <> "" ->
  code (client w) <> "" ->
  users (store w) !! selectedName (client w) = None ->
  run (handleEnter sha256) w =
    (Done,
     mkWorld
       (mkStore (<[selectedName (client w) :=
                     UserDoc.mk (sha256 (code (client w))) 0 0 1 0 None []]> (users (store w)))
                (if existsb (String.eqb (selectedName (client w))) (default [] (roster (store w)))
                 then roster (store w)
                 else Some (take 50 (default [] (roster (store w)) ++ [selectedName (client w)])))
                (leaderboard (store w)))
       (mkClient (selectedName (client w)) (code (client w)) (sha256 (code (client w)))
                 (Some (selectedName (client w),
                        UserDoc.mk (sha256 (code (client w))) 0 0 1 0 None []))
                 false (newHabit (client w))
                 (selectedName (client w) :: listeners (client w)))).
Proof.
  intros Hname Hcode Hd. unfold handleEnter. handler.
  apply String.eqb_neq in Hname as ->. apply String.eqb_neq in Hcode as ->.
  handler. rewrite Hd. handler.
  destruct (bool_decide (selectedName (client w) ∈ listeners (client w))); handler;
    rewrite ?lookup_insert_eq; handler;
    destruct (roster (store w)) as [names|]; simpl;
    try destruct (existsb _ names); handler; by rewrite ?lookup_insert_eq.
Qed.

Lemma handleEnter_match_run w data :
  selectedName (client w) <> "" ->
  code (client w) <> "" ->
  users (store w) !! selectedName (client w) = Some data ->
  UserDoc.codeHash data = sha256 (code (client w)) ->
  run (handleEnter sha256) w =
    (Done,
     mkWorld (store w)
       (mkClient (selectedName (client w)) (code (client w)) (sha256 (code (client w)))
                 (Some (selectedName (client w), data))
                 false (newHabit (client w))
                 (selectedName (client w) :: listeners (client w)))).
Proof.
  intros Hname Hcode Hd Hch. unfold handleEnter. handler.
  apply String.eqb_neq in Hname as ->. apply String.eqb_neq in Hcode as ->.
  handler. rewrite Hd, Hch, String.eqb_refl. handler. by rewrite Hd.
Qed.

Lemma handleEnter_empty_run w :
  selectedName (client w) = "" \/ code (client w) = "" ->
  run (handleEnter sha256) w = (Alert "Enter name and code", w).
Proof.
  intros H. unfold handleEnter. handler.
  destruct H as [->| ->]; [done|].
  by destruct (String.eqb (selectedName (client w)) "").
Qed.

End GateFacts.

Section HabitFacts.

Variable localOffset : Z -> Z.

Lemma pushed_listening name data c :
  name ∈ listeners c ->
  pushed name data c =
    mkClient (selectedName c) (code c) (codeHash c) (Some (name, data))
             (loading c) (newHabit c) (listeners c).
Proof. intros Hin. unfold pushed. by rewrite bool_decide_eq_true_2. Qed.

Lemma pushed_store_fields name data c :
  selectedName (pushed name data c) = selectedName c /\
  code (pushed name data c) = code c /\
  newHabit (pushed name data c) = newHabit c /\
  listeners (pushed name data c) = listeners c.
Proof. unfold pushed. by destruct (bool_decide _). Qed.

Lemma deleteHabit_run id w name u d :
  userDoc (client w) = Some (name, u) ->
  users (store w) !! name = Some d ->
  run (deleteHabit id) w =
    (Done,
     mkWorld (mkStore (<[name := withHabits
                          (List.filter (fun h => negb (String.eqb (Habit.id h) id)) (UserDoc.habits u)) d]>
                         (users (store w)))
                      (roster (store w)) (leaderboard (store w)))
             (pushed name
                (withHabits (List.filter (fun h => negb (String.eqb (Habit.id h) id)) (UserDoc.habits u)) d)
                (client w))).
Proof.
  intros Hu Hd. unfold run, deleteHabit, mbind, action_bind, getClient.
  rewrite Hu. by rewrite (updateUser_run _ _ _ _ Hd).
Qed.

Lemma addHabit_run_client uuid w name u d :
  userDoc (client w) = Some (name, u) ->
  users (store w) !! name = Some d ->
  (length (UserDoc.habits u) < 15)%nat ->
  JS.trim (JS.or_str (NewHabit.title (newHabit (client w))) "Untitled") <> "" ->
  is_Some (newIntervalDays (newHabit (client w))) ->
  run (addHabit uuid) w =
    (Done,
     mkWorld (mkStore (<[name := withHabits (UserDoc.habits u ++ [habit uuid (newHabit (client w))]) d]>
                         (users (store w)))
                      (roster (store w)) (leaderboard (store w)))
             (let c := pushed name (withHabits (UserDoc.habits u ++ [habit uuid (newHabit (client w))]) d)
                              (client w) in
              mkClient (selectedName c) (code c) (codeHash c) (userDoc c) (loading c)
                       (NewHabit.mk "" "daily" (NewHabit.NumberValue 1)) (listeners c))).
Proof.
  intros Hu Hd Hlen Htitle [i Hi]. unfold run, addHabit, mbind, action_bind, getClient.
  rewrite Hu.
  destruct (Z.leb_spec 15 (Z.of_nat (length (UserDoc.habits u)))); [lia|].
  apply String.eqb_neq in Htitle as ->. rewrite Hi.
  rewrite (updateUser_run _ _ _ _ Hd). by handler.
Qed.

(** An interval that is no integer, on a document that is there: the run
    is not followed, and the world is left as it was. *)
Lemma addHabit_beyond_run uuid w name u d :
  userDoc (client w) = Some (name, u) ->
  users (store w) !! name = Some d ->
  (length (UserDoc.habits u) < 15)%nat ->
  JS.trim (JS.or_str (NewHabit.title (newHabit (client w))) "Untitled") <> "" ->
  newIntervalDays (newHabit (client w)) = None ->
  run (addHabit uuid) w = (Beyond, w).
Proof.
  intros Hu Hd Hlen Htitle Hi. unfold run, addHabit, mbind, action_bind, getClient.
  rewrite Hu.
  destruct (Z.leb_spec 15 (Z.of_nat (length (UserDoc.habits u)))); [lia|].
  apply String.eqb_neq in Htitle as ->. rewrite Hi.
  unfold updateBeyond. handler. by rewrite Hd.
Qed.

Lemma addHabit_refused_run uuid w name u :
  userDoc (client w) = Some (name, u) ->
  (15 <= length (UserDoc.habits u))%nat \/
  JS.trim (JS.or_str (NewHabit.title (newHabit (client w))) "Untitled") = "" ->
  (run (addHabit uuid) w).2 = w.
Proof.
  intros Hu Hor. unfold run, addHabit, mbind, action_bind, getClient.
  rewrite Hu.
  destruct (Z.leb_spec 15 (Z.of_nat (length (UserDoc.habits u)))); [done|].
  destruct Hor as [?| ->]; [lia | done].
Qed.

End HabitFacts.

(** ** What one client keeps true *)

Section Invariant.

Variable localOffset : Z -> Z.
Variable sha256 : string -> string.

Lemma Math_max_one_pos (x : JS.number) (z : Z) :
  (forall negative m e, x = JS.Finite negative m e -> 0 <= m) ->
  JS.Math_max_one x = Some z -> 1 <= z.
Proof.
  intros Hx. unfold JS.Math_max_one.
  destruct (JS.below_one x) eqn:Hbelow; [intros [= <-]; lia|].
  destruct x as [| |negative m e]; simpl; [done | done |].
  specialize (Hx _ _ _ eq_refl). simpl in Hbelow.
  apply orb_false_elim in Hbelow as [[-> Hm]%orb_false_elim Hsmall].
  apply Z.eqb_neq in Hm.
  destruct (Z.leb_spec 0 e) as [He|He].
  - destruct (_ <=? JS.maxWhole); intros [= <-].
    assert (0 < 10 ^ e) by (apply Z.pow_pos_nonneg; lia). nia.
  - assert (Hpow : 0 < 10 ^ (- e)) by (apply Z.pow_pos_nonneg; lia).
    apply andb_false_elim in Hsmall as [Hsmall|Hsmall];
      [apply Z.ltb_ge in Hsmall; lia | apply Z.ltb_ge in Hsmall].
    destruct (_ =? 0); [|done].
    destruct (_ <=? JS.maxWhole); intros [= <-].
    apply Z.div_le_lower_bound; lia.
Qed.

Lemma newIntervalDays_pos (form : NewHabit.t) (i : Z) :
  newIntervalDays form = Some i -> 1 <= i.
Proof.
  unfold newIntervalDays.
  destruct (String.eqb (NewHabit.freq form) "custom").
  - apply Math_max_one_pos. intros negative m e. unfold JS.or_number.
    destruct (NewHabit.Number (NewHabit.intervalDays form)) as [| |negative' m' e'] eqn:Hv;
      [by intros [= _ <- _] | done |].
    apply Number_nonneg in Hv.
    destruct (m' =? 0); intros [= _ <- _]; lia.
  - destruct (String.eqb (NewHabit.freq form) "every2days"); intros [= <-]; lia.
Qed.

Lemma interval_pos (h : Habit.t) : 1 <= interval h.
Proof.
  unfold interval.
  destruct (String.eqb (Habit.freq h) "daily"); [lia|].
  destruct (String.eqb (Habit.freq h) "every2days"); lia.
Qed.

Lemma HabitOk_habit uuid form :
  JS.trim (JS.or_str (NewHabit.title form) "Untitled") <> "" -> HabitOk (habit uuid form).
Proof.
  intros Htitle. unfold HabitOk, habit. simpl.
  split_and!; [|done..].
  destruct (newIntervalDays form) as [i|] eqn:Hi; simpl; [|lia].
  by apply (newIntervalDays_pos form).
Qed.

Lemma HabitOk_markDone id today h : HabitOk h -> HabitOk (markDone id today h).
Proof.
  intros (Hi & Ht & Hc & Hl). unfold markDone.
  destruct (String.eqb (Habit.id h) id); [|done].
  unfold HabitOk. simpl. rewrite or_num_0. split_and!; try done; try lia.
  split; [done | lia].
Qed.

Lemma newStreak_pos u today : DocOk u -> 1 <= newStreak localOffset u today.
Proof.
  intros (_ & _ & _ & Hsome & _). unfold newStreak. rewrite or_num_0.
  destruct (UserDoc.lastActiveDate u) as [last|] eqn:Hlast; simpl; [|lia].
  destruct Hsome as [_ Hs]; [by eexists|].
  destruct (String.eqb last today); [done|].
  destruct (String.eqb last ""); [lia|].
  destruct (JS.eq_num _ 1); lia.
Qed.

Lemma DocOk_created ch : DocOk (UserDoc.mk ch 0 0 1 0 None []).
Proof.
  unfold DocOk. simpl. split_and!; try done; try lia.
Qed.

Lemma DocOk_completion id today u d :
  DocOk u -> DocOk (completionFields localOffset id today u d).
Proof.
  intros Hu. pose proof (newStreak_pos u today Hu) as Hstreak.
  destruct Hu as (Hp & Hl & Hnone & Hsome & Hlen & Hhabits).
  unfold DocOk, completionFields, newLevel, newXP, addPoints. simpl.
  rewrite levelFromXP_floor, !or_num_0.
  assert (0 <= UserDoc.xp u).
  { destruct (UserDoc.lastActiveDate u) as [last|].
    - destruct Hsome as [? _]; [by eexists | lia].
    - destruct Hnone as [? _]; [done | lia]. }
  split_and!; try done; try lia.
  - by rewrite length_fmap.
  - apply Forall_fmap. eapply Forall_impl; [exact Hhabits|].
    intros h. apply HabitOk_markDone.
Qed.

Lemma DocOk_withHabits l d :
  DocOk d -> (length l <= 15)%nat -> Forall HabitOk l -> DocOk (withHabits l d).
Proof.
  intros (Hp & Hl & Hnone & Hsome & _ & _) Hlen Hhabits.
  unfold DocOk, withHabits. simpl. by split_and!.
Qed.

Lemma Forall_List_filter {A} (P : A -> Prop) (f : A -> bool) (l : list A) :
  Forall P l -> Forall P (List.filter f l).
Proof.
  induction 1 as [|x r Hx _ IH]; simpl; [constructor|].
  destruct (f x); [by constructor | done].
Qed.

Lemma length_List_filter {A} (f : A -> bool) (l : list A) :
  (length (List.filter f l) <= length l)%nat.
Proof. induction l as [|x r IH]; simpl; [lia|]. destruct (f x); simpl; lia. Qed.

(** The entries of a reconciled list: the candidate, or an old entry of
    another name. *)
Lemma reconcile_elem players me p :
  p ∈ Board.reconcile players me ->
  p = me \/ (p ∈ players /\ Player.name p <> Player.name me).
Proof.
  unfold Board.reconcile. intros Hp%elem_of_take.
  destruct Hp as (i & Hp & _). apply list_elem_of_lookup_2 in Hp.
  rewrite sort_Permutation, elem_of_app, list_elem_of_filter, list_elem_of_singleton in Hp.
  unfold Board.otherThan in Hp. tauto.
Qed.

Lemma agrees_insert_other us n d p :
  Player.name p <> n -> agrees us p -> agrees (<[n := d]> us) p.
Proof.
  intros Hne (d0 & Hd0 & Hrest). exists d0. by rewrite lookup_insert_ne.
Qed.

Lemma agrees_insert_kept us n d d' p :
  us !! n = Some d ->
  UserDoc.points d' = UserDoc.points d ->
  UserDoc.overallStreak d' = UserDoc.overallStreak d ->
  UserDoc.level d' = UserDoc.level d ->
  agrees us p -> agrees (<[n := d']> us) p.
Proof.
  intros Hd Hp Hs Hl (d0 & Hd0 & Hrest).
  destruct (decide (Player.name p = n)) as [<-|Hne].
  - exists d'. rewrite lookup_insert_eq. rewrite Hd in Hd0. injection Hd0 as <-.
    rewrite Hp, Hs, Hl. done.
  - exists d0. by rewrite lookup_insert_ne.
Qed.

Lemma existsb_eqb_elem (n : string) (names : list string) :
  existsb (String.eqb n) names = true <-> n ∈ names.
Proof.
  rewrite existsb_exists, list_elem_of_In. split.
  - by intros (x & Hx & ->%String.eqb_eq).
  - intros Hn. exists n. by rewrite String.eqb_refl.
Qed.

Lemma RosterOk_insert us n d names :
  RosterOk us names -> RosterOk (<[n := d]> us) names.
Proof.
  intros (Hlen & Hnd & Hdocs). split_and!; [done | done |].
  eapply Forall_impl; [exact Hdocs|]. intros k Hk. simpl.
  destruct (decide (n = k)) as [->|Hne]; [by rewrite lookup_insert_eq|].
  by rewrite lookup_insert_ne.
Qed.

Lemma RosterOk_enrolled us n d names :
  RosterOk us names -> n ∉ names ->
  RosterOk (<[n := d]> us) (take 50 (names ++ [n])).
Proof.
  intros (Hlen & Hnd & Hdocs) Hn. split_and!.
  - rewrite length_take. lia.
  - eapply sublist_NoDup; [|apply sublist_take].
    apply NoDup_app. split_and!; [done | | apply NoDup_singleton].
    intros x Hx Hx'%list_elem_of_singleton. by subst.
  - apply Forall_take, Forall_app. split.
    + by apply (RosterOk_insert us n d names).
    + constructor; [by rewrite lookup_insert_eq | constructor].
Qed.

Lemma WorldOk_client w c' :
  WorldOk w ->
  (forall name u, userDoc c' = Some (name, u) ->
     users (store w) !! name = Some u /\ name ∈ listeners c') ->
  WorldOk (mkWorld (store w) c').
Proof. intros (Hdocs & Hboard & Hroster & _) Hc. by split_and!. Qed.

(** A write that keeps the points, streak and level of the document. *)
Lemma WorldOk_write w name d d' c' :
  WorldOk w ->
  users (store w) !! name = Some d ->
  DocOk d' ->
  UserDoc.points d' = UserDoc.points d ->
  UserDoc.overallStreak d' = UserDoc.overallStreak d ->
  UserDoc.level d' = UserDoc.level d ->
  (forall n u, userDoc c' = Some (n, u) -> n = name /\ u = d' /\ name ∈ listeners c') ->
  WorldOk (mkWorld (mkStore (<[name := d']> (users (store w)))
                            (roster (store w)) (leaderboard (store w))) c').
Proof.
  intros (Hdocs & (Hlen & Hnd & Hsorted & Hagree) & Hroster & _) Hd Hok Hp Hs Hl Hc.
  unfold WorldOk. simpl. split_and!.
  - by apply map_Forall_insert_2.
  - split_and!; try done.
    eapply Forall_impl; [exact Hagree|]. intros p. by apply (agrees_insert_kept _ _ d).
  - by apply RosterOk_insert.
  - intros n u Hu. destruct (Hc n u Hu) as (-> & -> & Hin).
    by rewrite lookup_insert_eq.
Qed.

Lemma WorldOk_complete w id today name u :
  WorldOk w ->
  userDoc (client w) = Some (name, u) ->
  WorldOk (run (completeHabit localOffset id today) w).2.
Proof.
  intros Hw Hu. pose proof Hw as (Hdocs & (Hlen & Hnd & Hsorted & Hagree) & Hroster & Hclient).
  destruct (Hclient name u Hu) as [Hd Hin].
  rewrite (completeHabit_run localOffset id today w name u u Hu Hd). simpl.
  unfold WorldOk. simpl. split_and!.
  - apply map_Forall_insert_2; [|done]. apply DocOk_completion. by apply (Hdocs name).
  - split_and!.
    + apply length_reconcile.
    + by apply reconcile_names_NoDup.
    + apply reconcile_sorted.
    + apply Forall_forall. intros p [->|[Hp Hne]]%reconcile_elem.
      * eexists. rewrite lookup_insert_eq. done.
      * apply agrees_insert_other; [done|].
        rewrite Forall_forall in Hagree. by apply Hagree.
  - by apply RosterOk_insert.
  - rewrite pushed_listening by done. simpl. intros n u' [= <- <-].
    by rewrite lookup_insert_eq.
Qed.

Lemma WorldOk_add w uuid name u :
  WorldOk w ->
  userDoc (client w) = Some (name, u) ->
  WorldOk (run (addHabit uuid) w).2.
Proof.
  intros Hw Hu. pose proof Hw as (Hdocs & _ & _ & Hclient).
  destruct (Hclient name u Hu) as [Hd Hin].
  destruct (decide (15 <= length (UserDoc.habits u))%nat) as [Hfull|Hroom].
  { by rewrite (addHabit_refused_run uuid w name u Hu (or_introl Hfull)). }
  destruct (decide (JS.trim (JS.or_str (NewHabit.title (newHabit (client w))) "Untitled") = ""))
    as [Hblank|Htitle].
  { by rewrite (addHabit_refused_run uuid w name u Hu (or_intror Hblank)). }
  destruct (newIntervalDays (newHabit (client w))) as [i|] eqn:Hi;
    [|by rewrite (addHabit_beyond_run uuid w name u u Hu Hd) by (done || lia)].
  rewrite (addHabit_run_client uuid w name u u Hu Hd) by (done || lia || by eexists). simpl.
  apply (Hdocs name) in Hd as Hok. pose proof Hok as (_ & _ & _ & _ & _ & Hhabits).
  apply (WorldOk_write w name u); try done.
  - apply DocOk_withHabits; [done | rewrite length_app; simpl; lia |].
    apply Forall_app. split; [done|]. constructor; [by apply HabitOk_habit | constructor].
  - rewrite pushed_listening by done. simpl. by intros n u' [= <- <-].
Qed.

Lemma WorldOk_delete w id name u :
  WorldOk w ->
  userDoc (client w) = Some (name, u) ->
  WorldOk (run (deleteHabit id) w).2.
Proof.
  intros Hw Hu. pose proof Hw as (Hdocs & _ & _ & Hclient).
  destruct (Hclient name u Hu) as [Hd Hin].
  rewrite (deleteHabit_run id w name u u Hu Hd). simpl.
  apply (Hdocs name) in Hd as Hok. pose proof Hok as (_ & _ & _ & _ & Hlen & Hhabits).
  apply (WorldOk_write w name u); try done.
  - apply DocOk_withHabits; [done | | by apply Forall_List_filter].
    etransitivity; [apply length_List_filter | done].
  - rewrite pushed_listening by done. simpl. by intros n u' [= <- <-].
Qed.

Lemma WorldOk_enter w : WorldOk w -> WorldOk (run (handleEnter sha256) w).2.
Proof.
  intros Hw. pose proof Hw as (Hdocs & (Hlen & Hnd & Hsorted & Hagree) & Hroster & Hclient).
  destruct (decide (selectedName (client w) = "")) as [Hname|Hname].
  { by rewrite (handleEnter_empty_run sha256 w (or_introl Hname)). }
  destruct (decide (code (client w) = "")) as [Hcode|Hcode].
  { by rewrite (handleEnter_empty_run sha256 w (or_intror Hcode)). }
  destruct (users (store w) !! selectedName (client w)) as [data|] eqn:Hd.
  - destruct (decide (UserDoc.codeHash data = sha256 (code (client w)))) as [Hch|Hch].
    + rewrite (handleEnter_match_run sha256 w data) by done. simpl.
      apply WorldOk_client; [done|]. simpl. intros n u [= <- <-].
      split; [done | apply elem_of_cons; by left].
    + rewrite (handleEnter_wrong_code_run sha256 w data) by done. simpl.
      by apply WorldOk_client.
  - rewrite (handleEnter_create_run sha256 w) by done. simpl.
    unfold WorldOk. simpl. split_and!.
    + apply map_Forall_insert_2; [apply DocOk_created | done].
    + split_and!; try done.
      eapply Forall_impl; [exact Hagree|]. intros p Hp.
      apply agrees_insert_other; [|done].
      intros Heq. destruct Hp as (d0 & Hd0 & _). congruence.
    + destruct (existsb _ _) eqn:Hex.
      * by apply RosterOk_insert.
      * simpl. apply RosterOk_enrolled; [done|].
        rewrite <- existsb_eqb_elem. by rewrite Hex.
    + intros n u [= <- <-]. rewrite lookup_insert_eq.
      split; [done | apply elem_of_cons; by left].
Qed.

Lemma WorldOk_handle e w :
  WorldOk w -> WorldOk (run (handle localOffset sha256 e) w).2.
Proof.
  intros Hw. pose proof Hw as (_ & _ & _ & Hclient).
  destruct e as [name|name|text|form| |uuid|id|id today| ];
    try (destruct w as [st c]; plumbing; by apply (WorldOk_client (mkWorld st c))).
  - by apply WorldOk_enter.
  - simpl. destruct (userDoc (client w)) as [[name u]|] eqn:Hu.
    + by apply (WorldOk_add w uuid name u).
    + by rewrite (proj1 (proj2 (handlers_without_user localOffset "" "" uuid w Hu))).
  - simpl. destruct (userDoc (client w)) as [[name u]|] eqn:Hu.
    + by apply (WorldOk_delete w id name u).
    + by rewrite (proj2 (proj2 (handlers_without_user localOffset id "" "" w Hu))).
  - simpl. destruct (userDoc (client w)) as [[name u]|] eqn:Hu.
    + by apply (WorldOk_complete w id today name u).
    + by rewrite (proj1 (handlers_without_user localOffset id today "" w Hu)).
Qed.

Lemma WorldOk_fresh w : fresh w -> WorldOk w.
Proof.
  intros (Hus & Hr & Hl & Hu & _). unfold WorldOk, BoardOk, RosterOk.
  rewrite Hus, Hr, Hl, Hu. simpl. split_and!; try done; try constructor; try lia.
Qed.

Lemma WorldOk_after events w :
  WorldOk w -> WorldOk (after localOffset sha256 events w).
Proof.
  revert w. induction events as [|e rest IH]; intros w Hw; simpl; [done|].
  by apply IH, WorldOk_handle.
Qed.

(** A write to the document of the user signed in, the leaderboard kept
    or rewritten with names that are ids. *)
Lemma NamesOk_write w name u data r board :
  NamesOk w -> userDoc (client w) = Some (name, u) ->
  Forall (fun p => validId (Player.name p) = true) (default [] board) ->
  NamesOk (mkWorld (mkStore (<[name := data]> (users (store w))) r board)
                   (pushed name data (client w))).
Proof.
  intros (Hbox & Huser & Hdocs & Hboard) Hu Hnew. unfold NamesOk. simpl.
  destruct (pushed_store_fields name data (client w)) as (-> & _).
  split_and!; try done.
  - unfold pushed. destruct (bool_decide _); simpl; [|done].
    intros n u' [= <- <-]. by apply (Huser name u).
  - intros n d. destruct (decide (n = name)) as [->|Hne].
    + intros _. by apply (Huser name u).
    + rewrite lookup_insert_ne by done. apply Hdocs.
Qed.

Lemma NamesOk_client w c :
  NamesOk w -> nameOk (selectedName c) ->
  (forall name u, userDoc c = Some (name, u) -> validId name = true) ->
  NamesOk (mkWorld (store w) c).
Proof. intros (_ & _ & Hdocs & Hboard) Hbox Huser. by split_and!. Qed.

Lemma NamesOk_handle e w :
  WorldOk w -> eventOk e -> NamesOk w -> NamesOk (run (handle localOffset sha256 e) w).2.
Proof.
  intros Hw He Hn. pose proof Hw as (_ & _ & _ & Hclient).
  pose proof Hn as (Hbox & Huser & Hdocs & Hboard).
  destruct e as [name|name|text|form| |uuid|id|id today| ];
    try (plumbing; by apply (NamesOk_client w)).
  - simpl. destruct (decide (selectedName (client w) = "")) as [Hname|Hname].
    { by rewrite (handleEnter_empty_run sha256 w (or_introl Hname)). }
    destruct Hbox as [?|Hvalid]; [done|].
    destruct (decide (code (client w) = "")) as [Hcode|Hcode].
    { by rewrite (handleEnter_empty_run sha256 w (or_intror Hcode)). }
    destruct (users (store w) !! selectedName (client w)) as [data|] eqn:Hd.
    + destruct (decide (UserDoc.codeHash data = sha256 (code (client w)))) as [Hch|Hch].
      * rewrite (handleEnter_match_run sha256 w data) by done.
        apply (NamesOk_client w); [done | by right |]. simpl. by intros n u [= <- <-].
      * rewrite (handleEnter_wrong_code_run sha256 w data) by done.
        apply (NamesOk_client w); [done | by right | done].
    + rewrite (handleEnter_create_run sha256 w) by done.
      unfold NamesOk. simpl. split_and!; [by right | by intros n u [= <- <-] | | done].
      intros n d. destruct (decide (n = selectedName (client w))) as [->|Hne]; [done|].
      rewrite lookup_insert_ne by done. apply Hdocs.
  - simpl. destruct (userDoc (client w)) as [[name u]|] eqn:Hu.
    + destruct (Hclient name u eq_refl) as [Hd _].
      destruct (decide (15 <= length (UserDoc.habits u))%nat) as [Hfull|Hroom].
      { by rewrite (addHabit_refused_run uuid w name u Hu (or_introl Hfull)). }
      destruct (decide (JS.trim (JS.or_str (NewHabit.title (newHabit (client w))) "Untitled") = ""))
        as [Hblank|Htitle].
      { by rewrite (addHabit_refused_run uuid w name u Hu (or_intror Hblank)). }
      destruct (newIntervalDays (newHabit (client w))) as [i|] eqn:Hi;
        [|by rewrite (addHabit_beyond_run uuid w name u u Hu Hd) by (done || lia)].
      rewrite (addHabit_run_client uuid w name u u Hu Hd) by (done || lia || by eexists).
      pose proof (NamesOk_write w name u
                    (withHabits (UserDoc.habits u ++ [habit uuid (newHabit (client w))]) u)
                    (roster (store w)) (leaderboard (store w)) Hn Hu Hboard)
        as (Hbox' & Huser' & Hdocs' & Hboard').
      by split_and!.
    + by rewrite (proj1 (proj2 (handlers_without_user localOffset "" "" uuid w Hu))).
  - simpl. destruct (userDoc (client w)) as [[name u]|] eqn:Hu.
    + destruct (Hclient name u eq_refl) as [Hd _].
      rewrite (deleteHabit_run id w name u u Hu Hd). by apply (NamesOk_write w name u).
    + by rewrite (proj2 (proj2 (handlers_without_user localOffset id "" "" w Hu))).
  - simpl. destruct (userDoc (client w)) as [[name u]|] eqn:Hu.
    + destruct (Hclient name u eq_refl) as [Hd _].
      rewrite (completeHabit_run localOffset id today w name u u Hu Hd).
      apply (NamesOk_write w name u); [done | done |]. simpl.
      apply Forall_forall. intros p [->|[Hp _]]%reconcile_elem.
      * by apply (Huser name u).
      * rewrite Forall_forall in Hboard. by apply Hboard.
    + by rewrite (proj1 (handlers_without_user localOffset id today "" w Hu)).
Qed.

Lemma NamesOk_after events w :
  WorldOk w -> Forall eventOk events -> NamesOk w ->
  NamesOk (after localOffset sha256 events w).
Proof.
  revert w. induction events as [|e rest IH]; intros w Hw Hev Hn; simpl; [done|].
  apply Forall_cons in Hev as [He Hrest].
  apply IH; [by apply WorldOk_handle | done | by apply NamesOk_handle].
Qed.

Lemma NamesOk_fresh w : fresh w -> nameOk (selectedName (client w)) -> NamesOk w.
Proof.
  intros (Hus & _ & Hl & Hu & _) Hbox. unfold NamesOk. rewrite Hus, Hl, Hu.
  by split_and!.
Qed.

(** X1. In every world one client reaches from a fresh project, each
    stored user has as many points as xp, the level [floor(xp/100) + 1],
    no xp and no streak before the first completion, and at least 10 xp
    and a streak of at least 1 after it. *)
Theorem stored_scores_consistent events w name d :
  fresh w ->
  users (store (after localOffset sha256 events w)) !! name = Some d ->
  UserDoc.points d = UserDoc.xp d /\
  UserDoc.level d = UserDoc.xp d / 100 + 1 /\
  (UserDoc.lastActiveDate d = None -> UserDoc.xp d = 0 /\ UserDoc.overallStreak d = 0) /\
  (is_Some (UserDoc.lastActiveDate d) -> 10 <= UserDoc.xp d /\ 1 <= UserDoc.overallStreak d).
Proof.
  intros Hw Hd. destruct (WorldOk_after events w (WorldOk_fresh w Hw)) as (Hdocs & _).
  destruct (Hdocs name d Hd) as (? & ? & ? & ? & _). done.
Qed.

(** X2. In every such world a stored habit list has at most 15 habits,
    and each habit has an interval of at least 1 day, a title that is not
    empty, and a completion count that is 0 exactly when it has never
    been done. *)
Theorem stored_habits_well_formed events w name d :
  fresh w ->
  users (store (after localOffset sha256 events w)) !! name = Some d ->
  (length (UserDoc.habits d) <= 15)%nat /\
  Forall (fun h => 1 <= Habit.intervalDays h /\ Habit.title h <> "" /\
                   0 <= Habit.totalCompletions h /\
                   (Habit.lastDoneDate h = None <-> Habit.totalCompletions h = 0))
         (UserDoc.habits d).
Proof.
  intros Hw Hd. destruct (WorldOk_after events w (WorldOk_fresh w Hw)) as (Hdocs & _).
  destruct (Hdocs name d Hd) as (_ & _ & _ & _ & Hlen & Hhabits). done.
Qed.

(** X3. In every such world, the names typed or picked at the gate
    being ids that Firestore takes, the stored leaderboard has at most
    five entries, no name twice, in descending order of points, and each
    entry carries an id that Firestore takes and the points, streak and
    level of the stored document of that name. *)
Theorem stored_leaderboard_consistent events w :
  fresh w ->
  nameOk (selectedName (client w)) ->
  Forall eventOk events ->
  BoardOk (users (store (after localOffset sha256 events w)))
          (default [] (leaderboard (store (after localOffset sha256 events w)))) /\
  Forall (fun p => validId (Player.name p) = true)
         (default [] (leaderboard (store (after localOffset sha256 events w)))).
Proof.
  intros Hw Hbox Hev.
  pose proof (NamesOk_after events w (WorldOk_fresh w Hw) Hev (NamesOk_fresh w Hw Hbox))
    as (_ & _ & _ & Hnames).
  by destruct (WorldOk_after events w (WorldOk_fresh w Hw)) as (_ & Hboard & _).
Qed.

(** X4. In every such world the roster has at most 50 names, none
    twice, and every name on it has a user document. *)
Theorem stored_roster_consistent events w :
  fresh w ->
  RosterOk (users (store (after localOffset sha256 events w)))
           (default [] (roster (store (after localOffset sha256 events w)))).
Proof.
  intros Hw. by destruct (WorldOk_after events w (WorldOk_fresh w Hw)) as (_ & _ & Hroster & _).
Qed.

(** X5. In every such world, the names typed or picked at the gate
    being ids that Firestore takes, the name in the name box is empty or
    such an id and the name of the user signed in is such an id, so
    every [doc(db, "users", name)] of a handler is the document
    [users/<name>]; the component's [userDoc] is the stored document of
    its name, so no handler's [updateDoc] rejects. *)
Theorem handlers_find_their_document events e w :
  fresh w ->
  nameOk (selectedName (client w)) ->
  Forall eventOk events ->
  (forall name u, userDoc (client (after localOffset sha256 events w)) = Some (name, u) ->
     validId name = true /\
     users (store (after localOffset sha256 events w)) !! name = Some u) /\
  nameOk (selectedName (client (after localOffset sha256 events w))) /\
  (run (handle localOffset sha256 e) (after localOffset sha256 events w)).1 <> Rejected.
Proof.
  intros Hw Hbox Hev.
  pose proof (NamesOk_after events w (WorldOk_fresh w Hw) Hev (NamesOk_fresh w Hw Hbox))
    as (Hbox' & Huser' & _).
  pose proof (WorldOk_after events w (WorldOk_fresh w Hw)) as Hok.
  set (w' := after localOffset sha256 events w) in *. clearbody w'.
  destruct Hok as (_ & _ & _ & Hclient).
  split; [intros name u Hu; split; [by apply (Huser' name u) | by apply Hclient]|].
  split; [done|].
  destruct e as [name|name|text|form| |uuid|id|id today| ];
    try (plumbing; done).
  - simpl. destruct (decide (selectedName (client w') = "")) as [Hname|Hname].
    { by rewrite (handleEnter_empty_run sha256 w' (or_introl Hname)). }
    destruct (decide (code (client w') = "")) as [Hcode|Hcode].
    { by rewrite (handleEnter_empty_run sha256 w' (or_intror Hcode)). }
    destruct (users (store w') !! selectedName (client w')) as [data|] eqn:Hd.
    + destruct (decide (UserDoc.codeHash data = sha256 (code (client w')))) as [Hch|Hch].
      * by rewrite (handleEnter_match_run sha256 w' data) by done.
      * by rewrite (handleEnter_wrong_code_run sha256 w' data) by done.
    + by rewrite (handleEnter_create_run sha256 w') by done.
  - simpl. destruct (userDoc (client w')) as [[name u]|] eqn:Hu.
    + destruct (Hclient name u eq_refl) as [Hd _].
      destruct (decide (15 <= length (UserDoc.habits u))%nat) as [Hfull|Hroom].
      { unfold run, addHabit, mbind, action_bind, getClient. rewrite Hu.
        by destruct (Z.leb_spec 15 (Z.of_nat (length (UserDoc.habits u)))); [|lia]. }
      destruct (decide (JS.trim (JS.or_str (NewHabit.title (newHabit (client w'))) "Untitled") = ""))
        as [Hblank|Htitle].
      { by rewrite (addHabit_blank_run uuid w' name u) by (done || lia). }
      destruct (newIntervalDays (newHabit (client w'))) as [i|] eqn:Hi.
      * by rewrite (addHabit_run_client uuid w' name u u Hu Hd) by (done || lia || by eexists).
      * by rewrite (addHabit_beyond_run uuid w' name u u Hu Hd) by (done || lia).
    + by rewrite (proj1 (proj2 (handlers_without_user localOffset "" "" uuid w' Hu))).
  - simpl. destruct (userDoc (client w')) as [[name u]|] eqn:Hu.
    + destruct (Hclient name u eq_refl) as [Hd _].
      by rewrite (deleteHabit_run id w' name u u Hu Hd).
    + by rewrite (proj2 (proj2 (handlers_without_user localOffset id "" "" w' Hu))).
  - simpl. destruct (userDoc (client w')) as [[name u]|] eqn:Hu.
    + destruct (Hclient name u eq_refl) as [Hd _].
      by rewrite (completeHabit_run localOffset id today w' name u u Hu Hd).
    + by rewrite (proj1 (handlers_without_user localOffset id today "" w' Hu)).
Qed.

End Invariant.

(** ** Who stays on the leaderboard *)

Lemma elem_take_place (e : Player.t) (s : list Player.t) (n : nat) :
  Forall (Board.otherThan e) s ->
  StronglySorted descending s ->
  e ∈ take n (place e s) <->
  (length (filter (fun p => (Player.points e <= Player.points p)%Z) s) < n)%nat.
Proof.
  intros Hother Hsorted. revert n.
  induction Hsorted as [|y r Hr IH Hy]; intros n.
  - destruct n as [|n]; simpl; [|rewrite take_nil].
    + split; [by intros ?%elem_of_nil | lia].
    + split; [lia | intros _; apply list_elem_of_singleton; done].
  - apply Forall_cons in Hother as [Hyname Hother].
    simpl place. destruct (Z.leb_spec (Player.points e) (Player.points y)) as [Hey|Hey].
    + rewrite filter_cons_True by done.
      destruct n as [|n]; simpl; [split; [by intros ?%elem_of_nil | lia]|].
      rewrite elem_of_cons, (IH Hother n).
      split; [intros [->|?]; [by destruct Hyname | lia] | intros ?; right; lia].
    + rewrite filter_cons_False by lia.
      assert (Hnone : filter (fun p => Player.points e <= Player.points p) r = []).
      { clear IH Hother Hr. induction Hy as [|x r' Hx _ IHr]; [done|].
        unfold descending in Hx. rewrite filter_cons_False by lia. exact IHr. }
      rewrite Hnone. destruct n as [|n]; simpl; [split; [by intros ?%elem_of_nil | lia]|].
      split; [lia | intros _; apply elem_of_cons; by left].
Qed.

(** X6. The candidate is on the new leaderboard exactly when fewer than
    five players of other names have at least as many points: on equal
    points the entries already listed stay ahead. *)
Theorem reconcile_keeps_candidate (players : list Player.t) (me : Player.t) :
  me ∈ Board.reconcile players me <->
  (length (filter (fun p => (Player.points me <= Player.points p)%Z /\ Board.otherThan me p)
                  players) < 5)%nat.
Proof.
  rewrite reconcile_place, elem_take_place
    by (apply others_otherThan || apply others_sorted).
  unfold others. rewrite sort_Permutation, list_filter_filter. done.
Qed.

(** ** Due dates *)

Section DueFacts.

Variable localOffset : Z -> Z.

Lemma daysBetween_same (date : string) :
  is_Some (DateUtil.parseYMD date) -> DateUtil.daysBetween localOffset date date = Some 0.
Proof.
  intros [[[y m] d] Hp]. unfold DateUtil.daysBetween, DateUtil.localMidnight. rewrite Hp.
  f_equal. rewrite Z.sub_diag. reflexivity.
Qed.

Lemma parseYMD_nonempty (date : string) : is_Some (DateUtil.parseYMD date) -> date <> "".
Proof. intros [? Hp] ->. discriminate. Qed.

Lemma interval_markDone id today h : interval (markDone id today h) = interval h.
Proof. unfold markDone. by destruct (String.eqb (Habit.id h) id). Qed.

Lemma markDone_not_due id today h :
  Habit.id h = id -> is_Some (DateUtil.parseYMD today) ->
  isHabitDue localOffset (markDone id today h) today = false.
Proof.
  intros Hid Hp. pose proof (interval_markDone id today h) as Hint.
  pose proof (interval_pos h) as Hpos.
  unfold isHabitDue. rewrite Hint. unfold markDone.
  apply String.eqb_eq in Hid as ->. simpl.
  pose proof (parseYMD_nonempty _ Hp) as Hne. apply String.eqb_neq in Hne. rewrite Hne.
  rewrite daysBetween_same by done. simpl. lia.
Qed.

(** X7. A habit that has just been completed is not due any more that
    day, in any time zone, and its label counts the whole interval. *)
Theorem just_completed_not_due id today h :
  Habit.id h = id ->
  is_Some (DateUtil.parseYMD today) ->
  isHabitDue localOffset (markDone id today h) today = false /\
  nextDueIn localOffset (markDone id today h) today = Some (interval h).
Proof.
  intros Hid Hp. split; [by apply markDone_not_due|].
  pose proof (interval_markDone id today h) as Hint.
  pose proof (interval_pos h) as Hpos.
  unfold nextDueIn, lastDoneOr. rewrite Hint. unfold markDone.
  apply String.eqb_eq in Hid as ->. simpl.
  pose proof (parseYMD_nonempty _ Hp) as Hne. apply String.eqb_neq in Hne. rewrite Hne.
  rewrite daysBetween_same by done. f_equal. lia.
Qed.

(** X9. Where the zone's offset varies by less than half a day,
    [daysBetween] is the difference of the day numbers, in both
    directions, so a habit last done on a calendar date is due exactly
    from the day [interval] days after it on. *)
Theorem due_from_the_interval_on h last date y1 m1 d1 y2 m2 d2 :
  (forall a b, - DateUtil.msPerDay <= 2 * (localOffset a - localOffset b) < DateUtil.msPerDay) ->
  Habit.lastDoneDate h = Some last ->
  DateUtil.parseYMD last = Some (y1, m1, d1) ->
  DateUtil.parseYMD date = Some (y2, m2, d2) ->
  DateUtil.daysBetween localOffset last date =
    Some (DateUtil.days_from_civil y2 m2 d2 - DateUtil.days_from_civil y1 m1 d1) /\
  DateUtil.daysBetween localOffset date last =
    Some (DateUtil.days_from_civil y1 m1 d1 - DateUtil.days_from_civil y2 m2 d2) /\
  (isHabitDue localOffset h date = true <->
   DateUtil.days_from_civil y1 m1 d1 + interval h <= DateUtil.days_from_civil y2 m2 d2).
Proof.
  intros Hoff Hlast Hp1 Hp2.
  pose proof (daysBetween_exact localOffset last date _ _ _ _ _ _ Hoff Hp1 Hp2) as H12.
  pose proof (daysBetween_exact localOffset date last _ _ _ _ _ _ Hoff Hp2 Hp1) as H21.
  split_and!; [done | done |].
  unfold isHabitDue. rewrite Hlast, H12. simpl.
  assert (Hne : last <> "") by (apply parseYMD_nonempty; by eexists).
  apply String.eqb_neq in Hne as ->. rewrite Z.leb_le. lia.
Qed.

(** X10. For a habit that is not due, the number of the "Next due in"
    label, when there is one, is the interval less the days gone by and
    is more than 0: the clamp at 0 never applies. *)
Theorem nextDueIn_positive h today n :
  isHabitDue localOffset h today = false ->
  nextDueIn localOffset h today = Some n ->
  0 < n /\
  exists last gap,
    Habit.lastDoneDate h = Some last /\
    DateUtil.daysBetween localOffset last today = Some gap /\
    gap < interval h /\
    n = interval h - gap.
Proof.
  unfold isHabitDue, nextDueIn, lastDoneOr.
  destruct (Habit.lastDoneDate h) as [last|]; [|done]. simpl.
  destruct (String.eqb last ""); [done|].
  destruct (DateUtil.daysBetween localOffset last today) as [gap|] eqn:Hgap; [|done]. simpl.
  intros Hdue%Z.leb_gt [= <-]. split; [lia|].
  exists last, gap. split_and!; [done | done | lia | lia].
Qed.

Lemma dueCount_markDone id today (l : list Habit.t) :
  is_Some (DateUtil.parseYMD today) ->
  List.filter (fun h => isHabitDue localOffset h today) (markDone id today <$> l)
  = List.filter (fun h => isHabitDue localOffset h today && negb (String.eqb (Habit.id h) id)) l.
Proof.
  intros Hp. induction l as [|h r IH]; [done|]. rewrite fmap_cons. simpl.
  destruct (String.eqb_spec (Habit.id h) id) as [Hid|Hid].
  - rewrite (markDone_not_due id today h Hid Hp), andb_false_r. exact IH.
  - unfold markDone at 1 2. apply String.eqb_neq in Hid as ->.
    rewrite andb_true_r, IH. done.
Qed.

(** X11. After a completion on a calendar date, once the snapshot is
    pushed, the habits counted as due are exactly those that were due
    and carry another id; the count never grows. *)
Theorem dueCount_after_completion id today w name u d :
  userDoc (client w) = Some (name, u) ->
  users (store w) !! name = Some d ->
  name ∈ listeners (client w) ->
  is_Some (DateUtil.parseYMD today) ->
  dueCount localOffset (client (run (completeHabit localOffset id today) w).2) today
  = length (List.filter (fun h => isHabitDue localOffset h today
                                  && negb (String.eqb (Habit.id h) id)) (UserDoc.habits u)) /\
  (dueCount localOffset (client (run (completeHabit localOffset id today) w).2) today
   <= dueCount localOffset (client w) today)%nat.
Proof.
  intros Hu Hd Hin Hp. rewrite (completeHabit_run localOffset id today w name u d Hu Hd).
  simpl. rewrite pushed_listening by done. unfold dueCount. simpl. rewrite Hu.
  rewrite dueCount_markDone by done. split; [done|].
  induction (UserDoc.habits u) as [|h r IH]; simpl; [done|].
  destruct (isHabitDue localOffset h today), (negb _); simpl; lia.
Qed.

(** X12. Every further 100 xp raise the level by exactly one, the level
    never falls as xp grows, and it is at least 1 for xp that is not
    negative. *)
Theorem level_every_hundred (xp xp' : Z) :
  levelFromXP (xp + 100) = levelFromXP xp + 1 /\
  (xp <= xp' -> levelFromXP xp <= levelFromXP xp') /\
  (0 <= xp -> 1 <= levelFromXP xp).
Proof.
  rewrite !levelFromXP_floor. split_and!.
  - replace (xp + 100) with (xp + 1 * 100) by ring. rewrite Z.div_add by lia. lia.
  - intros Hle. apply (Z.div_le_mono _ _ 100) in Hle; lia.
  - intros Hxp. pose proof (Z.div_pos xp 100 Hxp). lia.
Qed.

End DueFacts.

(** ** The gate *)

Section GateMore.

Variable sha256 : string -> string.

(** X13. With the name or the code left empty, [handleEnter] alerts
    "Enter name and code" and changes nothing, not even the local code
    hash. *)
Theorem handleEnter_requires_name_and_code w :
  selectedName (client w) = "" \/ code (client w) = "" ->
  run (handleEnter sha256) w = (Alert "Enter name and code", w).
Proof. apply handleEnter_empty_run. Qed.

(** X14. Entering an existing name with the code whose hash is stored
    signs in without a write: the store is as before, [userDoc] is the
    stored document under that name, loading is over and a listener on
    the document is registered. *)
Theorem handleEnter_signs_in w data :
  selectedName (client w) <> "" ->
  code (client w) <> "" ->
  users (store w) !! selectedName (client w) = Some data ->
  UserDoc.codeHash data = sha256 (code (client w)) ->
  exists w',
    run (handleEnter sha256) w = (Done, w') /\
    store w' = store w /\
    userDoc (client w') = Some (selectedName (client w), data) /\
    loading (client w') = false /\
    selectedName (client w) ∈ listeners (client w').
Proof.
  intros Hname Hcode Hd Hch. eexists. split; [by apply handleEnter_match_run|].
  simpl. split_and!; try done. apply elem_of_cons. by left.
Qed.

(** X15. Entering a name that Firestore takes as an id and that has no
    document creates it with the hash of the code, no points, no xp,
    level 1, no streak, no active date and no habits; the documents of
    other names and the leaderboard are as before, and the new user is
    signed in. *)
Theorem handleEnter_creates_defaults w :
  validId (selectedName (client w)) = true ->
  code (client w) <> "" ->
  users (store w) !! selectedName (client w) = None ->
  exists w',
    run (handleEnter sha256) w = (Done, w') /\
    users (store w') !! selectedName (client w)
      = Some (UserDoc.mk (sha256 (code (client w))) 0 0 1 0 None []) /\
    (forall other, other <> selectedName (client w) ->
       users (store w') !! other = users (store w) !! other) /\
    leaderboard (store w') = leaderboard (store w) /\
    userDoc (client w')
      = Some (selectedName (client w), UserDoc.mk (sha256 (code (client w))) 0 0 1 0 None []).
Proof.
  intros Hvalid Hcode Hd.
  assert (Hname : selectedName (client w) <> "") by (by intros Hempty; rewrite Hempty in Hvalid).
  eexists. split; [by apply handleEnter_create_run|].
  simpl. split_and!; try done.
  - apply lookup_insert_eq.
  - intros other Hne. by rewrite lookup_insert_ne.
Qed.



End GateMore.

(** ** Adding, deleting and completing *)

Section HabitMore.

Variable localOffset : Z -> Z.

(** X18. A title that is blank once trimmed is refused with the alert
    "Give the habit a title" and nothing changes; an empty title is not
    refused: the habit is stored with the title "Untitled". *)
Theorem addHabit_title uuid w name u d i :
  userDoc (client w) = Some (name, u) ->
  users (store w) !! name = Some d ->
  (length (UserDoc.habits u) < 15)%nat ->
  newIntervalDays (newHabit (client w)) = Some i ->
  (NewHabit.title (newHabit (client w)) = "" ->
     exists w' d' h,
       run (addHabit uuid) w = (Done, w') /\
       users (store w') !! name = Some d' /\
       UserDoc.habits d' = UserDoc.habits u ++ [h] /\
       Habit.title h = "Untitled") /\
  (JS.trim (JS.or_str (NewHabit.title (newHabit (client w))) "Untitled") = "" ->
     NewHabit.title (newHabit (client w)) <> "" /\
     run (addHabit uuid) w = (Alert "Give the habit a title", w)).
Proof.
  intros Hu Hd Hlen Hi. split.
  - intros Htitle.
    assert (Hkept : JS.trim (JS.or_str (NewHabit.title (newHabit (client w))) "Untitled")
                    = "Untitled") by (by rewrite Htitle).
    destruct (addHabit_run uuid w name u d i) as [c' Hrun]; try done.
    { by rewrite Hkept. }
    eexists _, _, _. split; [exact Hrun|]. simpl.
    split; [apply lookup_insert_eq|]. by rewrite (habit_fields _ _ _ Hi), Hkept.
  - intros Hblank. split.
    + intros Htitle. by rewrite Htitle in Hblank.
    + by apply (addHabit_blank_run uuid w name u).
Qed.

(** X19. A habit that is added goes to the end of the list with the
    given id and the trimmed title, never done, no completions, so it is
    due on every date; its interval is 2 for every2days, the number
    typed when that is a whole number of days from 1 on for custom, and
    1 for every other frequency; the form is reset. *)
Theorem addHabit_stores_new_habit uuid w name u d i :
  userDoc (client w) = Some (name, u) ->
  users (store w) !! name = Some d ->
  (length (UserDoc.habits u) < 15)%nat ->
  JS.trim (JS.or_str (NewHabit.title (newHabit (client w))) "Untitled") <> "" ->
  newIntervalDays (newHabit (client w)) = Some i ->
  exists w' d' h,
    run (addHabit uuid) w = (Done, w') /\
    users (store w') !! name = Some d' /\
    UserDoc.habits d' = UserDoc.habits u ++ [h] /\
    newHabit (client w') = NewHabit.mk "" "daily" (NewHabit.NumberValue 1) /\
    Habit.id h = uuid /\
    Habit.title h = JS.trim (JS.or_str (NewHabit.title (newHabit (client w))) "Untitled") /\
    Habit.lastDoneDate h = None /\ Habit.totalCompletions h = 0 /\
    Habit.freq h = NewHabit.freq (newHabit (client w)) /\
    (forall date, isHabitDue localOffset h date = true) /\
    (Habit.freq h = "every2days" -> Habit.intervalDays h = 2) /\
    (Habit.freq h <> "every2days" -> Habit.freq h <> "custom" -> Habit.intervalDays h = 1) /\
    (forall n, Habit.freq h = "custom" ->
       wholeInterval (NewHabit.intervalDays (newHabit (client w))) n ->
       Habit.intervalDays h = n).
Proof.
  intros Hu Hd Hlen Htitle Hi. eexists _, _, (habit uuid (newHabit (client w))).
  split; [apply (addHabit_run_client uuid w name u d); by try eexists|].
  simpl. split; [apply lookup_insert_eq|].
  pose proof Hi as Hstored. rewrite Hi. simpl. split_and!; try done.
  - intros Hfreq. rewrite newIntervalDays_plain in Hstored by (by rewrite Hfreq).
    rewrite Hfreq in Hstored. by injection Hstored.
  - intros H2 Hc. rewrite newIntervalDays_plain in Hstored by done.
    apply String.eqb_neq in H2. rewrite H2 in Hstored. by injection Hstored.
  - intros n Hfreq Hwhole. rewrite (newIntervalDays_whole _ n Hfreq Hwhole) in Hstored.
    by injection Hstored.
Qed.

(** X20. [deleteHabit] stores the list without the habits of the given
    id, the others in their order; the points, xp, level, streak, active
    date and code hash of the document, the documents of other names,
    the roster and the leaderboard are as before. *)
Theorem deleteHabit_removes id w name u d :
  userDoc (client w) = Some (name, u) ->
  users (store w) !! name = Some d ->
  exists w' d',
    run (deleteHabit id) w = (Done, w') /\
    users (store w') !! name = Some d' /\
    UserDoc.habits d' = filter (fun h => Habit.id h <> id) (UserDoc.habits u) /\
    (UserDoc.codeHash d', UserDoc.points d', UserDoc.xp d', UserDoc.level d',
     UserDoc.overallStreak d', UserDoc.lastActiveDate d')
      = (UserDoc.codeHash d, UserDoc.points d, UserDoc.xp d, UserDoc.level d,
         UserDoc.overallStreak d, UserDoc.lastActiveDate d) /\
    (forall other, other <> name -> users (store w') !! other = users (store w) !! other) /\
    roster (store w') = roster (store w) /\
    leaderboard (store w') = leaderboard (store w).
Proof.
  intros Hu Hd. eexists _, _. split; [by apply deleteHabit_run|]. simpl.
  split; [apply lookup_insert_eq|]. simpl. split_and!; try done.
  - induction (UserDoc.habits u) as [|h r IH]; [done|]. simpl. rewrite filter_cons.
    destruct (String.eqb_spec (Habit.id h) id), (decide (Habit.id h <> id)); simpl;
      try done; by rewrite IH.
  - intros other Hne. by rewrite lookup_insert_ne.
Qed.

(** X21. Adding a habit under an id that no habit carries and deleting
    that id again stores the list that was there before (the snapshot
    being pushed in between). *)
Theorem addHabit_then_deleteHabit uuid w name u d :
  userDoc (client w) = Some (name, u) ->
  users (store w) !! name = Some d ->
  name ∈ listeners (client w) ->
  (length (UserDoc.habits u) < 15)%nat ->
  JS.trim (JS.or_str (NewHabit.title (newHabit (client w))) "Untitled") <> "" ->
  Forall (fun h => Habit.id h <> uuid) (UserDoc.habits u) ->
  exists w2,
    run (deleteHabit uuid) (run (addHabit uuid) w).2 = (Done, w2) /\
    users (store w2) !! name = Some (withHabits (UserDoc.habits u) d).
Proof.
  intros Hu Hd Hin Hlen Htitle Hfresh.
  assert (Hsame : List.filter (fun h => negb (String.eqb (Habit.id h) uuid)) (UserDoc.habits u)
                  = UserDoc.habits u).
  { clear -Hfresh. induction Hfresh as [|h r Hh _ IH]; [done|]. simpl.
    apply String.eqb_neq in Hh as ->. simpl. by rewrite IH. }
  destruct (newIntervalDays (newHabit (client w))) as [i|] eqn:Hi.
  - rewrite (addHabit_run_client uuid w name u d) by (done || by eexists). simpl.
    rewrite pushed_listening by done. simpl.
    erewrite deleteHabit_run; [|reflexivity|simpl; apply lookup_insert_eq].
    eexists. split; [done|]. simpl. rewrite lookup_insert_eq. f_equal.
    unfold withHabits. simpl. f_equal.
    rewrite List.filter_app. simpl. rewrite String.eqb_refl. simpl.
    by rewrite app_nil_r, Hsame.
  - rewrite (addHabit_beyond_run uuid w name u d) by done. simpl.
    rewrite (deleteHabit_run uuid w name u d Hu Hd).
    eexists. split; [done|]. simpl. by rewrite lookup_insert_eq, Hsame.
Qed.

(** X22. [completeHabit] writes the user's own document and the
    leaderboard only: the documents of other names and the roster are as
    before, and the code hash of the user's document is kept. *)
Theorem completeHabit_touches_own_document id today w name u d :
  userDoc (client w) = Some (name, u) ->
  users (store w) !! name = Some d ->
  exists w' d',
    run (completeHabit localOffset id today) w = (Done, w') /\
    users (store w') !! name = Some d' /\
    UserDoc.codeHash d' = UserDoc.codeHash d /\
    UserDoc.lastActiveDate d' = Some today /\
    (forall other, other <> name -> users (store w') !! other = users (store w) !! other) /\
    roster (store w') = roster (store w).
Proof.
  intros Hu Hd. eexists _, _. split; [by apply completeHabit_run|]. simpl.
  split; [apply lookup_insert_eq|]. split_and!; try done.
  intros other Hne. by rewrite lookup_insert_ne.
Qed.

(** X23. When the user's document is gone from the store, the
    [updateDoc] of [completeHabit] rejects: no document is created and
    the leaderboard is not touched. *)
Theorem completeHabit_needs_document id today w name u :
  userDoc (client w) = Some (name, u) ->
  users (store w) !! name = None ->
  run (completeHabit localOffset id today) w = (Rejected, w) /\
  run (addHabit id) w = (if (15 <=? Z.of_nat (length (UserDoc.habits u)))
                         then Alert "Max 15 habits"
                         else if String.eqb (JS.trim (JS.or_str (NewHabit.title (newHabit (client w))) "Untitled")) ""
                              then Alert "Give the habit a title" else Rejected, w) /\
  run (deleteHabit id) w = (Rejected, w).
Proof.
  intros Hu Hd. split_and!.
  - by apply (completeHabit_without_document localOffset id today w name u).
  - unfold run, addHabit, mbind, action_bind, getClient. rewrite Hu.
    destruct (15 <=? _); [done|]. destruct (String.eqb _ ""); [done|].
    destruct (newIntervalDays _); unfold updateBeyond; handler; by rewrite Hd.
  - unfold run, deleteHabit, mbind, action_bind, getClient. rewrite Hu.
    handler. by rewrite Hd.
Qed.

End HabitMore.

(** * Examples *)

(** Midnights across the change to summer time are 47 hours apart;
    [Math.round] makes that two days. *)
Example daysBetween_summerTime :
  DateUtil.daysBetween summerTime "2024-03-30" "2024-04-01" = Some 2 /\
  DateUtil.daysBetween summerTime "2024-01-01" "2024-01-04" = Some 3 /\
  DateUtil.daysBetween summerTime "2024-01-04" "2024-01-01" = Some (-3).
Proof. by vm_compute. Qed.

(** The custom habit of every three days, last done on 2024-01-01, is due
    on 2024-01-04. *)
Lemma isHabitDue_effectiveInterval_witness :
  isHabitDue summerTime stretching "2024-01-04" = true.
Proof.
  apply (proj2 (proj2 (isHabitDue_effectiveInterval summerTime stretching "2024-01-04"))
               "2024-01-01"); [reflexivity | discriminate |].
  exists 3. split; [reflexivity | vm_compute; discriminate].
Defined.

Example isHabitDue_examples :
  isHabitDue utc (Habit.mk "h" "t" "daily" 1 (Some "2024-01-01") 1) "2024-01-02" = true /\
  isHabitDue utc (Habit.mk "h" "t" "daily" 1 (Some "2024-01-01") 1) "2024-01-01" = false /\
  isHabitDue utc stretching "2024-01-03" = false /\
  isHabitDue utc (Habit.mk "h" "t" "every2days" 1 None 0) "2024-01-01" = true.
Proof. by vm_compute. Qed.

(** Ann, at xp 95, completes a habit: xp 105 and level 2 are stored. *)
Lemma completeHabit_scoring_witness :
  exists w' d',
    run (completeHabit utc "h2" "2024-01-04") signedIn = (Done, w') /\
    users (store w') !! "ann" = Some d' /\
    UserDoc.points d' = UserDoc.points ann + 10 /\
    UserDoc.xp d' = UserDoc.xp ann + 10 /\
    UserDoc.level d' = (UserDoc.xp ann + 10) / 100 + 1 /\
    (UserDoc.xp ann = 95 -> UserDoc.xp d' = 105 /\ UserDoc.level d' = 2).
Proof.
  apply (completeHabit_scoring utc "h2" "2024-01-04" signedIn "ann" ann ann); reflexivity.
Defined.

(** Ann was last active on 2024-01-01 with a streak of 4. *)
Lemma completeHabit_streak_witness :
  exists w' d',
    run (completeHabit utc "h2" "2024-01-02") signedIn = (Done, w') /\
    users (store w') !! "ann" = Some d' /\
    (UserDoc.lastActiveDate ann = Some "2024-01-02" ->
       UserDoc.overallStreak d' = UserDoc.overallStreak ann) /\
    (UserDoc.lastActiveDate ann = None -> UserDoc.overallStreak d' = 1) /\
    (forall last, UserDoc.lastActiveDate ann = Some last -> last <> "2024-01-02" ->
       (DateUtil.daysBetween utc last "2024-01-02" = Some 1 ->
          UserDoc.overallStreak d' = UserDoc.overallStreak ann + 1) /\
       (DateUtil.daysBetween utc last "2024-01-02" <> Some 1 ->
          UserDoc.overallStreak d' = 1)) /\
    newStreak utc d' "2024-01-02" = UserDoc.overallStreak d'.
Proof.
  apply (completeHabit_streak utc "h2" "2024-01-02" signedIn "ann" ann ann); reflexivity.
Defined.

Example newStreak_examples :
  newStreak utc ann "2024-01-02" = 5 /\
  newStreak utc ann "2024-01-01" = 4 /\
  newStreak utc ann "2024-01-04" = 1 /\
  newStreak utc ann "2023-12-31" = 1 /\
  newStreak utc (crowded 0) "2024-01-02" = 1.
Proof. by vm_compute. Qed.

(** [reading] was done on 2024-01-02 already and is not due that day;
    completing it again is stored all the same. *)
Lemma completeHabit_marks_done_witness :
  isHabitDue utc reading "2024-01-02" = false /\
  exists w' d',
    run (completeHabit utc "h1" "2024-01-02") signedIn = (Done, w') /\
    users (store w') !! "ann" = Some d' /\
    UserDoc.habits d' !! 0%nat =
      Some (Habit.mk (Habit.id reading) (Habit.title reading) (Habit.freq reading)
                     (Habit.intervalDays reading) (Some "2024-01-02")
                     (Habit.totalCompletions reading + 1)) /\
    length (UserDoc.habits d') = length (UserDoc.habits ann) /\
    (forall j h2, UserDoc.habits ann !! j = Some h2 -> Habit.id h2 <> "h1" ->
                  UserDoc.habits d' !! j = Some h2).
Proof.
  split; [reflexivity|].
  apply (completeHabit_marks_done utc "h1" "2024-01-02" signedIn "ann" ann ann 0%nat reading);
    reflexivity.
Defined.

(** Two entries of one name that is not the candidate's both stay. *)
Lemma reconcile_keeps_repeated_name :
  Board.reconcile [Player.mk "B" 5 1 1; Player.mk "B" 3 1 1] (Player.mk "A" 7 1 1)
    = [Player.mk "A" 7 1 1; Player.mk "B" 5 1 1; Player.mk "B" 3 1 1] /\
  ~ NoDup (Player.name <$>
             Board.reconcile [Player.mk "B" 5 1 1; Player.mk "B" 3 1 1] (Player.mk "A" 7 1 1)).
Proof.
  split; [reflexivity|]. vm_compute.
  intros Hnd. apply NoDup_cons in Hnd as [_ Hnd]. apply NoDup_cons in Hnd as [Hin _].
  apply Hin. apply list_elem_of_singleton. reflexivity.
Qed.

(** A sixth player with 65 points pushes the one with 50 off the list. *)
Lemma reconcile_top_five_witness :
  exists low,
    Board.reconcile topFive (Player.mk "f" 65 1 1) ++ [low] ≡ₚ topFive ++ [Player.mk "f" 65 1 1] /\
    Forall (fun p => Player.points low < Player.points p)
           (Board.reconcile topFive (Player.mk "f" 65 1 1)).
Proof.
  apply (reconcile_top_five topFive (Player.mk "f" 65 1 1)).
  - reflexivity.
  - unfold Board.otherThan. repeat constructor; discriminate.
  - apply (bool_decide_unpack _). vm_compute. exact I.
Defined.

Example reconcile_examples :
  Board.reconcile topFive (Player.mk "f" 65 1 1)
    = [Player.mk "a" 90 1 1; Player.mk "b" 80 1 1; Player.mk "c" 70 1 1;
       Player.mk "f" 65 1 1; Player.mk "d" 60 1 1] /\
  Board.reconcile topFive (Player.mk "f" 40 1 1) = topFive /\
  Board.reconcile topFive (Player.mk "c" 85 2 1)
    = [Player.mk "a" 90 1 1; Player.mk "c" 85 2 1; Player.mk "b" 80 1 1;
       Player.mk "d" 60 1 1; Player.mk "e" 50 1 1] /\
  Board.reconcile topFive (Player.mk "f" 70 1 1)
    = [Player.mk "a" 90 1 1; Player.mk "b" 80 1 1; Player.mk "c" 70 1 1;
       Player.mk "f" 70 1 1; Player.mk "d" 60 1 1].
Proof. by vm_compute. Qed.

(** The list holds "c" already; after two insertions it holds "c" once. *)
Lemma reconcile_twice_witness :
  entriesFor "c" (Board.reconcile (Board.reconcile topFive (Player.mk "c" 70 1 1))
                                  (Player.mk "c" 70 1 1)) = 1%nat.
Proof.
  apply (proj2 (proj2 (proj2 (reconcile_twice topFive (Player.mk "c" 70 1 1))))).
  - vm_compute. lia.
  - exists (Player.mk "c" 70 1 1). split; [|reflexivity].
    apply list_elem_of_In. vm_compute. tauto.
Defined.



(** The code [0000] at Ann's name, whose code is [1234]. *)
Lemma handleEnter_wrong_code_witness :
  exists w',
    run (handleEnter digest) atGate = (Alert "Wrong code for this name", w') /\
    store w' = store atGate /\
    userDoc (client w') = userDoc (client atGate) /\
    listeners (client w') = listeners (client atGate).
Proof.
  apply (handleEnter_wrong_code digest atGate ann);
    [discriminate | discriminate | reflexivity | vm_compute; discriminate].
Defined.

(** The interval texts [0], [abc], [-3] and the empty text raise no
    error: the habit is stored with the interval 1. *)
Lemma addHabit_accepts_malformed_interval :
  (run (addHabit "h3") (typing "0")).1 = Done /\
  UserDoc.habits <$> users (store (run (addHabit "h3") (typing "0")).2) !! "ann"
    = Some [reading; stretching; Habit.mk "h3" "Run" "custom" 1 None 0] /\
  (run (addHabit "h3") (typing "abc")).1 = Done /\
  UserDoc.habits <$> users (store (run (addHabit "h3") (typing "abc")).2) !! "ann"
    = Some [reading; stretching; Habit.mk "h3" "Run" "custom" 1 None 0] /\
  (run (addHabit "h3") (typing "-3")).1 = Done /\
  (run (addHabit "h3") (typing "")).1 = Done.
Proof. by vm_compute. Qed.

Lemma addHabit_clamps_interval_witness :
  exists w' d' h,
    run (addHabit "h3") (typing "abc") = (Done, w') /\
    users (store w') !! "ann" = Some d' /\
    UserDoc.habits d' = UserDoc.habits ann ++ [h] /\
    Habit.intervalDays h = 1 /\
    h = Habit.mk "h3" (JS.trim (JS.or_str (NewHabit.title (newHabit (client (typing "abc")))) "Untitled"))
                 "custom" 1 None 0 /\
    UserDoc.codeHash d' = UserDoc.codeHash ann /\
    UserDoc.points d' = UserDoc.points ann /\
    UserDoc.xp d' = UserDoc.xp ann /\
    UserDoc.level d' = UserDoc.level ann /\
    UserDoc.overallStreak d' = UserDoc.overallStreak ann /\
    UserDoc.lastActiveDate d' = UserDoc.lastActiveDate ann.
Proof.
  apply (addHabit_clamps_interval "h3" (typing "abc") "ann" ann ann);
    [reflexivity | reflexivity | vm_compute; lia | vm_compute; discriminate
    | reflexivity | exact I].
Defined.

Example malformedInterval_examples :
  malformedInterval (NewHabit.TextValue "0.5") /\
  malformedInterval (NewHabit.TextValue "-2.5") /\
  malformedInterval (NewHabit.TextValue "-Infinity") /\
  malformedInterval (NewHabit.TextValue "1e-3") /\
  malformedInterval (NewHabit.TextValue "12 days") /\
  ~ malformedInterval (NewHabit.TextValue "1e2") /\
  ~ malformedInterval (NewHabit.TextValue "3.0") /\
  ~ malformedInterval (NewHabit.TextValue "2.5") /\
  ~ malformedInterval (NewHabit.TextValue "0x10") /\
  ~ malformedInterval (NewHabit.TextValue "Infinity") /\
  ~ malformedInterval (NewHabit.NumberValue 1).
Proof.
  unfold malformedInterval.
  split_and!; vm_compute;
    first [ exact I | reflexivity | left; reflexivity | right; reflexivity
          | intros [H|H]; discriminate | intros H; discriminate ].
Qed.

(** What [addHabit] stores for a custom interval: the whole number that
    the text denotes; a fraction from 1 on and [Infinity] are beyond the
    integers of this model. *)
Example newIntervalDays_examples :
  newIntervalDays (NewHabit.mk "Run" "custom" (NewHabit.TextValue "1e2")) = Some 100 /\
  newIntervalDays (NewHabit.mk "Run" "custom" (NewHabit.TextValue "3.0")) = Some 3 /\
  newIntervalDays (NewHabit.mk "Run" "custom" (NewHabit.TextValue " 7 ")) = Some 7 /\
  newIntervalDays (NewHabit.mk "Run" "custom" (NewHabit.TextValue "0x10")) = Some 16 /\
  newIntervalDays (NewHabit.mk "Run" "custom" (NewHabit.TextValue "0.5")) = Some 1 /\
  newIntervalDays (NewHabit.mk "Run" "custom" (NewHabit.TextValue "7 days")) = Some 1 /\
  newIntervalDays (NewHabit.mk "Run" "custom" (NewHabit.TextValue "2.5")) = None /\
  newIntervalDays (NewHabit.mk "Run" "custom" (NewHabit.TextValue "Infinity")) = None /\
  newIntervalDays (NewHabit.mk "Run" "daily" (NewHabit.TextValue "2.5")) = Some 1 /\
  run (addHabit "h3") (typing "2.5") = (Beyond, typing "2.5").
Proof. by vm_compute. Qed.

(** No habit of Ann's carries the id [gone]. *)
Lemma completeHabit_unknown_id_witness :
  exists w' d' board,
    run (completeHabit utc "gone" "2024-01-02") signedIn = (Done, w') /\
    users (store w') !! "ann" = Some d' /\
    UserDoc.habits d' = UserDoc.habits ann /\
    UserDoc.points d' = UserDoc.points ann + 10 /\
    UserDoc.xp d' = UserDoc.xp ann + 10 /\
    UserDoc.level d' = (UserDoc.xp ann + 10) / 100 + 1 /\
    UserDoc.lastActiveDate d' = Some "2024-01-02" /\
    UserDoc.codeHash d' = UserDoc.codeHash ann /\
    (UserDoc.lastActiveDate ann = Some "2024-01-02" ->
       UserDoc.overallStreak d' = UserDoc.overallStreak ann) /\
    (UserDoc.lastActiveDate ann = None -> UserDoc.overallStreak d' = 1) /\
    (forall last, UserDoc.lastActiveDate ann = Some last -> last <> "2024-01-02" ->
       (DateUtil.daysBetween utc last "2024-01-02" = Some 1 ->
          UserDoc.overallStreak d' = UserDoc.overallStreak ann + 1) /\
       (DateUtil.daysBetween utc last "2024-01-02" <> Some 1 ->
          UserDoc.overallStreak d' = 1)) /\
    leaderboard (store w') = Some board /\
    (length board <= 5)%nat /\
    (exists s,
       s ≡ₚ filter (fun p => Player.name p <> "ann") (default [] (leaderboard (store signedIn)))
              ++ [Player.mk "ann" (UserDoc.points d') (UserDoc.overallStreak d') (UserDoc.level d')] /\
       StronglySorted descending s /\
       board = take 5 s).
Proof.
  apply (completeHabit_unknown_id utc "gone" "2024-01-02" signedIn "ann" ann ann);
    [reflexivity | reflexivity | repeat constructor; discriminate].
Defined.

Example completeHabit_unknown_id_example :
  (run (completeHabit utc "gone" "2024-01-02") signedIn).1 = Done /\
  users (store (run (completeHabit utc "gone" "2024-01-02") signedIn).2) !! "ann"
    = Some (UserDoc.mk (digest "1234") 100 105 2 5 (Some "2024-01-02") [reading; stretching]) /\
  leaderboard (store (run (completeHabit utc "gone" "2024-01-02") signedIn).2)
    = Some [Player.mk "ann" 100 5 2].
Proof. by vm_compute. Qed.

(** Two completions on one day count the streak once; the next day adds
    one. *)
Example firstVisit_result :
  (run firstVisit emptyWorld).1 = Done /\
  users (store (run firstVisit emptyWorld).2) !! "ann"
    = Some (UserDoc.mk (digest "1234") 30 30 1 2 (Some "2024-01-02")
              [Habit.mk "h1" "Read" "custom" 1 (Some "2024-01-02") 3]) /\
  roster (store (run firstVisit emptyWorld).2) = Some ["ann"] /\
  leaderboard (store (run firstVisit emptyWorld).2) = Some [Player.mk "ann" 30 2 1] /\
  userDoc (client (run firstVisit emptyWorld).2)
    = Some ("ann", UserDoc.mk (digest "1234") 30 30 1 2 (Some "2024-01-02")
                     [Habit.mk "h1" "Read" "custom" 1 (Some "2024-01-02") 3]).
Proof. by vm_compute. Qed.

(** ** Trimmed titles *)

Lemma chars_rev_string (s acc : string) :
  list_ascii_of_string (JS.rev_string s acc)
  = rev_append (list_ascii_of_string s) (list_ascii_of_string acc).
Proof.
  revert acc. induction s as [|c r IH]; intros acc; simpl; [done|]. by rewrite IH.
Qed.

Section Skip.

Variable two : ascii -> ascii -> bool.
Variable three : ascii -> ascii -> ascii -> bool.

Lemma chars_strip_upto (n : nat) (s : string) :
  (String.length s <= n)%nat ->
  list_ascii_of_string (JS.strip two three s) = skip two three (list_ascii_of_string s).
Proof.
  revert s. induction n as [|n IH]; intros s Hn.
  - destruct s; [done | simpl in Hn; lia].
  - destruct s as [|a r1]; [done|]. simpl in Hn. simpl.
    destruct (JS.is_space a); [apply IH; lia|].
    destruct r1 as [|b r2]; [done|]. simpl in Hn. simpl.
    destruct (two a b); [apply IH; lia|].
    destruct r2 as [|c r3]; [done|]. simpl in Hn. simpl.
    destruct (three a b c); [apply IH; lia | done].
Qed.

Lemma chars_strip (s : string) :
  list_ascii_of_string (JS.strip two three s) = skip two three (list_ascii_of_string s).
Proof. by apply (chars_strip_upto (String.length s)). Qed.

(** What [skip] leaves is the end of the list, with no white space at
    its head. *)
Lemma skip_upto (n : nat) (l : list ascii) :
  (length l <= n)%nat ->
  skip two three l `suffix_of` l /\ stuck two three (skip two three l).
Proof.
  revert l. induction n as [|n IH]; intros l Hn.
  - destruct l; [done | simpl in Hn; lia].
  - destruct l as [|a r1]; [done|]. simpl in Hn. simpl.
    destruct (JS.is_space a) eqn:Ha.
    { destruct (IH r1) as [Hsuffix Hstuck]; [lia|]. split; [by apply suffix_cons_r | done]. }
    destruct r1 as [|b r2]; [done|]. simpl in Hn.
    destruct (two a b) eqn:Hab.
    { destruct (IH r2) as [Hsuffix Hstuck]; [lia|].
      split; [by do 2 apply suffix_cons_r | done]. }
    destruct r2 as [|c r3]; [done|]. simpl in Hn.
    destruct (three a b c) eqn:Habc; [|done].
    destruct (IH r3) as [Hsuffix Hstuck]; [lia|].
    split; [by do 3 apply suffix_cons_r | done].
Qed.

Lemma skip_suffix (l : list ascii) : skip two three l `suffix_of` l.
Proof. by apply (skip_upto (length l)). Qed.

Lemma skip_stuck (l : list ascii) : stuck two three (skip two three l).
Proof. by apply (skip_upto (length l)). Qed.

Lemma stuck_skip (l : list ascii) : stuck two three l -> skip two three l = l.
Proof.
  destruct l as [|a [|b [|c r]]]; simpl; try done.
  - by intros [-> _].
  - by intros (-> & -> & _).
  - by intros (-> & -> & ->).
Qed.

Lemma stuck_prefix (k l : list ascii) : stuck two three l -> k `prefix_of` l -> stuck two three k.
Proof.
  intros Hl [rest ->].
  destruct k as [|a [|b [|c r]]]; simpl in *; try done.
  - by destruct Hl.
  - destruct Hl as (? & ? & _). done.
Qed.

Lemma stuck_head (l : list ascii) (c : ascii) :
  stuck two three l -> head l = Some c -> JS.is_space c = false.
Proof. destruct l; simpl; [done|]. by intros [? _] [= <-]. Qed.

End Skip.

Lemma suffix_last (k l : list ascii) (c : ascii) :
  k `suffix_of` l -> last k = Some c -> last l = Some c.
Proof. intros [rest ->] Hc. by rewrite last_app, Hc. Qed.

Lemma chars_trim (s : string) :
  list_ascii_of_string (JS.trim s)
  = reverse (skip (fun a b => JS.is_space2 b a) (fun a b c => JS.is_space3 c b a)
                  (reverse (skip JS.is_space2 JS.is_space3 (list_ascii_of_string s)))).
Proof.
  unfold JS.trim, JS.trim_start, JS.trim_start_backwards, reverse.
  by rewrite chars_rev_string, chars_strip, chars_rev_string, chars_strip.
Qed.

Lemma trim_clean (s : string) :
  (forall c, head (list_ascii_of_string (JS.trim s)) = Some c -> JS.is_space c = false) /\
  (forall c, last (list_ascii_of_string (JS.trim s)) = Some c -> JS.is_space c = false).
Proof.
  rewrite chars_trim. split; intros c.
  - rewrite head_reverse. intros Hc.
    apply (suffix_last _ _ _ (skip_suffix _ _ _)) in Hc. rewrite last_reverse in Hc.
    by apply (stuck_head _ _ _ _ (skip_stuck _ _ _)) in Hc.
  - rewrite last_reverse. apply (stuck_head _ _ _ _ (skip_stuck _ _ _)).
Qed.

Lemma trim_twice (s : string) : JS.trim (JS.trim s) = JS.trim s.
Proof.
  assert (Hchars : list_ascii_of_string (JS.trim (JS.trim s))
                   = list_ascii_of_string (JS.trim s)).
  { rewrite (chars_trim (JS.trim s)), (chars_trim s).
    set (front := skip JS.is_space2 JS.is_space3 (list_ascii_of_string s)).
    set (back := skip _ _ (reverse front)).
    assert (Hfront : stuck JS.is_space2 JS.is_space3 (reverse back)).
    { apply (stuck_prefix _ _ _ front); [apply skip_stuck|].
      rewrite <- (reverse_involutive front). apply suffix_prefix_reverse, skip_suffix. }
    rewrite (stuck_skip _ _ _ Hfront), reverse_involutive.
    by rewrite (stuck_skip _ _ back) by apply skip_stuck. }
  apply (f_equal string_of_list_ascii) in Hchars.
  by rewrite !string_of_list_ascii_of_string in Hchars.
Qed.

(** X24. [trim] leaves no white space at either end and trimming twice
    is trimming once; so the title that [addHabit] stores neither starts
    nor ends with white space. *)
Theorem stored_title_trimmed (uuid : string) (form : NewHabit.t) (s : string) :
  (forall c, head (list_ascii_of_string (JS.trim s)) = Some c -> JS.is_space c = false) /\
  (forall c, last (list_ascii_of_string (JS.trim s)) = Some c -> JS.is_space c = false) /\
  JS.trim (JS.trim s) = JS.trim s /\
  (forall c, head (list_ascii_of_string (Habit.title (habit uuid form))) = Some c \/
             last (list_ascii_of_string (Habit.title (habit uuid form))) = Some c ->
             JS.is_space c = false).
Proof.
  destruct (trim_clean s) as [Hhead Hlast].
  split_and!; [done | done | apply trim_twice |].
  - unfold habit. simpl.
    destruct (trim_clean (JS.or_str (NewHabit.title form) "Untitled")) as [H1 H2].
    intros c [Hc|Hc]; eauto.
Qed.

(** ** Listeners *)

Section ListenerFacts.

Variable localOffset : Z -> Z.
Variable sha256 : string -> string.

Lemma listeners_pushed name data c : listeners (pushed name data c) = listeners c.
Proof. apply pushed_store_fields. Qed.

Lemma updateUser_listeners name fields w :
  match updateUser name fields w with
  | Next _ w' | Stop _ w' => listeners (client w') = listeners (client w)
  end.
Proof.
  destruct (users (store w) !! name) as [d|] eqn:Hd.
  - rewrite (updateUser_run _ _ _ _ Hd). simpl. apply listeners_pushed.
  - handler. by rewrite Hd.
Qed.

Lemma listeners_kept e w name :
  name ∈ listeners (client w) ->
  name ∈ listeners (client (run (handle localOffset sha256 e) w).2).
Proof.
  intros Hin.
  destruct e as [n|n|text|form| |uuid|id|id today| ]; try (by plumbing).
  - simpl. destruct (decide (selectedName (client w) = "")) as [Hname|Hname].
    { by rewrite (handleEnter_empty_run sha256 w (or_introl Hname)). }
    destruct (decide (code (client w) = "")) as [Hcode|Hcode].
    { by rewrite (handleEnter_empty_run sha256 w (or_intror Hcode)). }
    destruct (users (store w) !! selectedName (client w)) as [data|] eqn:Hd.
    + destruct (decide (UserDoc.codeHash data = sha256 (code (client w)))) as [Hch|Hch].
      * rewrite (handleEnter_match_run sha256 w data) by done. simpl.
        apply elem_of_cons. by right.
      * by rewrite (handleEnter_wrong_code_run sha256 w data).
    + rewrite (handleEnter_create_run sha256 w) by done. simpl.
      apply elem_of_cons. by right.
  - simpl. unfold run, addHabit, mbind, action_bind, getClient.
    destruct (userDoc (client w)) as [[n u]|]; [|done].
    destruct (15 <=? _); [done|]. destruct (String.eqb _ ""); [done|].
    destruct (newIntervalDays _);
      [|unfold updateBeyond; handler; by destruct (users (store w) !! n)].
    pose proof (updateUser_listeners n
                  (withHabits (UserDoc.habits u ++ [habit uuid (newHabit (client w))])) w) as Hl.
    destruct (updateUser _ _ w) as [[] w'|o w']; handler; simpl; by rewrite Hl.
  - simpl. unfold run, deleteHabit, mbind, action_bind, getClient.
    destruct (userDoc (client w)) as [[n u]|]; [|done].
    match goal with |- context [updateUser ?a ?b w] =>
      pose proof (updateUser_listeners a b w) as Hl; destruct (updateUser a b w) as [[] w'|o w']
    end; handler; simpl; by rewrite Hl.
  - simpl. unfold run, completeHabit, mbind, action_bind, getClient.
    destruct (userDoc (client w)) as [[n u]|]; [|done].
    match goal with |- context [updateUser ?a ?b w] =>
      pose proof (updateUser_listeners a b w) as Hl; destruct (updateUser a b w) as [[] w'|o w']
    end; handler; simpl; by rewrite Hl.
Qed.

(** X29. No action cancels a listener: a document the component listens
    on is still listened on after any sequence of actions, "Switch user"
    included, which only clears [userDoc]; so the next snapshot of that
    document signs its user in again. *)
Theorem listeners_never_cancelled events w name data :
  name ∈ listeners (client w) ->
  name ∈ listeners (client (after localOffset sha256 events w)) /\
  (users (store (after localOffset sha256 (events ++ [SwitchUser]) w)) !! name = Some data ->
   userDoc (client (after localOffset sha256 (events ++ [SwitchUser]) w)) = None /\
   userDoc (client (run (onUserSnapshot name)
                        (after localOffset sha256 (events ++ [SwitchUser]) w)).2)
     = Some (name, data)).
Proof.
  intros Hin.
  assert (Hkept : forall evs w0, name ∈ listeners (client w0) ->
                                 name ∈ listeners (client (after localOffset sha256 evs w0))).
  { induction evs as [|e rest IH]; intros w0 H0; simpl; [done|]. by apply IH, listeners_kept. }
  split; [by apply Hkept|].
  assert (Happ : forall evs w0, after localOffset sha256 (evs ++ [SwitchUser]) w0
                   = (run switchUser (after localOffset sha256 evs w0)).2).
  { induction evs as [|e rest IH]; intros w0; simpl; [done | apply IH]. }
  rewrite Happ. set (w1 := after localOffset sha256 events w). plumbing.
  intros Hd. split; [done|]. by rewrite Hd.
Qed.

End ListenerFacts.

(** ** The text of a digest *)

Lemma hex_cons (b : Z) (rest : list Z) :
  0 <= b <= 255 ->
  Hex.hex (b :: rest)
  = String (Hex.hexDigit (b / 16)) (String (Hex.hexDigit (b mod 16)) (Hex.hex rest)).
Proof.
  intros Hb. simpl. unfold Hex.toString16.
  destruct (Z.ltb_spec b 16); simpl; [|done].
  rewrite Z.div_small, Z.mod_small by lia. done.
Qed.

Lemma hexDigit_inj (a b : Z) :
  0 <= a <= 15 -> 0 <= b <= 15 -> Hex.hexDigit a = Hex.hexDigit b -> a = b.
Proof.
  intros Ha Hb Heq. apply (f_equal nat_of_ascii) in Heq. unfold Hex.hexDigit in Heq.
  destruct (Z.ltb_spec a 10), (Z.ltb_spec b 10);
    rewrite !nat_ascii_embedding in Heq by lia; lia.
Qed.

Lemma hexDigit_range (n : Z) :
  0 <= n <= 15 ->
  (48 <= nat_of_ascii (Hex.hexDigit n) <= 57)%nat \/
  (97 <= nat_of_ascii (Hex.hexDigit n) <= 102)%nat.
Proof.
  intros Hn. unfold Hex.hexDigit.
  destruct (Z.ltb_spec n 10); rewrite nat_ascii_embedding by lia; lia.
Qed.

(** X28. The text of a digest has two characters for every byte, all of
    them among [0-9a-f], and two different byte sequences never give the
    same text; a 32-byte digest gives 64 characters. *)
Theorem hex_faithful (bytes bytes' : list Z) :
  Forall (fun b => 0 <= b <= 255) bytes ->
  Forall (fun b => 0 <= b <= 255) bytes' ->
  String.length (Hex.hex bytes) = (2 * length bytes)%nat /\
  Forall (fun c => (48 <= nat_of_ascii c <= 57)%nat \/ (97 <= nat_of_ascii c <= 102)%nat)
         (list_ascii_of_string (Hex.hex bytes)) /\
  (Hex.hex bytes = Hex.hex bytes' -> bytes = bytes') /\
  (length bytes = 32%nat -> String.length (Hex.hex bytes) = 64%nat).
Proof.
  intros Hb Hb'.
  assert (Hlen : String.length (Hex.hex bytes) = (2 * length bytes)%nat).
  { clear Hb'. induction Hb as [|b r Hbyte _ IH]; [done|].
    rewrite hex_cons by done. simpl. rewrite IH. lia. }
  split_and!; [done | | | intros H32; rewrite Hlen, H32; done].
  - clear Hb' Hlen. induction Hb as [|b r Hbyte _ IH]; [constructor|].
    rewrite hex_cons by done. simpl.
    constructor; [apply hexDigit_range; Z.to_euclidean_division_equations; lia|].
    constructor; [apply hexDigit_range; Z.to_euclidean_division_equations; lia | exact IH].
  - clear Hlen. revert bytes' Hb'. induction Hb as [|b r Hbyte _ IH]; intros bytes' Hb' Heq.
    + destruct Hb' as [|b' r' Hbyte' _]; [done|]. by rewrite hex_cons in Heq.
    + destruct Hb' as [|b' r' Hbyte' Hr']; [by rewrite hex_cons in Heq|].
      rewrite !hex_cons in Heq by done. injection Heq as Hhi Hlo Hrest.
      apply hexDigit_inj in Hhi; [|Z.to_euclidean_division_equations; lia..].
      apply hexDigit_inj in Hlo; [|Z.to_euclidean_division_equations; lia..].
      f_equal; [Z.to_euclidean_division_equations; lia | by apply IH].
Qed.

(** ** The clock *)

Section ClockFacts.

Lemma civil_from_days_inverse (z : Z) :
  let '(y, m, d) := Clock.civil_from_days z in
  DateUtil.days_from_civil y m d = z /\ 1 <= m <= 12 /\ 1 <= d <= DateUtil.days_in_month y m.
Proof.
  unfold Clock.civil_from_days, DateUtil.days_from_civil.
  set (z' := z + 719468).
  set (era := z' / 146097).
  set (doe := z' - era * 146097).
  set (yoe := (doe - doe / 1460 + doe / 36524 - doe / 146096) / 365).
  set (doy := doe - (365 * yoe + yoe / 4 - yoe / 100)).
  set (mp := (5 * doy + 2) / 153).
  assert (Hdoe : 0 <= doe < 146097) by (subst doe era; Z.to_euclidean_division_equations; lia).
  assert (Hyoe : 0 <= yoe <= 399) by (subst yoe; Z.to_euclidean_division_equations; lia).
  assert (Hdoy : 0 <= doy <= 365) by (subst doy yoe; Z.to_euclidean_division_equations; lia).
  assert (Hmp : 0 <= mp <= 11) by (subst mp; Z.to_euclidean_division_equations; lia).
  assert (Hfeb : doy = 365 -> (yoe + 1) mod 4 = 0 /\ ((yoe + 1) mod 100 <> 0 \/ yoe = 399))
    by (subst doy yoe; Z.to_euclidean_division_equations; lia).
  assert (Hd : 1 <= doy - (153 * mp + 2) / 5 + 1)
    by (subst mp; Z.to_euclidean_division_equations; lia).
  assert (Hup : doy - (153 * mp + 2) / 5 + 1 <= (153 * (mp + 1) + 2) / 5 - (153 * mp + 2) / 5)
    by (subst mp; Z.to_euclidean_division_equations; lia).
  assert (Hera : (yoe + era * 400) / 400 = era) by (Z.to_euclidean_division_equations; lia).
  assert (Hz : z = era * 146097 + doe - 719468) by (subst doe z'; lia).
  assert (Hdoe' : doe = yoe * 365 + yoe / 4 - yoe / 100 + doy) by (subst doy; lia).
  assert (Hm : mp = 0 \/ mp = 1 \/ mp = 2 \/ mp = 3 \/ mp = 4 \/ mp = 5 \/ mp = 6 \/ mp = 7
               \/ mp = 8 \/ mp = 9 \/ mp = 10 \/ mp = 11) by lia.
  clearbody mp doy yoe doe era. clear z'.
  unfold DateUtil.days_in_month, DateUtil.is_leap.
  destruct Hm as [Hm|[Hm|[Hm|[Hm|[Hm|[Hm|[Hm|[Hm|[Hm|[Hm|[Hm|Hm]]]]]]]]]]];
    subst mp; simpl in *;
    rewrite ?Z.add_simpl_r, ?Hera;
    try (split; [Z.to_euclidean_division_equations; lia|];
         split; [lia|]; Z.to_euclidean_division_equations; lia).
  split; [Z.to_euclidean_division_equations; lia|].
  split; [lia|]. split; [Z.to_euclidean_division_equations; lia|].
  destruct (Z.eqb_spec ((yoe + era * 400 + 1) mod 4) 0),
           (Z.eqb_spec ((yoe + era * 400 + 1) mod 100) 0),
           (Z.eqb_spec ((yoe + era * 400 + 1) mod 400) 0); simpl;
    Z.to_euclidean_division_equations; lia.
Qed.

Lemma digit_of_digit (n : Z) : 0 <= n <= 9 -> JS.digit_of (Clock.digit n) = Some n.
Proof.
  intros Hn. unfold JS.digit_of, Clock.digit.
  rewrite nat_ascii_embedding by lia.
  destruct (Nat.leb_spec 48 (48 + Z.to_nat n)); [|lia].
  destruct (Nat.leb_spec (48 + Z.to_nat n) 57); [|lia].
  simpl. f_equal. lia.
Qed.

Lemma two_digits_pad (n : Z) :
  0 <= n <= 99 ->
  DateUtil.two_digits (Clock.digit (n / 10)) (Clock.digit (n mod 10)) = Some n.
Proof.
  intros Hn. unfold DateUtil.two_digits.
  rewrite !digit_of_digit by (Z.to_euclidean_division_equations; lia).
  f_equal. Z.to_euclidean_division_equations; lia.
Qed.

(** A calendar date written as [YYYY-MM-DD] reads back as itself. *)
Lemma parseYMD_written (y m d : Z) :
  0 <= y <= 9999 -> 1 <= m <= 12 -> 1 <= d <= DateUtil.days_in_month y m ->
  DateUtil.parseYMD
    (Clock.pad4 y (String "-" (Clock.pad2 m (String "-" (Clock.pad2 d "")))))
  = Some (y, m, d).
Proof.
  intros Hy Hm Hd.
  assert (Hd31 : d <= 31).
  { unfold DateUtil.days_in_month in Hd.
    destruct (m =? 2); [destruct (DateUtil.is_leap y); lia|].
    destruct (_ || _); lia. }
  unfold DateUtil.parseYMD, Clock.pad4, Clock.pad2.
  rewrite !two_digits_pad by (Z.to_euclidean_division_equations; lia).
  replace (100 * (y / 100) + y mod 100) with y by (Z.to_euclidean_division_equations; lia).
  destruct (Z.leb_spec 1 m); [|lia]. destruct (Z.leb_spec m 12); [|lia].
  destruct (Z.leb_spec 1 d); [|lia].
  destruct (Z.leb_spec d (DateUtil.days_in_month y m)); [done | lia].
Qed.

Lemma year_in_range (y m d : Z) :
  1 <= m <= 12 -> 1 <= d <= 31 ->
  DateUtil.days_from_civil 0 1 1 <= DateUtil.days_from_civil y m d
    < DateUtil.days_from_civil 10000 1 1 ->
  0 <= y <= 9999.
Proof.
  intros Hm Hd. change (DateUtil.days_from_civil 0 1 1) with (-719528).
  change (DateUtil.days_from_civil 10000 1 1) with 2932897.
  unfold DateUtil.days_from_civil.
  destruct (Z.leb_spec m 2), (Z.ltb_spec 2 m); try lia;
    Z.to_euclidean_division_equations; lia.
Qed.

(** The text of a clock reading within the years 0000 to 9999. *)
Lemma todayYMD_parse (now : Z) :
  DateUtil.days_from_civil 0 1 1 * DateUtil.msPerDay <= now
    < DateUtil.days_from_civil 10000 1 1 * DateUtil.msPerDay ->
  exists y m d,
    DateUtil.parseYMD (Clock.todayYMD now) = Some (y, m, d) /\
    DateUtil.days_from_civil y m d = now / DateUtil.msPerDay.
Proof.
  intros Hnow. unfold Clock.todayYMD.
  pose proof (civil_from_days_inverse (now / DateUtil.msPerDay)) as Hinv.
  destruct (Clock.civil_from_days (now / DateUtil.msPerDay)) as [[y m] d].
  destruct Hinv as (Hday & Hm & Hd).
  assert (Hd31 : d <= 31).
  { unfold DateUtil.days_in_month in Hd.
    destruct (m =? 2); [destruct (DateUtil.is_leap y); lia|].
    destruct (_ || _); lia. }
  assert (Hy : 0 <= y <= 9999).
  { apply (year_in_range y m d); [done | lia |]. rewrite Hday.
    revert Hnow. change (DateUtil.days_from_civil 0 1 1) with (-719528).
    change (DateUtil.days_from_civil 10000 1 1) with 2932897.
    unfold DateUtil.msPerDay. intros Hnow. Z.to_euclidean_division_equations; lia. }
  destruct (Z.leb_spec 0 y); [|lia]. destruct (Z.leb_spec y 9999); [|lia]. cbn [andb].
  exists y, m, d. split; [by apply parseYMD_written | done].
Qed.

Lemma todayYMD_same_day (t1 t2 : Z) :
  t1 / DateUtil.msPerDay = t2 / DateUtil.msPerDay -> Clock.todayYMD t1 = Clock.todayYMD t2.
Proof. unfold Clock.todayYMD. by intros ->. Qed.

Lemma todayYMD_days (localOffset : Z -> Z) (t1 t2 : Z) :
  (forall a b, - DateUtil.msPerDay <= 2 * (localOffset a - localOffset b) < DateUtil.msPerDay) ->
  DateUtil.days_from_civil 0 1 1 * DateUtil.msPerDay <= t1
    < DateUtil.days_from_civil 10000 1 1 * DateUtil.msPerDay ->
  DateUtil.days_from_civil 0 1 1 * DateUtil.msPerDay <= t2
    < DateUtil.days_from_civil 10000 1 1 * DateUtil.msPerDay ->
  DateUtil.daysBetween localOffset (Clock.todayYMD t1) (Clock.todayYMD t2)
    = Some (t2 / DateUtil.msPerDay - t1 / DateUtil.msPerDay) /\
  (Clock.todayYMD t1 = Clock.todayYMD t2 <-> t1 / DateUtil.msPerDay = t2 / DateUtil.msPerDay).
Proof.
  intros Hoff H1 H2.
  destruct (todayYMD_parse t1 H1) as (y1 & m1 & d1 & Hp1 & Hday1).
  destruct (todayYMD_parse t2 H2) as (y2 & m2 & d2 & Hp2 & Hday2).
  split.
  - rewrite (daysBetween_exact localOffset _ _ _ _ _ _ _ _ Hoff Hp1 Hp2). by rewrite Hday1, Hday2.
  - split; [|apply todayYMD_same_day].
    intros Heq. rewrite Heq, Hp2 in Hp1. injection Hp1 as <- <- <-. congruence.
Qed.

(** X25. For every clock reading within the years 0000 to 9999,
    [todayYMD()] is a calendar date that [daysBetween] reads back as the
    UTC day of the reading; in any time zone it is 0 days from itself. *)
Theorem todayYMD_reads_back (localOffset : Z -> Z) (now : Z) :
  DateUtil.days_from_civil 0 1 1 * DateUtil.msPerDay <= now
    < DateUtil.days_from_civil 10000 1 1 * DateUtil.msPerDay ->
  (exists y m d,
     DateUtil.parseYMD (Clock.todayYMD now) = Some (y, m, d) /\
     Clock.civil_from_days (now / DateUtil.msPerDay) = (y, m, d) /\
     DateUtil.days_from_civil y m d = now / DateUtil.msPerDay) /\
  DateUtil.daysBetween localOffset (Clock.todayYMD now) (Clock.todayYMD now) = Some 0.
Proof.
  intros Hnow. destruct (todayYMD_parse now Hnow) as (y & m & d & Hp & Hday).
  split.
  - exists y, m, d. split_and!; [done | | done].
    pose proof (civil_from_days_inverse (now / DateUtil.msPerDay)) as Hinv.
    revert Hp. unfold Clock.todayYMD.
    destruct (Clock.civil_from_days (now / DateUtil.msPerDay)) as [[y' m'] d'].
    destruct Hinv as (Hday' & Hm & Hd).
    assert (Hy : 0 <= y' <= 9999).
    { apply (year_in_range y' m' d'); [done | |].
      - unfold DateUtil.days_in_month in Hd.
        destruct (m' =? 2); [destruct (DateUtil.is_leap y'); lia|].
        destruct (_ || _); lia.
      - rewrite Hday'. revert Hnow. change (DateUtil.days_from_civil 0 1 1) with (-719528).
        change (DateUtil.days_from_civil 10000 1 1) with 2932897.
        unfold DateUtil.msPerDay. intros Hnow. Z.to_euclidean_division_equations; lia. }
    destruct (Z.leb_spec 0 y'); [|lia]. destruct (Z.leb_spec y' 9999); [|lia]. cbn [andb].
    rewrite parseYMD_written by done. congruence.
  - apply daysBetween_same. by eexists.
Qed.

(** X26. Where the zone's offset varies by less than half a day, two
    clock readings within the years 0000 to 9999 are as many days apart
    for [daysBetween] as their UTC days; they give the same text exactly
    on the same UTC day; and a habit done at the first reading is due at
    the second exactly when [interval] UTC days or more have passed. *)
Theorem due_by_the_clock (localOffset : Z -> Z) (h : Habit.t) (t1 t2 : Z) :
  (forall a b, - DateUtil.msPerDay <= 2 * (localOffset a - localOffset b) < DateUtil.msPerDay) ->
  DateUtil.days_from_civil 0 1 1 * DateUtil.msPerDay <= t1
    < DateUtil.days_from_civil 10000 1 1 * DateUtil.msPerDay ->
  DateUtil.days_from_civil 0 1 1 * DateUtil.msPerDay <= t2
    < DateUtil.days_from_civil 10000 1 1 * DateUtil.msPerDay ->
  DateUtil.daysBetween localOffset (Clock.todayYMD t1) (Clock.todayYMD t2)
    = Some (t2 / DateUtil.msPerDay - t1 / DateUtil.msPerDay) /\
  (Clock.todayYMD t1 = Clock.todayYMD t2 <-> t1 / DateUtil.msPerDay = t2 / DateUtil.msPerDay) /\
  (Habit.lastDoneDate h = Some (Clock.todayYMD t1) ->
     (isHabitDue localOffset h (Clock.todayYMD t2) = true <->
      t1 / DateUtil.msPerDay + interval h <= t2 / DateUtil.msPerDay)).
Proof.
  intros Hoff H1 H2. destruct (todayYMD_days localOffset t1 t2 Hoff H1 H2) as [Hdays Hsame].
  split_and!; [done | done |].
  intros Hlast. unfold isHabitDue. rewrite Hlast, Hdays. simpl.
  destruct (todayYMD_parse t1 H1) as (y & m & d & Hp & _).
  assert (Hne : Clock.todayYMD t1 <> "") by (apply parseYMD_nonempty; by eexists).
  apply String.eqb_neq in Hne as ->. rewrite Z.leb_le. lia.
Qed.

(** X27. Under the same conditions, a completion on the UTC day of the
    last one leaves the streak as it is, a completion on the next UTC
    day adds one, and a completion on any other day sets it to 1. *)
Theorem streak_by_the_clock (localOffset : Z -> Z) (u : UserDoc.t) (t1 t2 : Z) :
  (forall a b, - DateUtil.msPerDay <= 2 * (localOffset a - localOffset b) < DateUtil.msPerDay) ->
  DateUtil.days_from_civil 0 1 1 * DateUtil.msPerDay <= t1
    < DateUtil.days_from_civil 10000 1 1 * DateUtil.msPerDay ->
  DateUtil.days_from_civil 0 1 1 * DateUtil.msPerDay <= t2
    < DateUtil.days_from_civil 10000 1 1 * DateUtil.msPerDay ->
  UserDoc.lastActiveDate u = Some (Clock.todayYMD t1) ->
  (t2 / DateUtil.msPerDay = t1 / DateUtil.msPerDay ->
     newStreak localOffset u (Clock.todayYMD t2) = UserDoc.overallStreak u) /\
  (t2 / DateUtil.msPerDay = t1 / DateUtil.msPerDay + 1 ->
     newStreak localOffset u (Clock.todayYMD t2) = UserDoc.overallStreak u + 1) /\
  (t2 / DateUtil.msPerDay <> t1 / DateUtil.msPerDay ->
   t2 / DateUtil.msPerDay <> t1 / DateUtil.msPerDay + 1 ->
     newStreak localOffset u (Clock.todayYMD t2) = 1).
Proof.
  intros Hoff H1 H2 Hlast.
  destruct (todayYMD_days localOffset t1 t2 Hoff H1 H2) as [Hdays Hsame].
  destruct (newStreak_cases localOffset u (Clock.todayYMD t2)) as (Heq & _ & Hgap).
  split_and!.
  - intros Hday. apply Heq. rewrite Hlast. f_equal. apply Hsame. done.
  - intros Hday. apply (Hgap _ Hlast).
    + intros Htext%Hsame. lia.
    + rewrite Hdays. f_equal. lia.
  - intros Hne Hne'. apply (Hgap _ Hlast).
    + intros Htext%Hsame. lia.
    + rewrite Hdays. intros [= Hone]. lia.
Qed.

End ClockFacts.

(** * Examples for the further facts *)

Lemma fresh_emptyWorld : fresh emptyWorld.
Proof. by repeat split. Qed.

Lemma summerTime_steady (a b : Z) :
  - DateUtil.msPerDay <= 2 * (summerTime a - summerTime b) < DateUtil.msPerDay.
Proof.
  unfold summerTime, DateUtil.msPerDay.
  destruct (_ && _), (_ && _); lia.
Qed.

Lemma stored_scores_consistent_witness :
  UserDoc.points annAfterVisit = UserDoc.xp annAfterVisit /\
  UserDoc.level annAfterVisit = UserDoc.xp annAfterVisit / 100 + 1 /\
  (UserDoc.lastActiveDate annAfterVisit = None ->
     UserDoc.xp annAfterVisit = 0 /\ UserDoc.overallStreak annAfterVisit = 0) /\
  (is_Some (UserDoc.lastActiveDate annAfterVisit) ->
     10 <= UserDoc.xp annAfterVisit /\ 1 <= UserDoc.overallStreak annAfterVisit).
Proof.
  apply (stored_scores_consistent utc digest visit emptyWorld "ann" annAfterVisit);
    [apply fresh_emptyWorld | by vm_compute].
Defined.

Lemma stored_habits_well_formed_witness :
  (length (UserDoc.habits annAfterVisit) <= 15)%nat /\
  Forall (fun h => 1 <= Habit.intervalDays h /\ Habit.title h <> "" /\
                   0 <= Habit.totalCompletions h /\
                   (Habit.lastDoneDate h = None <-> Habit.totalCompletions h = 0))
         (UserDoc.habits annAfterVisit).
Proof.
  apply (stored_habits_well_formed utc digest visit emptyWorld "ann" annAfterVisit);
    [apply fresh_emptyWorld | by vm_compute].
Defined.

Lemma stored_leaderboard_consistent_witness :
  BoardOk (users (store (after utc digest visit emptyWorld)))
          (default [] (leaderboard (store (after utc digest visit emptyWorld)))) /\
  Forall (fun p => validId (Player.name p) = true)
         (default [] (leaderboard (store (after utc digest visit emptyWorld)))).
Proof.
  apply (stored_leaderboard_consistent utc digest visit emptyWorld);
    [apply fresh_emptyWorld | right; reflexivity | repeat constructor].
Defined.

Lemma stored_roster_consistent_witness :
  RosterOk (users (store (after utc digest visit emptyWorld)))
           (default [] (roster (store (after utc digest visit emptyWorld)))).
Proof. apply (stored_roster_consistent utc digest visit emptyWorld), fresh_emptyWorld. Defined.

Lemma handlers_find_their_document_witness :
  (forall name u, userDoc (client (after utc digest visit emptyWorld)) = Some (name, u) ->
     validId name = true /\
     users (store (after utc digest visit emptyWorld)) !! name = Some u) /\
  nameOk (selectedName (client (after utc digest visit emptyWorld))) /\
  (run (handle utc digest (DeleteHabit "h1")) (after utc digest visit emptyWorld)).1 <> Rejected.
Proof.
  apply (handlers_find_their_document utc digest visit (DeleteHabit "h1") emptyWorld);
    [apply fresh_emptyWorld | right; reflexivity | repeat constructor].
Defined.

Example validId_examples :
  validId "ann" = true /\ validId "Ann Lee" = true /\
  validId "" = false /\ validId "a/b" = false /\ validId "ann/" = false /\
  validId "." = false /\ validId ".." = false /\ validId "__ann__" = false /\
  validId "__" = true /\ validId "____" = false.
Proof. by vm_compute. Qed.

Example visit_result :
  users (store (after utc digest visit emptyWorld)) !! "ann" = Some annAfterVisit /\
  leaderboard (store (after utc digest visit emptyWorld)) = Some [Player.mk "ann" 30 2 1] /\
  roster (store (after utc digest visit emptyWorld)) = Some ["ann"] /\
  userDoc (client (after utc digest visit emptyWorld)) = Some ("ann", annAfterVisit).
Proof. by vm_compute. Qed.

(** Equal points: the sixth player stays out; one point more gets in. *)
Example reconcile_keeps_candidate_examples :
  Board.reconcile topFive (Player.mk "f" 50 1 1) = topFive /\
  Board.reconcile topFive (Player.mk "f" 51 1 1)
    = [Player.mk "a" 90 1 1; Player.mk "b" 80 1 1; Player.mk "c" 70 1 1;
       Player.mk "d" 60 1 1; Player.mk "f" 51 1 1].
Proof. by vm_compute. Qed.

Lemma just_completed_not_due_witness :
  isHabitDue summerTime (markDone "h2" "2024-03-31" stretching) "2024-03-31" = false /\
  nextDueIn summerTime (markDone "h2" "2024-03-31" stretching) "2024-03-31"
    = Some (interval stretching).
Proof.
  apply (just_completed_not_due summerTime "h2" "2024-03-31" stretching);
    [reflexivity | by eexists].
Defined.

Lemma due_from_the_interval_on_witness :
  DateUtil.daysBetween summerTime "2024-01-01" "2024-04-01"
    = Some (DateUtil.days_from_civil 2024 4 1 - DateUtil.days_from_civil 2024 1 1) /\
  DateUtil.daysBetween summerTime "2024-04-01" "2024-01-01"
    = Some (DateUtil.days_from_civil 2024 1 1 - DateUtil.days_from_civil 2024 4 1) /\
  (isHabitDue summerTime stretching "2024-04-01" = true <->
   DateUtil.days_from_civil 2024 1 1 + interval stretching <= DateUtil.days_from_civil 2024 4 1).
Proof.
  apply (due_from_the_interval_on summerTime stretching "2024-01-01" "2024-04-01");
    [apply summerTime_steady | reflexivity | reflexivity | reflexivity].
Defined.

Lemma nextDueIn_positive_witness :
  0 < 2 /\
  exists last gap,
    Habit.lastDoneDate stretching = Some last /\
    DateUtil.daysBetween utc last "2024-01-02" = Some gap /\
    gap < interval stretching /\
    2 = interval stretching - gap.
Proof.
  apply (nextDueIn_positive utc stretching "2024-01-02" 2); reflexivity.
Defined.

Lemma dueCount_after_completion_witness :
  dueCount utc (client (run (completeHabit utc "h2" "2024-01-04") signedIn).2) "2024-01-04"
  = length (List.filter (fun h => isHabitDue utc h "2024-01-04"
                                  && negb (String.eqb (Habit.id h) "h2")) (UserDoc.habits ann)) /\
  (dueCount utc (client (run (completeHabit utc "h2" "2024-01-04") signedIn).2) "2024-01-04"
   <= dueCount utc (client signedIn) "2024-01-04")%nat.
Proof.
  apply (dueCount_after_completion utc "h2" "2024-01-04" signedIn "ann" ann ann);
    [reflexivity | reflexivity | apply list_elem_of_singleton; reflexivity | by eexists].
Defined.

Example dueCount_examples :
  dueCount utc (client signedIn) "2024-01-04" = 2%nat /\
  dueCount utc (client (run (completeHabit utc "h2" "2024-01-04") signedIn).2) "2024-01-04" = 1%nat /\
  dueCount utc (client atGate) "2024-01-04" = 0%nat.
Proof. by vm_compute. Qed.

Lemma level_every_hundred_witness :
  levelFromXP (95 + 100) = levelFromXP 95 + 1 /\
  (95 <= 105 -> levelFromXP 95 <= levelFromXP 105) /\
  (0 <= 95 -> 1 <= levelFromXP 95).
Proof. apply (level_every_hundred 95 105). Defined.

Lemma handleEnter_requires_name_and_code_witness :
  run (handleEnter digest) (run (setCode "") atGate).2
    = (Alert "Enter name and code", (run (setCode "") atGate).2).
Proof.
  apply (handleEnter_requires_name_and_code digest (run (setCode "") atGate).2).
  right. reflexivity.
Defined.

Lemma handleEnter_signs_in_witness :
  exists w',
    run (handleEnter digest) (run (setCode "1234") atGate).2 = (Done, w') /\
    store w' = store (run (setCode "1234") atGate).2 /\
    userDoc (client w') = Some (selectedName (client (run (setCode "1234") atGate).2), ann) /\
    loading (client w') = false /\
    selectedName (client (run (setCode "1234") atGate).2) ∈ listeners (client w').
Proof.
  apply (handleEnter_signs_in digest (run (setCode "1234") atGate).2 ann);
    [discriminate | discriminate | reflexivity | reflexivity].
Defined.

Lemma handleEnter_creates_defaults_witness :
  exists w',
    run (handleEnter digest) newcomer = (Done, w') /\
    users (store w') !! selectedName (client newcomer)
      = Some (UserDoc.mk (digest (code (client newcomer))) 0 0 1 0 None []) /\
    (forall other, other <> selectedName (client newcomer) ->
       users (store w') !! other = users (store newcomer) !! other) /\
    leaderboard (store w') = leaderboard (store newcomer) /\
    userDoc (client w')
      = Some (selectedName (client newcomer),
              UserDoc.mk (digest (code (client newcomer))) 0 0 1 0 None []).
Proof.
  apply (handleEnter_creates_defaults digest newcomer);
    [reflexivity | discriminate | reflexivity].
Defined.


Example handleEnter_roster_example :
  roster (store (run (handleEnter digest) newcomer).2) = Some ["ann"; "bob"].
Proof. by vm_compute. Qed.


Lemma addHabit_title_witness :
  (exists w' d' h,
     run (addHabit "h3") (titled "") = (Done, w') /\
     users (store w') !! "ann" = Some d' /\
     UserDoc.habits d' = UserDoc.habits ann ++ [h] /\
     Habit.title h = "Untitled") /\
  (NewHabit.title (newHabit (client (titled "   "))) <> "" /\
   run (addHabit "h3") (titled "   ") = (Alert "Give the habit a title", titled "   ")).
Proof.
  split.
  - apply (addHabit_title "h3" (titled "") "ann" ann ann 2);
      [reflexivity | reflexivity | vm_compute; lia | reflexivity | reflexivity].
  - apply (addHabit_title "h3" (titled "   ") "ann" ann ann 2);
      [reflexivity | reflexivity | vm_compute; lia | reflexivity | reflexivity].
Defined.

Example trim_examples :
  JS.trim "  Walk the dog " = "Walk the dog" /\
  JS.trim (nbsp +:+ " Walk " +:+ nbsp) = "Walk" /\
  JS.trim (" " +:+ nbsp) = "" /\
  JS.Number_of_string (nbsp +:+ "12 ") = JS.Finite false 12 0 /\
  run (addHabit "h3") (titled nbsp) = (Alert "Give the habit a title", titled nbsp).
Proof. by vm_compute. Qed.

Example addHabit_title_examples :
  run (addHabit "h3") (titled "   ") = (Alert "Give the habit a title", titled "   ") /\
  UserDoc.habits <$> users (store (run (addHabit "h3") (titled "")).2) !! "ann"
    = Some [reading; stretching; Habit.mk "h3" "Untitled" "every2days" 2 None 0] /\
  UserDoc.habits <$> users (store (run (addHabit "h3") (titled "  Walk the dog ")).2) !! "ann"
    = Some [reading; stretching; Habit.mk "h3" "Walk the dog" "every2days" 2 None 0].
Proof. by vm_compute. Qed.

Lemma addHabit_stores_new_habit_witness :
  exists w' d' h,
    run (addHabit "h3") (typing "7") = (Done, w') /\
    users (store w') !! "ann" = Some d' /\
    UserDoc.habits d' = UserDoc.habits ann ++ [h] /\
    newHabit (client w') = NewHabit.mk "" "daily" (NewHabit.NumberValue 1) /\
    Habit.id h = "h3" /\
    Habit.title h = JS.trim (JS.or_str (NewHabit.title (newHabit (client (typing "7")))) "Untitled") /\
    Habit.lastDoneDate h = None /\ Habit.totalCompletions h = 0 /\
    Habit.freq h = NewHabit.freq (newHabit (client (typing "7"))) /\
    (forall date, isHabitDue utc h date = true) /\
    (Habit.freq h = "every2days" -> Habit.intervalDays h = 2) /\
    (Habit.freq h <> "every2days" -> Habit.freq h <> "custom" -> Habit.intervalDays h = 1) /\
    (forall n, Habit.freq h = "custom" ->
       wholeInterval (NewHabit.intervalDays (newHabit (client (typing "7")))) n ->
       Habit.intervalDays h = n).
Proof.
  apply (addHabit_stores_new_habit utc "h3" (typing "7") "ann" ann ann 7);
    [reflexivity | reflexivity | vm_compute; lia | vm_compute; discriminate | reflexivity].
Defined.

Example wholeInterval_examples :
  wholeInterval (NewHabit.TextValue "7") 7 /\
  wholeInterval (NewHabit.TextValue "1e2") 100 /\
  wholeInterval (NewHabit.TextValue "3.0") 3 /\
  wholeInterval (NewHabit.TextValue "0x1F") 31 /\
  wholeInterval (NewHabit.NumberValue 1) 1.
Proof.
  split_and!; eexists _, _, _; (split; [by vm_compute|]); by vm_compute.
Qed.

Example addHabit_interval_examples :
  UserDoc.habits <$> users (store (run (addHabit "h3") (typing "7")).2) !! "ann"
    = Some [reading; stretching; Habit.mk "h3" "Run" "custom" 7 None 0] /\
  UserDoc.habits <$> users (store (run (addHabit "h3") (typing " 12 ")).2) !! "ann"
    = Some [reading; stretching; Habit.mk "h3" "Run" "custom" 12 None 0] /\
  UserDoc.habits <$> users (store (run (addHabit "h3") (typing "1e2")).2) !! "ann"
    = Some [reading; stretching; Habit.mk "h3" "Run" "custom" 100 None 0] /\
  UserDoc.habits <$> users (store (run (addHabit "h3") (typing "3.0")).2) !! "ann"
    = Some [reading; stretching; Habit.mk "h3" "Run" "custom" 3 None 0].
Proof. by vm_compute. Qed.

Lemma deleteHabit_removes_witness :
  exists w' d',
    run (deleteHabit "h1") signedIn = (Done, w') /\
    users (store w') !! "ann" = Some d' /\
    UserDoc.habits d' = filter (fun h => Habit.id h <> "h1") (UserDoc.habits ann) /\
    (UserDoc.codeHash d', UserDoc.points d', UserDoc.xp d', UserDoc.level d',
     UserDoc.overallStreak d', UserDoc.lastActiveDate d')
      = (UserDoc.codeHash ann, UserDoc.points ann, UserDoc.xp ann, UserDoc.level ann,
         UserDoc.overallStreak ann, UserDoc.lastActiveDate ann) /\
    (forall other, other <> "ann" ->
       users (store w') !! other = users (store signedIn) !! other) /\
    roster (store w') = roster (store signedIn) /\
    leaderboard (store w') = leaderboard (store signedIn).
Proof.
  apply (deleteHabit_removes "h1" signedIn "ann" ann ann); reflexivity.
Defined.

Example deleteHabit_examples :
  UserDoc.habits <$> users (store (run (deleteHabit "h1") signedIn).2) !! "ann"
    = Some [stretching] /\
  UserDoc.habits <$> users (store (run (deleteHabit "gone") signedIn).2) !! "ann"
    = Some [reading; stretching].
Proof. by vm_compute. Qed.

Lemma addHabit_then_deleteHabit_witness :
  exists w2,
    run (deleteHabit "h3") (run (addHabit "h3") signedIn).2 = (Done, w2) /\
    users (store w2) !! "ann" = Some (withHabits (UserDoc.habits ann) ann).
Proof.
  apply (addHabit_then_deleteHabit "h3" signedIn "ann" ann ann);
    [reflexivity | reflexivity | apply list_elem_of_singleton; reflexivity
    | vm_compute; lia | vm_compute; discriminate | repeat constructor; discriminate].
Defined.

Lemma completeHabit_touches_own_document_witness :
  exists w' d',
    run (completeHabit utc "h2" "2024-01-04") signedIn = (Done, w') /\
    users (store w') !! "ann" = Some d' /\
    UserDoc.codeHash d' = UserDoc.codeHash ann /\
    UserDoc.lastActiveDate d' = Some "2024-01-04" /\
    (forall other, other <> "ann" ->
       users (store w') !! other = users (store signedIn) !! other) /\
    roster (store w') = roster (store signedIn).
Proof.
  apply (completeHabit_touches_own_document utc "h2" "2024-01-04" signedIn "ann" ann ann);
    reflexivity.
Defined.

Lemma completeHabit_needs_document_witness :
  run (completeHabit utc "h1" "2024-01-04") orphaned = (Rejected, orphaned) /\
  run (addHabit "h1") orphaned
    = (if (15 <=? Z.of_nat (length (UserDoc.habits ann)))
       then Alert "Max 15 habits"
       else if String.eqb (JS.trim (JS.or_str (NewHabit.title (newHabit (client orphaned))) "Untitled")) ""
            then Alert "Give the habit a title" else Rejected, orphaned) /\
  run (deleteHabit "h1") orphaned = (Rejected, orphaned).
Proof.
  apply (completeHabit_needs_document utc "h1" "2024-01-04" orphaned "ann" ann); reflexivity.
Defined.

Lemma stored_title_trimmed_witness :
  JS.is_space "W"%char = false /\ JS.is_space "g"%char = false.
Proof.
  split.
  - apply (proj1 (stored_title_trimmed "h3" blankForm "  Walk the dog ") "W"%char).
    reflexivity.
  - apply (proj1 (proj2 (stored_title_trimmed "h3" blankForm "  Walk the dog ")) "g"%char).
    reflexivity.
Defined.

Example todayYMD_examples :
  Clock.todayYMD 0 = "1970-01-01" /\
  Clock.todayYMD (-1) = "1969-12-31" /\
  Clock.todayYMD 951868799999 = "2000-02-29" /\
  Clock.todayYMD 1704153600000 = "2024-01-02" /\
  Clock.todayYMD 253402300800000 = "+010000-01".
Proof. by vm_compute. Qed.

(** the first and the last millisecond of 2024-01-02, and the next day *)
Lemma todayYMD_reads_back_witness :
  (exists y m d,
     DateUtil.parseYMD (Clock.todayYMD 1704239999999) = Some (y, m, d) /\
     Clock.civil_from_days (1704239999999 / DateUtil.msPerDay) = (y, m, d) /\
     DateUtil.days_from_civil y m d = 1704239999999 / DateUtil.msPerDay) /\
  DateUtil.daysBetween summerTime (Clock.todayYMD 1704239999999) (Clock.todayYMD 1704239999999)
    = Some 0.
Proof. apply (todayYMD_reads_back summerTime 1704239999999). by vm_compute. Defined.

Lemma due_by_the_clock_witness :
  DateUtil.daysBetween summerTime (Clock.todayYMD 1704153600000) (Clock.todayYMD 1704240000000)
    = Some (1704240000000 / DateUtil.msPerDay - 1704153600000 / DateUtil.msPerDay) /\
  (Clock.todayYMD 1704153600000 = Clock.todayYMD 1704240000000 <->
   1704153600000 / DateUtil.msPerDay = 1704240000000 / DateUtil.msPerDay) /\
  (Habit.lastDoneDate reading = Some (Clock.todayYMD 1704153600000) ->
     (isHabitDue summerTime reading (Clock.todayYMD 1704240000000) = true <->
      1704153600000 / DateUtil.msPerDay + interval reading <= 1704240000000 / DateUtil.msPerDay)).
Proof.
  apply (due_by_the_clock summerTime reading 1704153600000 1704240000000);
    [apply summerTime_steady | by vm_compute | by vm_compute].
Defined.

Lemma streak_by_the_clock_witness :
  (1704153600000 / DateUtil.msPerDay = 1704067200000 / DateUtil.msPerDay ->
     newStreak summerTime ann (Clock.todayYMD 1704153600000) = UserDoc.overallStreak ann) /\
  (1704153600000 / DateUtil.msPerDay = 1704067200000 / DateUtil.msPerDay + 1 ->
     newStreak summerTime ann (Clock.todayYMD 1704153600000) = UserDoc.overallStreak ann + 1) /\
  (1704153600000 / DateUtil.msPerDay <> 1704067200000 / DateUtil.msPerDay ->
   1704153600000 / DateUtil.msPerDay <> 1704067200000 / DateUtil.msPerDay + 1 ->
     newStreak summerTime ann (Clock.todayYMD 1704153600000) = 1).
Proof.
  apply (streak_by_the_clock summerTime ann 1704067200000 1704153600000);
    [apply summerTime_steady | by vm_compute | by vm_compute | reflexivity].
Defined.

Example hex_examples :
  Hex.hex [0; 15; 16; 171; 255] = "000f10abff" /\ Hex.hex [] = "".
Proof. by vm_compute. Qed.

Lemma hex_faithful_witness :
  String.length (Hex.hex [0; 15; 16; 255]) = (2 * length [0; 15; 16; 255])%nat /\
  Forall (fun c => (48 <= nat_of_ascii c <= 57)%nat \/ (97 <= nat_of_ascii c <= 102)%nat)
         (list_ascii_of_string (Hex.hex [0; 15; 16; 255])) /\
  (Hex.hex [0; 15; 16; 255] = Hex.hex [0; 15; 1; 6] -> [0; 15; 16; 255] = [0; 15; 1; 6]) /\
  (length [0; 15; 16; 255] = 32%nat -> String.length (Hex.hex [0; 15; 16; 255]) = 64%nat).
Proof.
  apply (hex_faithful [0; 15; 16; 255] [0; 15; 1; 6]); repeat constructor; lia.
Defined.

Lemma listeners_never_cancelled_witness :
  "ann" ∈ listeners (client (after utc digest [DeleteHabit "gone"] signedIn)) /\
  (users (store (after utc digest ([DeleteHabit "gone"] ++ [SwitchUser]) signedIn)) !! "ann"
     = Some ann ->
   userDoc (client (after utc digest ([DeleteHabit "gone"] ++ [SwitchUser]) signedIn)) = None /\
   userDoc (client (run (onUserSnapshot "ann")
                        (after utc digest ([DeleteHabit "gone"] ++ [SwitchUser]) signedIn)).2)
     = Some ("ann", ann)).
Proof.
  apply (listeners_never_cancelled utc digest [DeleteHabit "gone"] signedIn "ann" ann).
  apply list_elem_of_singleton. reflexivity.
Defined.

Example switchUser_example :
  users (store (after utc digest [DeleteHabit "gone"; SwitchUser] signedIn)) !! "ann" = Some ann /\
  userDoc (client (after utc digest [DeleteHabit "gone"; SwitchUser] signedIn)) = None /\
  listeners (client (after utc digest [DeleteHabit "gone"; SwitchUser] signedIn)) = ["ann"].
Proof. by vm_compute. Qed.
